(** * convert.py: batch conversion of USDZ assets to GLB

    A shallow embedding of [convert.py] together with the parts of the
    Python standard library it calls ([os.path] on POSIX, [fnmatch], [glob],
    [os.makedirs]) and an abstract host application ([bpy]).

    The script is a state-and-exception computation over a world made of
    the file system, the host application, standard output and a history
    of the calls the script makes to its environment.  The definitions come
    first: strings, [os.path], [fnmatch], the file system, [glob], the host
    application, the script, and a small host with sample file systems for
    concrete runs.  The properties follow. *)

From Stdlib Require Import String Ascii List ZArith Bool Arith Lia.
Import ListNotations.
Set Warnings "-register-all".

Open Scope list_scope.
Open Scope string_scope.

(** ** Strings *)

Fixpoint contains (c : ascii) (s : string) : bool :=
  match s with
  | EmptyString => false
  | String a r => Ascii.eqb a c || contains c r
  end.

Definition startswith (c : ascii) (s : string) : bool :=
  match s with
  | EmptyString => false
  | String a _ => Ascii.eqb a c
  end.

Fixpoint endswith (c : ascii) (s : string) : bool :=
  match s with
  | EmptyString => false
  | String a EmptyString => Ascii.eqb a c
  | String _ r => endswith c r
  end.

Definition is_empty (s : string) : bool :=
  match s with EmptyString => true | _ => false end.

(** [s == c * len(s)] *)
Fixpoint all_char (c : ascii) (s : string) : bool :=
  match s with
  | EmptyString => true
  | String a r => Ascii.eqb a c && all_char c r
  end.

(** [(p[:i], p[i:])] for [i = p.rfind(c) + 1]. *)
Fixpoint rpartition (c : ascii) (p : string) : string * string :=
  match p with
  | EmptyString => (EmptyString, EmptyString)
  | String a r =>
      if contains c r then
        let (h, t) := rpartition c r in (String a h, t)
      else if Ascii.eqb a c then (String a EmptyString, r)
      else (EmptyString, String a r)
  end.

(** [s.rstrip(c)] *)
Fixpoint rstrip (c : ascii) (s : string) : string :=
  match s with
  | EmptyString => EmptyString
  | String a r =>
      match rstrip c r with
      | EmptyString => if Ascii.eqb a c then EmptyString else String a EmptyString
      | r' => String a r'
      end
  end.

(** [s[:-1]] *)
Fixpoint drop_last (s : string) : string :=
  match s with
  | EmptyString => EmptyString
  | String _ EmptyString => EmptyString
  | String a r => String a (drop_last r)
  end.

(** [s.split(c)] *)
Fixpoint split_on (c : ascii) (s : string) : list string :=
  match s with
  | EmptyString => [EmptyString]
  | String a r =>
      if Ascii.eqb a c then EmptyString :: split_on c r
      else match split_on c r with
           | [] => [String a EmptyString]
           | t :: ts => String a t :: ts
           end
  end.

(** [c.join(parts)] *)
Fixpoint join_with (c : ascii) (parts : list string) : string :=
  match parts with
  | [] => EmptyString
  | [x] => x
  | x :: rest => x ++ String c (join_with c rest)
  end.

(** ** [os.path] on POSIX ([posixpath.py], [genericpath.py]) *)

Module PosixPath.

Definition sep : ascii := "/"%char.
Definition extsep : ascii := "."%char.

Definition isabs (p : string) : bool := startswith sep p.

(** [join(a, b)]: an absolute [b] discards [a]; otherwise the two parts are
    concatenated with exactly one separator between them unless [a] is empty
    or already ends with one. *)
Definition join (a b : string) : string :=
  if startswith sep b then b
  else if is_empty a || endswith sep a then a ++ b
  else a ++ String sep b.

(** [split(p)]: head and tail around the last separator; trailing
    separators are stripped from the head unless it consists of
    separators only. *)
Definition split (p : string) : string * string :=
  let (head, tail) := rpartition sep p in
  (if negb (is_empty head) && negb (all_char sep head)
   then rstrip sep head else head, tail).

Definition basename (p : string) : string := snd (rpartition sep p).

Definition dirname (p : string) : string := fst (split p).

(** [genericpath._splitext(p, '/', None, '.')].  The extension starts at the
    last dot of the final path component, provided some character other than
    a dot precedes it in that component. *)
Definition splitext (p : string) : string * string :=
  let (dir, file) := rpartition sep p in
  if contains extsep file then
    let (root_dot, ext) := rpartition extsep file in
    let root := drop_last root_dot in
    if all_char extsep root then (p, EmptyString)
    else (dir ++ root, String extsep ext)
  else (p, EmptyString).

(** The loop of [normpath] over the components. *)
Fixpoint normpath_comps (initial_slashes : nat) (comps new_comps : list string)
  : list string :=
  match comps with
  | [] => new_comps
  | comp :: rest =>
      if String.eqb comp "" || String.eqb comp "." then
        normpath_comps initial_slashes rest new_comps
      else if negb (String.eqb comp "..")
              || (Nat.eqb initial_slashes 0 && Nat.eqb (List.length new_comps) 0)
              || match rev new_comps with
                 | last :: _ => String.eqb last ".."
                 | [] => false
                 end
      then normpath_comps initial_slashes rest (new_comps ++ [comp])%list
      else normpath_comps initial_slashes rest (removelast new_comps)
  end.

Definition normpath (path : string) : string :=
  if is_empty path then "."
  else
    let initial_slashes :=
      match path with
      | String "/" (String "/" (String "/" _)) => 1
      | String "/" (String "/" _) => 2
      | String "/" _ => 1
      | _ => 0
      end%nat in
    let comps := normpath_comps initial_slashes (split_on sep path) [] in
    let path' :=
      (match initial_slashes with
       | 0%nat => ""
       | 1%nat => "/"
       | _ => "//"
       end) ++ join_with sep comps in
    if is_empty path' then "." else path'.

(** [abspath(path)], with the current directory passed in. *)
Definition abspath (cwd path : string) : string :=
  normpath (if isabs path then path else join cwd path).

End PosixPath.

(** What [join] puts in front of a relative second part. *)
Definition dir_prefix (a : string) : string :=
  if is_empty a || endswith PosixPath.sep a then a
  else a ++ String PosixPath.sep "".

(** ** [fnmatch] ([fnmatch.py], POSIX: no case normalisation) *)

Module Fnmatch.

(** The pieces of the regular expression built by [translate]. *)
Inductive item : Type :=
| STAR                                        (* [*]: any run of characters *)
| ANY                                         (* [.]: any one character *)
| NEVER                                       (* [(?!)]: no character *)
| LIT (c : ascii)                             (* [re.escape(c)] *)
| SET (negated : bool) (chunks : list string) (* a bracket expression *).

Definition first_char (s : string) : option ascii :=
  match s with EmptyString => None | String a _ => Some a end.

Fixpoint last_char (s : string) : option ascii :=
  match s with
  | EmptyString => None
  | String a EmptyString => Some a
  | String _ r => last_char r
  end.

Definition tail (s : string) : string :=
  match s with EmptyString => EmptyString | String _ r => r end.

(** [pat.find(c, start)], counting positions from [pos]. *)
Fixpoint find_from (c : ascii) (s : string) (start pos : nat) : option nat :=
  match s with
  | EmptyString => None
  | String a r =>
      if (start <=? pos)%nat && Ascii.eqb a c then Some pos
      else find_from c r start (S pos)
  end.

(** Position of the [']'] that closes a bracket expression whose body starts
    at the head of [rest]: a leading ['!'] and a [']'] right after it (or
    right at the start) do not close it. *)
Definition closing (rest : string) : option nat :=
  let j := if startswith "!" rest then 1%nat else 0%nat in
  let j := match String.get j rest with
           | Some "]"%char => S j
           | _ => j
           end in
  find_from "]" rest j 0.

(** The [while True] loop that cuts [stuff] at the hyphens that stand
    between two range ends.  [wait] counts the characters that must be
    read before a hyphen may cut; [cur] is the chunk being read. *)
Fixpoint cut_chunks (stuff : string) (wait : nat) (cur : string) : list string :=
  match stuff with
  | EmptyString => [cur]
  | String a r =>
      match wait with
      | S w => cut_chunks r w (cur ++ String a EmptyString)
      | O => if Ascii.eqb a "-" then cur :: cut_chunks r 2 EmptyString
             else cut_chunks r 0 (cur ++ String a EmptyString)
      end
  end.

(** [if chunk: chunks.append(chunk) else: chunks[-1] += '-'] *)
Fixpoint close_chunks (chunks : list string) : list string :=
  match chunks with
  | [] => []
  | [c] => [c]
  | [c; EmptyString] => [c ++ "-"]
  | c :: rest => c :: close_chunks rest
  end.

(** Removal of the empty ranges, from the last pair of chunks down. *)
Fixpoint remove_empty_ranges (chunks : list string) : list string :=
  match chunks with
  | [] => []
  | c :: rest =>
      match remove_empty_ranges rest with
      | [] => [c]
      | d :: ds =>
          match last_char c, first_char d with
          | Some lo, Some hi =>
              if (nat_of_ascii hi <? nat_of_ascii lo)%nat
              then (drop_last c ++ tail d) :: ds
              else c :: d :: ds
          | _, _ => c :: d :: ds
          end
      end
  end.

(** The item for the bracket body [stuff]. *)
Definition bracket (stuff : string) : item :=
  let chunks :=
    if contains "-" stuff then
      remove_empty_ranges
        (close_chunks
           (cut_chunks stuff (if startswith "!" stuff then 2 else 1) EmptyString))
    else [stuff] in
  match chunks with
  | [EmptyString] => NEVER
  | [String "!" EmptyString] => ANY
  | String "!" c :: cs => SET true (c :: cs)
  | _ => SET false chunks
  end.

(** [translate(pat)].  [skip] is the number of characters still to pass
    over after a bracket expression has been read ([i = j+1]). *)
Fixpoint translate_from (skip : nat) (pat : string) : list item :=
  match pat with
  | EmptyString => []
  | String c rest =>
      match skip with
      | S k => translate_from k rest
      | O =>
          if Ascii.eqb c "*" then
            match translate_from 0 rest with
            | STAR :: res => STAR :: res
            | res => STAR :: res
            end
          else if Ascii.eqb c "?" then ANY :: translate_from 0 rest
          else if Ascii.eqb c "[" then
            match closing rest with
            | None => LIT "[" :: translate_from 0 rest
            | Some j => bracket (substring 0 j rest) :: translate_from (S j) rest
            end
          else LIT c :: translate_from 0 rest
      end
  end.

Definition translate (pat : string) : list item := translate_from 0 pat.

(** Membership of a character in a bracket expression: it occurs in a
    chunk, or lies between the last character of a chunk and the first
    character of the next one. *)
Fixpoint in_chunks (c : ascii) (chunks : list string) : bool :=
  match chunks with
  | [] => false
  | s :: rest =>
      contains c s
      || match last_char s, rest with
         | Some lo, t :: _ =>
             match first_char t with
             | Some hi => (nat_of_ascii lo <=? nat_of_ascii c)%nat
                          && (nat_of_ascii c <=? nat_of_ascii hi)%nat
             | None => false
             end
         | _, _ => false
         end
      || in_chunks c rest
  end.

Definition accepts (i : item) (c : ascii) : bool :=
  match i with
  | STAR => false
  | ANY => true
  | NEVER => false
  | LIT a => Ascii.eqb a c
  | SET negated chunks => xorb negated (in_chunks c chunks)
  end.

(** Whole-string match ([re.match] of a pattern ending in [\Z]). *)
Fixpoint matches (items : list item) (name : string) : bool :=
  match items with
  | [] => is_empty name
  | STAR :: items' =>
      (fix star (s : string) : bool :=
         matches items' s
         || match s with
            | EmptyString => false
            | String _ s' => star s'
            end) name
  | i :: items' =>
      match name with
      | EmptyString => false
      | String c s' => accepts i c && matches items' s'
      end
  end.

Definition fnmatchcase (name pat : string) : bool := matches (translate pat) name.

(** [fnmatch.filter(names, pat)] *)
Definition filter (names : list string) (pat : string) : list string :=
  List.filter (fun name => fnmatchcase name pat) names.

End Fnmatch.

(** ** The file system *)

Module FS.

(** A file system is a tree: a regular file with its content, or a
    directory with its entries in the order [os.scandir] lists them.
    There are no symbolic links and no permissions. *)
Inductive node : Type :=
| File (data : string)
| Dir (entries : list (string * node)).

Record filesystem : Type := { root : node; cwd : string }.

Inductive errno : Type := EEXIST | ENOENT | ENOTDIR | EISDIR.

(** The names a path walks through: empty components and [.] are passed
    over.  Paths here come out of [os.path.abspath], which has already
    resolved [..]. *)
Definition components (p : string) : list string :=
  List.filter (fun c => negb (String.eqb c "" || String.eqb c "."))
              (split_on "/" p).

Definition abs_components (fs : filesystem) (p : string) : list string :=
  if PosixPath.isabs p then components p
  else (components (cwd fs) ++ components p)%list.

Fixpoint find_entry (name : string) (es : list (string * node)) : option node :=
  match es with
  | [] => None
  | (k, n) :: rest => if String.eqb k name then Some n else find_entry name rest
  end.

(** Replace the entry [name], or add it after the existing ones. *)
Fixpoint set_entry (name : string) (n : node) (es : list (string * node))
  : list (string * node) :=
  match es with
  | [] => [(name, n)]
  | (k, m) :: rest =>
      if String.eqb k name then (k, n) :: rest
      else (k, m) :: set_entry name n rest
  end.

Fixpoint walk (cs : list string) (n : node) : option node :=
  match cs with
  | [] => Some n
  | c :: cs' =>
      match n with
      | File _ => None
      | Dir es =>
          match find_entry c es with
          | Some n' => walk cs' n'
          | None => None
          end
      end
  end.

Definition lstat (fs : filesystem) (p : string) : option node :=
  if is_empty p then None else walk (abs_components fs p) (root fs).

Definition lexists (fs : filesystem) (p : string) : bool :=
  match lstat fs p with Some _ => true | None => false end.

Definition is_dir (n : node) : bool :=
  match n with Dir _ => true | File _ => false end.

Definition isdir (fs : filesystem) (p : string) : bool :=
  match lstat fs p with Some n => is_dir n | None => false end.

(** What a path holds: a regular file's content, or the fact that it is a
    directory. *)
Inductive stat_result : Type :=
| IsFile (data : string)
| IsDir.

Definition summary (n : node) : stat_result :=
  match n with
  | File d => IsFile d
  | Dir _ => IsDir
  end.

Definition stat (fs : filesystem) (p : string) : option stat_result :=
  option_map summary (lstat fs p).

(** [os.scandir(p)]: the entries of a directory. *)
Definition scandir (fs : filesystem) (p : string) : errno + list (string * node) :=
  match lstat fs p with
  | Some (Dir es) => inr es
  | Some (File _) => inl ENOTDIR
  | None => inl ENOENT
  end.

(** [os.makedirs] below a node: every missing directory on the way is
    created; a directory that was just created counts as allowed to exist.
    The call fails on a regular file in the way: [EEXIST] for one at the
    path itself, [ENOTDIR] for one above it.  A tree without permissions
    has no other failure; what access rights, a full disk or a read-only
    mount make the call raise is not modelled. *)
Fixpoint mkdirs (cs : list string) (exist_ok : bool) (n : node) : errno + node :=
  match cs with
  | [] =>
      match n with
      | Dir _ => if exist_ok then inr n else inl EEXIST
      | File _ => inl EEXIST
      end
  | c :: cs' =>
      match n with
      | File _ => inl ENOTDIR
      | Dir es =>
          match
            match find_entry c es with
            | Some n' => mkdirs cs' exist_ok n'
            | None => mkdirs cs' true (Dir [])
            end
          with
          | inr n'' => inr (Dir (set_entry c n'' es))
          | inl e => inl e
          end
      end
  end.

Definition makedirs (fs : filesystem) (name : string) (exist_ok : bool)
  : errno + filesystem :=
  match mkdirs (abs_components fs name) exist_ok (root fs) with
  | inr r => inr {| root := r; cwd := cwd fs |}
  | inl e => inl e
  end.

(** Writing a whole file ([open(path, 'wb')], [write], [close]): the
    directory that holds it must exist; a regular file found at the path
    is replaced. *)
Fixpoint put (cs : list string) (data : string) (n : node) : errno + node :=
  match cs with
  | [] =>
      match n with
      | File _ => inr (File data)
      | Dir _ => inl EISDIR
      end
  | c :: cs' =>
      match n with
      | File _ => inl ENOTDIR
      | Dir es =>
          match
            match find_entry c es, cs' with
            | Some n', _ => put cs' data n'
            | None, [] => inr (File data)
            | None, _ => inl ENOENT
            end
          with
          | inr n'' => inr (Dir (set_entry c n'' es))
          | inl e => inl e
          end
      end
  end.

Definition write_file (fs : filesystem) (p data : string) : errno + filesystem :=
  match put (abs_components fs p) data (root fs) with
  | inr r => inr {| root := r; cwd := cwd fs |}
  | inl e => inl e
  end.

End FS.

(** One list of components starts another. *)
Definition prefix_of (a b : list string) : Prop := exists r, b = (a ++ r)%list.

(** What [stat] sees below a node. *)
Definition look (cs : list string) (n : FS.node) : option FS.stat_result :=
  option_map FS.summary (FS.walk cs n).

(** What is found at a path is of the same kind as [s]: a directory for a
    directory, a regular file for a regular file. *)
Definition same_kind (s : FS.stat_result) (r : option FS.stat_result) : Prop :=
  match s with
  | FS.IsDir => r = Some FS.IsDir
  | FS.IsFile _ => exists d, r = Some (FS.IsFile d)
  end.

(** ** [glob] ([glob.py], with [root_dir=None], [dir_fd=None],
       [recursive=False], [include_hidden=False]) *)

Module Glob.

Import FS.

(** [magic_check = re.compile('([*?[])')] *)
Definition has_magic (s : string) : bool :=
  contains "*" s || contains "?" s || contains "[" s.

Definition _ishidden (path : string) : bool := startswith "." path.

Definition _join (dirname basename : string) : string :=
  if is_empty dirname then basename
  else if is_empty basename then dirname
  else PosixPath.join dirname basename.

(** [_listdir]: entry names of a directory (of the current directory for
    an empty [dirname]), only the directories among them if [dironly];
    nothing if the directory cannot be read. *)
Definition _listdir (fs : filesystem) (dirname : string) (dironly : bool)
  : list string :=
  match scandir fs (if is_empty dirname then "." else dirname) with
  | inr es =>
      map fst (List.filter (fun e => negb dironly || is_dir (snd e)) es)
  | inl _ => []
  end.

Definition _glob1 (fs : filesystem) (dirname pattern : string) (dironly : bool)
  : list string :=
  let names := _listdir fs dirname dironly in
  let names :=
    if negb (_ishidden pattern)
    then List.filter (fun x => negb (_ishidden x)) names
    else names in
  Fnmatch.filter names pattern.

Definition _glob0 (fs : filesystem) (dirname basename : string) (dironly : bool)
  : list string :=
  if negb (is_empty basename) then
    if lexists fs (_join dirname basename) then [basename] else []
  else
    if isdir fs dirname then [basename] else [].

(** [_iglob].  The recursion is on [dirname], a strictly shorter string;
    [fuel] bounds its depth and [None] means it ran out. *)
Fixpoint _iglob (fuel : nat) (fs : filesystem) (pathname : string)
  (dironly : bool) : option (list string) :=
  match fuel with
  | O => None
  | S fuel' =>
      let (dirname, basename) := PosixPath.split pathname in
      if negb (has_magic pathname) then
        if negb (is_empty basename) then
          Some (if lexists fs pathname then [pathname] else [])
        else
          Some (if isdir fs dirname then [pathname] else [])
      else if is_empty dirname then
        Some (_glob1 fs "" basename dironly)
      else
        match
          if negb (String.eqb dirname pathname) && has_magic dirname
          then _iglob fuel' fs dirname true
          else Some [dirname]
        with
        | None => None
        | Some dirs =>
            let glob_in_dir := if has_magic basename then _glob1 else _glob0 in
            Some (flat_map
                    (fun dirname =>
                       map (fun name => PosixPath.join dirname name)
                           (glob_in_dir fs dirname basename dironly))
                    dirs)
        end
  end.

(** [glob.glob(pathname)].  One level of recursion per character of
    [pathname] is more than [_iglob] uses, so the fuel never runs out
    (lemma [iglob_total]).  An empty first result for an empty [pathname]
    is dropped, as [iglob] does. *)
Definition glob (fs : filesystem) (pathname : string) : list string :=
  match _iglob (S (String.length pathname)) fs pathname false with
  | Some (s :: rest) =>
      if is_empty pathname && is_empty s then rest else s :: rest
  | Some [] => []
  | None => []
  end.

End Glob.

(** ** Exceptions *)

(** The exceptions of a run, by class.  Of an [OSError] the error number is
    kept and the file name is not: [os.makedirs] names the path whose
    [mkdir] failed, which no property here depends on. *)
Inductive exn : Type :=
| SystemExit (status : Z)
| OSError (e : FS.errno)
| RuntimeError (msg : string).

(** ** The host application ([bpy]) *)

(** Keyword arguments of [bpy.ops.export_scene.gltf]. *)
Record gltf_kwargs : Type := {
  filepath : string;
  export_format : string;
  export_image_format : string;
  export_image_add_webp : bool;
  export_image_quality : Z;
  export_draco_mesh_compression_enable : bool;
  export_draco_mesh_compression_level : Z
}.

(** The three operators the script calls.  [Host] is the whole state of the
    host application (scene, preferences, add-ons).  An operator either
    fails with a message (the call raises [RuntimeError]) or yields the next
    state; an operator that gives up without raising is one that yields a
    next state, since the script does not look at what the call returns.
    The reset and the importer may read the file system and do not write it.
    The exporter yields the bytes of the single file a GLB export writes;
    writing them at [filepath] is done by [perform] below.  When that write
    fails in the file system the call raises [RuntimeError] as for every
    other fault of an operator, with the message [write_failed] gives. *)
Record host_app : Type := {
  Host : Type;
  read_factory_settings : bool -> Host -> string + Host;
  usd_import : string -> FS.filesystem -> Host -> string + Host;
  export_scene_gltf : gltf_kwargs -> FS.filesystem -> Host -> string + (string * Host);
  write_failed : gltf_kwargs -> FS.errno -> string
}.

(** ** The script *)

Section Script.

Variable bpy : host_app.
Variable __file__ : string.

(** Calls from the script to its environment. *)
Inductive call : Type :=
| CallMakedirs (name : string) (exist_ok : bool)
| CallGlob (pathname : string)
| CallPrint (line : string)
| CallExit (status : Z)
| CallReadFactorySettings (use_empty : bool)
| CallUsdImport (path : string)
| CallExportGltf (kwargs : gltf_kwargs).

(** A call together with the file system and the host state it was made in. *)
Record event : Type := {
  what : call;
  fs_at : FS.filesystem;
  host_at : Host bpy
}.

(** [stdout] holds what the script itself prints, one element for each call
    of [print] with the text of its argument.  What the host application
    writes to the same stream is not part of the model. *)
Record world : Type := {
  fs : FS.filesystem;
  host : Host bpy;
  stdout : list string;
  history : list event
}.

(** What a call does: it raises, or it leaves a file system, a host state
    and what it printed. *)
Definition perform (c : call) (f : FS.filesystem) (h : Host bpy)
  : exn + (FS.filesystem * Host bpy * list string) :=
  match c with
  | CallMakedirs name exist_ok =>
      match FS.makedirs f name exist_ok with
      | inr f' => inr (f', h, [])
      | inl e => inl (OSError e)
      end
  | CallGlob _ => inr (f, h, [])
  | CallPrint line => inr (f, h, [line])
  | CallExit status => inl (SystemExit status)
  | CallReadFactorySettings use_empty =>
      match read_factory_settings bpy use_empty h with
      | inr h' => inr (f, h', [])
      | inl msg => inl (RuntimeError msg)
      end
  | CallUsdImport path =>
      match usd_import bpy path f h with
      | inr h' => inr (f, h', [])
      | inl msg => inl (RuntimeError msg)
      end
  | CallExportGltf kwargs =>
      match export_scene_gltf bpy kwargs f h with
      | inr (data, h') =>
          match FS.write_file f (filepath kwargs) data with
          | inr f' => inr (f', h', [])
          | inl e => inl (RuntimeError (write_failed bpy kwargs e))
          end
      | inl msg => inl (RuntimeError msg)
      end
  end.

(** State and exceptions. *)
Definition M (A : Type) : Type := world -> (exn + A) * world.

Definition ret {A : Type} (a : A) : M A := fun w => (inr a, w).

Definition bind {A B : Type} (m : M A) (k : A -> M B) : M B :=
  fun w =>
    match m w with
    | (inr a, w') => k a w'
    | (inl e, w') => (inl e, w')
    end.

Notation "x <- m ;; k" := (bind m (fun x => k))
  (at level 61, m at next level, right associativity).
Notation "m ;; k" := (bind m (fun _ => k))
  (at level 61, right associativity).

(** Make a call: record it, then have its effect or raise. *)
Definition do_call (c : call) : M unit :=
  fun w =>
    let hist := (history w ++ [{| what := c; fs_at := fs w; host_at := host w |}])%list in
    match perform c (fs w) (host w) with
    | inr (f', h', out) =>
        (inr tt, {| fs := f'; host := h'; stdout := (stdout w ++ out)%list; history := hist |})
    | inl e =>
        (inl e, {| fs := fs w; host := host w; stdout := stdout w; history := hist |})
    end.

Definition os_getcwd : M string := fun w => (inr (FS.cwd (fs w)), w).

Definition os_makedirs (name : string) (exist_ok : bool) : M unit :=
  do_call (CallMakedirs name exist_ok).

Definition glob_glob (pathname : string) : M (list string) :=
  do_call (CallGlob pathname) ;;
  fun w => (inr (Glob.glob (fs w) pathname), w).

Definition print (line : string) : M unit := do_call (CallPrint line).

Definition sys_exit (status : Z) : M unit := do_call (CallExit status).

Definition bpy_ops_wm_read_factory_settings (use_empty : bool) : M unit :=
  do_call (CallReadFactorySettings use_empty).

Definition bpy_ops_wm_usd_import (path : string) : M unit :=
  do_call (CallUsdImport path).

Definition bpy_ops_export_scene_gltf (kwargs : gltf_kwargs) : M unit :=
  do_call (CallExportGltf kwargs).

(** [for x in xs: body(x)] *)
Fixpoint for_each {A : Type} (xs : list A) (body : A -> M unit) : M unit :=
  match xs with
  | [] => ret tt
  | x :: rest => body x ;; for_each rest body
  end.

Definition script_dir (cwd : string) : string :=
  PosixPath.dirname (PosixPath.abspath cwd __file__).

Definition downloads_dir (cwd : string) : string :=
  PosixPath.join (script_dir cwd) "downloads".

Definition output_dir (cwd : string) : string :=
  PosixPath.join (script_dir cwd) "output".

Definition glb_path_of (output_dir usdz_path : string) : string :=
  let name := fst (PosixPath.splitext (PosixPath.basename usdz_path)) in
  PosixPath.join output_dir (name ++ ".glb").

Definition export_kwargs (glb_path : string) : gltf_kwargs :=
  {| filepath := glb_path;
     export_format := "GLB";
     export_image_format := "WEBP";
     export_image_add_webp := false;
     export_image_quality := 15;
     export_draco_mesh_compression_enable := true;
     export_draco_mesh_compression_level := 6 |}.

(** The body of the [for] loop. *)
Definition convert_one (output_dir usdz_path : string) : M unit :=
  let glb_path := glb_path_of output_dir usdz_path in
  bpy_ops_wm_read_factory_settings true ;;
  bpy_ops_wm_usd_import usdz_path ;;
  bpy_ops_export_scene_gltf (export_kwargs glb_path) ;;
  print ("DONE: " ++ glb_path).

(** The module body of [convert.py]. *)
Definition convert : M unit :=
  cwd <- os_getcwd ;;
  let script_dir := script_dir cwd in
  let downloads_dir := PosixPath.join script_dir "downloads" in
  let output_dir := PosixPath.join script_dir "output" in
  os_makedirs output_dir true ;;
  usdz_files <- glob_glob (PosixPath.join downloads_dir "*.usdz") ;;
  (match usdz_files with
   | [] => print "No .usdz files found in downloads/" ;; sys_exit 1
   | _ => ret tt
   end) ;;
  for_each usdz_files (convert_one output_dir).

(** A run of the script: it starts with nothing printed and no call made. *)
Definition run (f : FS.filesystem) (h : Host bpy) : (exn + unit) * world :=
  convert {| fs := f; host := h; stdout := []; history := [] |}.

(** *** Notions used to state the properties *)

(** [do_call] over a list of calls, in order, up to the first that raises. *)
Fixpoint do_calls (cs : list call) : M unit :=
  match cs with
  | [] => ret tt
  | c :: rest => do_call c ;; do_calls rest
  end.

(** The exception an event's call raised, if it did. *)
Definition raised (ev : event) : option exn :=
  match perform (what ev) (fs_at ev) (host_at ev) with
  | inl e => Some e
  | inr _ => None
  end.

(** The event's call did not raise. *)
Definition quiet (ev : event) : Prop := raised ev = None.

(** File system and host state an event's call left behind. *)
Definition after (ev : event) : FS.filesystem * Host bpy :=
  match perform (what ev) (fs_at ev) (host_at ev) with
  | inr (f', h', _) => (f', h')
  | inl _ => (fs_at ev, host_at ev)
  end.

(** Lines an event's call printed. *)
Definition printed (ev : event) : list string :=
  match perform (what ev) (fs_at ev) (host_at ev) with
  | inr (_, _, out) => out
  | inl _ => []
  end.

(** A history that starts in state [s]: each call is made in the state the
    previous one left, and only the last call may have raised. *)
Fixpoint chained (s : FS.filesystem * Host bpy) (t : list event) : Prop :=
  match t with
  | [] => True
  | ev :: rest =>
      (fs_at ev, host_at ev) = s
      /\ (rest <> [] -> raised ev = None)
      /\ chained (after ev) rest
  end.

Definition end_state (s : FS.filesystem * Host bpy) (t : list event)
  : FS.filesystem * Host bpy :=
  fold_left (fun _ ev => after ev) t s.

Definition is_host_call (c : call) : bool :=
  match c with
  | CallReadFactorySettings _ | CallUsdImport _ | CallExportGltf _ => true
  | _ => false
  end.

(** The calls of one iteration of the loop, in order. *)
Definition iteration_calls (output_dir usdz_path : string) : list call :=
  [ CallReadFactorySettings true;
    CallUsdImport usdz_path;
    CallExportGltf (export_kwargs (glb_path_of output_dir usdz_path));
    CallPrint ("DONE: " ++ glb_path_of output_dir usdz_path) ].

Definition usdz_pattern (cwd : string) : string :=
  PosixPath.join (downloads_dir cwd) "*.usdz".

(** [usdz_files] of a run that starts in [f]: what the glob finds once the
    output directory has been created. *)
Definition discovered (f : FS.filesystem) : list string :=
  match FS.makedirs f (output_dir (FS.cwd f)) true with
  | inr f1 => Glob.glob f1 (usdz_pattern (FS.cwd f))
  | inl _ => []
  end.

Definition no_files_message : string := "No .usdz files found in downloads/".

Definition done_line (output_dir usdz_path : string) : string :=
  "DONE: " ++ glb_path_of output_dir usdz_path.

(** The calls of a run in which none raises. *)
Definition plan (f : FS.filesystem) : list call :=
  CallMakedirs (output_dir (FS.cwd f)) true
  :: CallGlob (usdz_pattern (FS.cwd f))
  :: match discovered f with
     | [] => [CallPrint no_files_message; CallExit 1]
     | files => flat_map (iteration_calls (output_dir (FS.cwd f))) files
     end.

(** Lines a call prints. *)
Definition lines_of (c : call) : list string :=
  match c with
  | CallPrint line => [line]
  | _ => []
  end.

End Script.

Arguments what {bpy} _.
Arguments fs_at {bpy} _.
Arguments host_at {bpy} _.
Arguments fs {bpy} _.
Arguments host {bpy} _.
Arguments stdout {bpy} _.
Arguments history {bpy} _.
Arguments raised {bpy} _.
Arguments quiet {bpy} _.
Arguments after {bpy} _.
Arguments printed {bpy} _.
Arguments chained {bpy} _ _.
Arguments end_state {bpy} _ _.
Arguments perform {bpy} _ _ _.
Arguments do_call {bpy} _ _.
Arguments do_calls {bpy} _ _.

(** The file name of an output path. *)
Definition glb_name (usdz_path : string) : string :=
  fst (PosixPath.splitext (PosixPath.basename usdz_path)) ++ ".glb".

(** ** File systems in good order *)

(** An entry name is not empty, is not [.], and holds no separator. *)
Definition valid_name (name : string) : bool :=
  negb (is_empty name) && negb (String.eqb name ".")
  && negb (contains "/" name).

Fixpoint mem_string (x : string) (l : list string) : bool :=
  match l with
  | [] => false
  | y :: rest => String.eqb y x || mem_string x rest
  end.

Fixpoint distinct (l : list string) : bool :=
  match l with
  | [] => true
  | x :: rest => negb (mem_string x rest) && distinct rest
  end.

(** Every directory of the tree has valid and distinct entry names. *)
Fixpoint wf_node (n : FS.node) : bool :=
  match n with
  | FS.File _ => true
  | FS.Dir es =>
      distinct (map fst es)
      && (fix all (es : list (string * FS.node)) : bool :=
            match es with
            | [] => true
            | (k, m) :: rest => valid_name k && wf_node m && all rest
            end) es
  end.

Definition wf (f : FS.filesystem) : bool := wf_node (FS.root f).

Definition entries_ok (es : list (string * FS.node)) : Prop :=
  Forall (fun e => valid_name (fst e) = true /\ wf_node (snd e) = true) es.

(** ** A small host application, for concrete runs

    Its state is the list of assets in the scene.  A factory reset leaves
    the startup scene, empty if asked so; an import succeeds on a regular
    file whose content starts like a zip archive and adds that content to
    the scene; the exporter writes the scene out under a [glTF] header. *)

Definition looks_like_usdz (data : string) : bool :=
  match data with
  | String "P" (String "K" _) => true
  | _ => false
  end.

Definition toy_host : host_app :=
  {| Host := list string;
     read_factory_settings := fun use_empty _ =>
       inr (if use_empty then [] else ["Cube"; "Light"; "Camera"]);
     usd_import := fun path f scene =>
       match FS.stat f path with
       | Some (FS.IsFile data) =>
           if looks_like_usdz data then inr (scene ++ [data])%list
           else inl "USD import failed"
       | _ => inl "USD import failed"
       end;
     export_scene_gltf := fun kwargs _ scene =>
       inr ("glTF" ++ String.concat "," scene, scene);
     write_failed := fun kwargs _ => "cannot write " ++ filepath kwargs |}.

(** A job directory with two assets, one hidden file, one upper-case
    extension, a nested directory and an output directory that already
    holds an unrelated file. *)
Definition job_fs : FS.filesystem :=
  {| FS.root :=
       FS.Dir [("job",
         FS.Dir [("convert.py", FS.File "import bpy");
                 ("downloads",
                  FS.Dir [("chair.usdz", FS.File "PKchair");
                          (".hidden.usdz", FS.File "PKhidden");
                          ("LAMP.USDZ", FS.File "PKlamp");
                          ("table.v2.usdz", FS.File "PKtable");
                          ("nested", FS.Dir [("deep.usdz", FS.File "PKdeep")])]);
                 ("output", FS.Dir [("notes.txt", FS.File "keep me")])])];
     FS.cwd := "/job" |}.

(** The same job with a first asset that is not a USDZ archive. *)
Definition broken_job_fs : FS.filesystem :=
  {| FS.root :=
       FS.Dir [("job",
         FS.Dir [("convert.py", FS.File "import bpy");
                 ("downloads",
                  FS.Dir [("bad.usdz", FS.File "not an archive");
                          ("chair.usdz", FS.File "PKchair")])])];
     FS.cwd := "/job" |}.

(** A job with no asset, and a regular file where the output directory
    should be. *)
Definition blocked_job_fs : FS.filesystem :=
  {| FS.root :=
       FS.Dir [("job",
         FS.Dir [("convert.py", FS.File "import bpy");
                 ("downloads", FS.Dir []);
                 ("output", FS.File "not a directory")])];
     FS.cwd := "/job" |}.

(** A job whose directory has given way to a regular file. *)
Definition lost_job_fs : FS.filesystem :=
  {| FS.root := FS.Dir [("job", FS.File "not a directory")];
     FS.cwd := "/" |}.


(** A job with no asset. *)
Definition empty_job_fs : FS.filesystem :=
  {| FS.root :=
       FS.Dir [("job",
         FS.Dir [("convert.py", FS.File "import bpy");
                 ("downloads", FS.Dir [("readme.txt", FS.File "nothing here")])])];
     FS.cwd := "/job" |}.

(** A job kept in a directory whose name holds brackets, next to a
    directory of an older job. *)
Definition bracket_fs : FS.filesystem :=
  {| FS.root :=
       FS.Dir [("w[1]",
                FS.Dir [("convert.py", FS.File "import bpy");
                        ("downloads", FS.Dir [("a.usdz", FS.File "PKa")])]);
               ("w1",
                FS.Dir [("downloads", FS.Dir [("b.usdz", FS.File "PKb")])])];
     FS.cwd := "/" |}.

(** The bracketed job directory alone. *)
Definition bracket_alone_fs : FS.filesystem :=
  {| FS.root :=
       FS.Dir [("w[1]",
                FS.Dir [("convert.py", FS.File "import bpy");
                        ("downloads", FS.Dir [("a.usdz", FS.File "PKa")])])];
     FS.cwd := "/" |}.

(** A job directory named [w[12]] next to two directories [w1] and [w2]
    that each hold an asset of the same name. *)
Definition bracket_pair_fs : FS.filesystem :=
  {| FS.root :=
       FS.Dir [("w[12]",
                FS.Dir [("convert.py", FS.File "import bpy");
                        ("downloads", FS.Dir [("c.usdz", FS.File "PKc")])]);
               ("w1",
                FS.Dir [("downloads", FS.Dir [("a.usdz", FS.File "PKone")])]);
               ("w2",
                FS.Dir [("downloads", FS.Dir [("a.usdz", FS.File "PKtwo")])])];
     FS.cwd := "/" |}.

(** Events and states of the runs above. *)

Definition chair_export : event toy_host :=
  Build_event toy_host
    (CallExportGltf (export_kwargs "/job/output/chair.glb")) job_fs ["PKchair"].

Definition broken_history : list (event toy_host) :=
  history (snd (run toy_host "/job/convert.py" broken_job_fs ["Cube"])).

Definition bad_import : event toy_host :=
  Build_event toy_host (CallUsdImport "/job/downloads/bad.usdz")
    (fs (snd (run toy_host "/job/convert.py" broken_job_fs ["Cube"]))) [].

(** The import of the first asset of [job_fs]. *)
Definition chair_import : event toy_host :=
  Build_event toy_host (CallUsdImport "/job/downloads/chair.usdz") job_fs [].

(** A job directory that holds the script and nothing else. *)
Definition bare_job_fs : FS.filesystem :=
  {| FS.root := FS.Dir [("job", FS.Dir [("convert.py", FS.File "import bpy")])];
     FS.cwd := "/job" |}.

(** A job whose output directory holds the result of an earlier run. *)
Definition stale_job_fs : FS.filesystem :=
  {| FS.root :=
       FS.Dir [("job",
         FS.Dir [("convert.py", FS.File "import bpy");
                 ("downloads", FS.Dir [("chair.usdz", FS.File "PKchair")]);
                 ("output", FS.Dir [("chair.glb", FS.File "old export")])])];
     FS.cwd := "/job" |}.

(** A job whose downloads directory holds a directory named like an
    asset. *)
Definition folder_job_fs : FS.filesystem :=
  {| FS.root :=
       FS.Dir [("job",
         FS.Dir [("convert.py", FS.File "import bpy");
                 ("downloads",
                  FS.Dir [("set.usdz", FS.Dir [("part.usdz", FS.File "PKpart")])])])];
     FS.cwd := "/job" |}.


(** * Properties *)

(** ** The library models on sample inputs *)

Example join_ex1 : PosixPath.join "/a/b" "output" = "/a/b/output".
Proof. reflexivity. Qed.
Example join_ex2 : PosixPath.join "/" "downloads" = "/downloads".
Proof. reflexivity. Qed.
Example join_ex3 : PosixPath.join "/a" "/b" = "/b".
Proof. reflexivity. Qed.
Example split_ex1 : PosixPath.split "/a/b/*.usdz" = ("/a/b", "*.usdz").
Proof. reflexivity. Qed.
Example split_ex2 : PosixPath.split "/x" = ("/", "x").
Proof. reflexivity. Qed.
Example split_ex3 : PosixPath.split "a//b/" = ("a//b", "").
Proof. reflexivity. Qed.
Example split_ex4 : PosixPath.split "//x" = ("//", "x").
Proof. reflexivity. Qed.
Example splitext_ex1 : PosixPath.splitext "chair.usdz" = ("chair", ".usdz").
Proof. reflexivity. Qed.
Example splitext_ex2 : PosixPath.splitext "a.b.usdz" = ("a.b", ".usdz").
Proof. reflexivity. Qed.
Example splitext_ex3 : PosixPath.splitext ".usdz" = (".usdz", "").
Proof. reflexivity. Qed.
Example splitext_ex4 : PosixPath.splitext "..usdz" = ("..usdz", "").
Proof. reflexivity. Qed.
Example splitext_ex5 : PosixPath.splitext "d.d/f" = ("d.d/f", "").
Proof. reflexivity. Qed.
Example splitext_ex6 : PosixPath.splitext "d.d/.f.g" = ("d.d/.f", ".g").
Proof. reflexivity. Qed.
Example normpath_ex1 : PosixPath.normpath "/a/./b//../c/convert.py" = "/a/c/convert.py".
Proof. reflexivity. Qed.
Example normpath_ex2 :
  map PosixPath.normpath ["//a"; "///a"; "a/.."; "/.."; "../../a/.."; "/a/b/"]
  = ["//a"; "/a"; "."; "/"; "../.."; "/a/b"].
Proof. reflexivity. Qed.
Example abspath_ex1 : PosixPath.abspath "/home/u" "job/convert.py" = "/home/u/job/convert.py".
Proof. reflexivity. Qed.
Example abspath_ex2 : PosixPath.abspath "/home/u" "../convert.py" = "/home/convert.py".
Proof. reflexivity. Qed.

Example fnmatch_ex1 :
  Fnmatch.filter ["a.usdz"; ".usdz"; "x.USDZ"; "a.usd"; "ausdz"] "*.usdz"
  = ["a.usdz"; ".usdz"].
Proof. reflexivity. Qed.
Example fnmatch_ex2 : Fnmatch.filter ["w1"; "w2"; "w[1]"; "w"] "w[1]" = ["w1"].
Proof. reflexivity. Qed.
Example fnmatch_ex3 :
  Fnmatch.filter ["a"; "b"; "c"; "d"; "-"; "e"] "[a-c-e]" = ["a"; "b"; "c"; "-"; "e"].
Proof. reflexivity. Qed.
Example fnmatch_ex4 : Fnmatch.filter ["a"; "b"; "!"; "]"] "[!]a]" = ["b"; "!"].
Proof. reflexivity. Qed.
Example fnmatch_ex5 : Fnmatch.filter ["["; "[a"; "a"] "[a" = ["[a"].
Proof. reflexivity. Qed.
Example glob_ex1 :
  Glob.glob job_fs "/job/downloads/*.usdz"
  = ["/job/downloads/chair.usdz"; "/job/downloads/table.v2.usdz"].
Proof. reflexivity. Qed.
Example glob_ex2 :
  Glob.glob bracket_pair_fs "/w[12]/downloads/*.usdz"
  = ["/w1/downloads/a.usdz"; "/w2/downloads/a.usdz"].
Proof. reflexivity. Qed.
Example glob_ex3 :
  Glob.glob job_fs "downloads/*"
  = ["downloads/chair.usdz"; "downloads/LAMP.USDZ"; "downloads/table.v2.usdz"; "downloads/nested"].
Proof. reflexivity. Qed.
Example makedirs_ex1 :
  FS.makedirs blocked_job_fs "/job/output" true = inl FS.EEXIST.
Proof. reflexivity. Qed.
Example makedirs_ex2 :
  FS.makedirs job_fs "/job/convert.py/x" true = inl FS.ENOTDIR.
Proof. reflexivity. Qed.
Example makedirs_ex3 :
  FS.makedirs job_fs "/job/output" false = inl FS.EEXIST.
Proof. reflexivity. Qed.
Example makedirs_ex4 :
  option_map (fun f => Glob._listdir f "/job/output" false)
             (match FS.makedirs job_fs "/job/output/x/y" true with
              | inr f => Some f
              | inl _ => None
              end)
  = Some ["notes.txt"; "x"].
Proof. reflexivity. Qed.

(** ** Strings *)

Section StringFacts.

Variable c : ascii.

Lemma sapp_nil_r (s : string) : s ++ "" = s.
Proof. induction s; simpl; congruence. Qed.

Lemma sapp_assoc (a b d : string) : (a ++ b) ++ d = a ++ (b ++ d).
Proof. induction a; simpl; congruence. Qed.

Lemma sapp_length (a b : string) :
  String.length (a ++ b) = (String.length a + String.length b)%nat.
Proof. induction a; simpl; congruence. Qed.

Lemma sapp_inv_head (a b d : string) : a ++ b = a ++ d -> b = d.
Proof. induction a; simpl; intros H; [assumption | injection H; auto]. Qed.

Lemma sapp_inv_tail (a b d : string) : a ++ d = b ++ d -> a = b.
Proof.
  revert b. induction a as [|x a IH]; intros [|y b] H; simpl in H.
  - reflexivity.
  - apply (f_equal String.length) in H. simpl in H.
    rewrite sapp_length in H. lia.
  - apply (f_equal String.length) in H. simpl in H.
    rewrite sapp_length in H. lia.
  - injection H as -> H. f_equal. auto.
Qed.

Lemma sapp_empty (a b : string) : a ++ b = "" -> a = "" /\ b = "".
Proof. destruct a; simpl; [auto | discriminate]. Qed.

Lemma contains_app (a b : string) :
  contains c (a ++ b) = contains c a || contains c b.
Proof.
  induction a as [|x a IH]; simpl; [reflexivity|].
  rewrite IH. now rewrite orb_assoc.
Qed.

Lemma startswith_app (a b : string) :
  a <> "" -> startswith c (a ++ b) = startswith c a.
Proof. destruct a; simpl; congruence. Qed.

Lemma endswith_snoc (a : string) (d : ascii) :
  endswith c (a ++ String d "") = Ascii.eqb d c.
Proof.
  induction a as [|x a IH]; simpl; [reflexivity|].
  rewrite IH. destruct (a ++ String d "") eqn:E; [|reflexivity].
  destruct a; discriminate.
Qed.

Lemma endswith_app (a b : string) :
  b <> "" -> endswith c (a ++ b) = endswith c b.
Proof.
  intros Hb. induction a as [|x a IH]; simpl; [reflexivity|].
  rewrite IH. destruct (a ++ b) eqn:E; [|reflexivity].
  apply sapp_empty in E. tauto.
Qed.

Lemma endswith_inv (s : string) :
  endswith c s = true -> exists s', s = s' ++ String c "".
Proof.
  induction s as [|x s IH]; simpl; [discriminate|].
  destruct s as [|y s].
  - intros H. apply Ascii.eqb_eq in H. subst. now exists "".
  - intros H. destruct (IH H) as [s' E]. exists (String x s').
    simpl. now rewrite E.
Qed.

Lemma all_char_app (a b : string) :
  all_char c (a ++ b) = all_char c a && all_char c b.
Proof.
  induction a as [|x a IH]; simpl; [reflexivity|].
  rewrite IH. now rewrite andb_assoc.
Qed.

Lemma all_char_contains (d : ascii) (s : string) :
  contains d s = true -> d <> c -> all_char c s = false.
Proof.
  induction s as [|x s IH]; simpl; [discriminate|].
  intros H Hd. apply orb_true_iff in H. destruct H as [H|H].
  - apply Ascii.eqb_eq in H. subst x.
    apply Ascii.eqb_neq in Hd. now rewrite Hd.
  - rewrite (IH H Hd). apply andb_false_r.
Qed.

Lemma drop_last_snoc (a : string) (d : ascii) :
  drop_last (a ++ String d "") = a.
Proof.
  induction a as [|x a IH]; simpl; [reflexivity|].
  rewrite IH. destruct (a ++ String d "") eqn:E; [|reflexivity].
  destruct a; discriminate.
Qed.

(** *** [rpartition] *)

Lemma rpartition_app (p : string) :
  fst (rpartition c p) ++ snd (rpartition c p) = p.
Proof.
  induction p as [|x p IH]; simpl; [reflexivity|].
  destruct (contains c p).
  - destruct (rpartition c p) as [h t]. simpl in *. congruence.
  - destruct (Ascii.eqb x c); reflexivity.
Qed.

Lemma rpartition_none (p : string) :
  contains c p = false -> rpartition c p = ("", p).
Proof.
  destruct p as [|x p]; simpl; [reflexivity|].
  intros H. apply orb_false_iff in H. destruct H as [-> ->]. reflexivity.
Qed.

Lemma rpartition_tail_clean (p : string) :
  contains c (snd (rpartition c p)) = false.
Proof.
  induction p as [|x p IH]; simpl; [reflexivity|].
  destruct (contains c p) eqn:E.
  - destruct (rpartition c p) as [h t]. exact IH.
  - destruct (Ascii.eqb x c) eqn:Ex; simpl; [assumption|].
    now rewrite Ex, E.
Qed.

Lemma rpartition_last (a b : string) :
  contains c b = false ->
  rpartition c (a ++ String c b) = (a ++ String c "", b).
Proof.
  intros Hb. induction a as [|x a IH]; simpl.
  - now rewrite Hb, Ascii.eqb_refl.
  - rewrite contains_app. simpl. rewrite Ascii.eqb_refl, orb_true_r.
    now rewrite IH.
Qed.

(** *** [rstrip] *)

Lemma rstrip_snoc_same (a : string) :
  rstrip c (a ++ String c "") = rstrip c a.
Proof.
  induction a as [|x a IH]; simpl.
  - now rewrite Ascii.eqb_refl.
  - now rewrite IH.
Qed.

Lemma rstrip_snoc_other (a : string) (d : ascii) :
  d <> c -> rstrip c (a ++ String d "") = a ++ String d "".
Proof.
  intros Hd. apply Ascii.eqb_neq in Hd.
  induction a as [|x a IH]; simpl.
  - now rewrite Hd.
  - rewrite IH. destruct (a ++ String d "") eqn:E; [|reflexivity].
    destruct a; discriminate.
Qed.

Lemma rstrip_prefix (s : string) : exists t, s = rstrip c s ++ t.
Proof.
  induction s as [|x s [t IH]]; simpl.
  - now exists "".
  - destruct (rstrip c s) eqn:E.
    + destruct (Ascii.eqb x c).
      * now exists (String x s).
      * exists s. reflexivity.
    + exists t. try rewrite E in IH. simpl in *. congruence.
Qed.

End StringFacts.

(** ** Paths *)

Section PathFacts.

Import PosixPath.

Lemma clean_not_abs (n : string) :
  contains "/" n = false -> startswith "/" n = false.
Proof.
  destruct n as [|x n]; simpl; [reflexivity|].
  intros H. now apply orb_false_iff in H.
Qed.

Lemma join_relative (a b : string) :
  startswith sep b = false -> join a b = dir_prefix a ++ b.
Proof.
  intros H. unfold join, dir_prefix. rewrite H.
  destruct (is_empty a || endswith sep a); [reflexivity|].
  now rewrite sapp_assoc.
Qed.

Lemma dir_prefix_shape (a : string) :
  dir_prefix a = "" \/ exists a', dir_prefix a = a' ++ String sep "".
Proof.
  unfold dir_prefix. destruct a as [|x a]; [now left|]. right.
  cbn [is_empty orb]. destruct (endswith sep (String x a)) eqn:E.
  - now apply endswith_inv.
  - now exists (String x a).
Qed.

Lemma join_inj (a b b' : string) :
  startswith sep b = false -> startswith sep b' = false ->
  join a b = join a b' -> b = b'.
Proof.
  intros H H'. rewrite !join_relative by assumption. apply sapp_inv_head.
Qed.

Lemma basename_join (d n : string) :
  contains sep n = false -> basename (join d n) = n.
Proof.
  intros Hn. rewrite join_relative by now apply clean_not_abs.
  unfold basename. destruct (dir_prefix_shape d) as [-> | [a' ->]].
  - simpl. now rewrite rpartition_none.
  - rewrite sapp_assoc. simpl. now rewrite rpartition_last.
Qed.

Lemma basename_clean (p : string) : contains sep (basename p) = false.
Proof. apply rpartition_tail_clean. Qed.

Lemma all_char_endswith (c : ascii) (s : string) :
  s <> "" -> all_char c s = true -> endswith c s = true.
Proof.
  induction s as [|x s IH]; [congruence|]. simpl. intros _ H.
  apply andb_true_iff in H. destruct H as [Hx Hs].
  destruct s; [assumption|]. apply IH; [discriminate | assumption].
Qed.

Lemma rstrip_id (c : ascii) (s : string) :
  endswith c s = false -> rstrip c s = s.
Proof.
  induction s as [|x s IH]; [reflexivity|]. simpl.
  destruct s as [|y s].
  - intros ->. reflexivity.
  - intros H. rewrite (IH H). reflexivity.
Qed.

(** Splitting a path made of a directory that does not end in a separator
    and a name gives back the two. *)
Lemma split_join (d n : string) :
  d <> "" -> endswith sep d = false -> contains sep n = false ->
  split (join d n) = (d, n).
Proof.
  intros Hd He Hn. rewrite join_relative by now apply clean_not_abs.
  unfold dir_prefix. destruct d as [|x d]; [congruence|].
  cbn [is_empty orb]. rewrite He, sapp_assoc. cbn [append].
  change (String x (d ++ String sep n)) with (String x d ++ String sep n).
  unfold split. rewrite rpartition_last by assumption.
  assert (Hall : all_char sep (String x d ++ String sep "") = false).
  { rewrite all_char_app.
    destruct (all_char sep (String x d)) eqn:E; [|reflexivity].
    apply all_char_endswith in E; [congruence | discriminate]. }
  rewrite Hall. cbn [is_empty append negb andb].
  change (String x (d ++ String sep "")) with (String x d ++ String sep "").
  now rewrite rstrip_snoc_same, rstrip_id.
Qed.

(** The head of a split is no longer than the path, and as long only if it
    is the path. *)
Lemma split_head_shorter (p : string) :
  fst (split p) <> p -> (String.length (fst (split p)) < String.length p)%nat.
Proof.
  unfold split. pose proof (rpartition_app sep p) as Happ.
  destruct (rpartition sep p) as [h t]. cbn [fst snd] in *.
  destruct (rstrip_prefix sep h) as [u Hu].
  set (head := if negb (is_empty h) && negb (all_char sep h)
               then rstrip sep h else h).
  assert (Hpre : exists v, p = head ++ v).
  { subst head. destruct (negb (is_empty h) && negb (all_char sep h)).
    - exists (u ++ t). rewrite <- sapp_assoc, <- Hu. now symmetry.
    - exists t. now symmetry. }
  destruct Hpre as [v Hv]. intros Hne.
  assert (v <> "") by (intros ->; rewrite sapp_nil_r in Hv; congruence).
  rewrite Hv at 1. rewrite sapp_length. destruct v; [congruence | simpl; lia].
Qed.

(** The stem of a name that ends in [.usdz]. *)
Lemma splitext_usdz (x : string) :
  contains sep x = false -> x <> "" -> startswith extsep x = false ->
  splitext (x ++ ".usdz") = (x, ".usdz").
Proof.
  intros Hs Hx Hd. unfold splitext.
  rewrite rpartition_none by (rewrite contains_app, Hs; reflexivity).
  rewrite contains_app. replace (contains extsep ".usdz") with true by reflexivity.
  rewrite orb_true_r.
  change (x ++ ".usdz") with (x ++ String extsep "usdz").
  rewrite rpartition_last by reflexivity. rewrite drop_last_snoc.
  destruct x as [|a x]; [congruence|]. simpl in Hd. simpl all_char.
  now rewrite Hd.
Qed.

Lemma contains_drop_last (c : ascii) (s : string) :
  contains c s = false -> contains c (drop_last s) = false.
Proof.
  induction s as [|x s IH]; [reflexivity|]. simpl. intros H.
  apply orb_false_iff in H. destruct H as [Hx Hs].
  destruct s; [reflexivity|]. simpl in *. rewrite Hx. now apply IH.
Qed.

(** The stem taken from a base name holds no separator. *)
Lemma stem_clean (p : string) :
  contains sep (fst (splitext (basename p))) = false.
Proof.
  pose proof (basename_clean p) as Hb. set (b := basename p) in *.
  unfold splitext. rewrite (rpartition_none sep b Hb).
  destruct (contains extsep b); [|assumption].
  pose proof (rpartition_app extsep b) as Happ.
  destruct (rpartition extsep b) as [rd ext]. cbn [fst snd] in Happ.
  destruct (all_char extsep (drop_last rd)); [assumption|].
  cbn [fst append]. apply contains_drop_last.
  rewrite <- Happ, contains_app in Hb. now apply orb_false_iff in Hb.
Qed.

End PathFacts.

(** ** Matching [*.usdz] *)

Section FnmatchFacts.

Import Fnmatch.

Lemma matches_star (items : list item) (s : string) :
  matches (STAR :: items) s = true <->
  exists a b, s = a ++ b /\ matches items b = true.
Proof.
  induction s as [|x s IH].
  - cbn. rewrite orb_false_r. split.
    + intros H. now exists "", "".
    + intros (a & b & E & H). symmetry in E. apply sapp_empty in E.
      destruct E as [_ ->]. exact H.
  - change (matches (STAR :: items) (String x s))
      with (matches items (String x s) || matches (STAR :: items) s).
    rewrite orb_true_iff, IH. split.
    + intros [H | (a & b & -> & H)].
      * now exists "", (String x s).
      * now exists (String x a), b.
    + intros (a & b & E & H). destruct a as [|y a].
      * left. simpl in E. now subst.
      * right. injection E as -> ->. now exists a, b.
Qed.

Lemma matches_literal (lit s : string) :
  matches (map LIT (list_ascii_of_string lit)) s = true <-> s = lit.
Proof.
  revert s. induction lit as [|c lit IH]; intros s.
  - destruct s; cbn; split; congruence.
  - destruct s as [|x s]; cbn [list_ascii_of_string map matches accepts].
    + split; discriminate.
    + rewrite andb_true_iff, Ascii.eqb_eq, IH. split.
      * intros [-> ->]. reflexivity.
      * intros H. injection H as -> ->. auto.
Qed.

(** A name matches [*.usdz] exactly when it ends in [.usdz], in that case
    of the letters. *)
Lemma fnmatch_usdz (name : string) :
  fnmatchcase name "*.usdz" = true <-> exists x, name = x ++ ".usdz".
Proof.
  unfold fnmatchcase.
  change (translate "*.usdz")
    with (STAR :: map LIT (list_ascii_of_string ".usdz")).
  rewrite matches_star. split.
  - intros (a & b & -> & H). apply matches_literal in H. subst. now exists a.
  - intros (x & ->). exists x, ".usdz". split; [reflexivity|].
    now apply matches_literal.
Qed.

Lemma sapp_same_length (a b s t : string) :
  a ++ s = b ++ t -> String.length s = String.length t -> a = b /\ s = t.
Proof.
  revert b. induction a as [|x a IH]; intros [|y b] H Hlen; simpl in H.
  - auto.
  - apply (f_equal String.length) in H. simpl in H.
    rewrite sapp_length in H. lia.
  - apply (f_equal String.length) in H. simpl in H.
    rewrite sapp_length in H. lia.
  - injection H as -> H. destruct (IH _ H Hlen) as [-> ->]. auto.
Qed.

(** The pattern is matched with the case of its letters: a name that ends
    in [.USDZ] does not match. *)
Lemma upper_case_extension_does_not_match (x : string) :
  fnmatchcase (x ++ ".USDZ") "*.usdz" = false.
Proof.
  destruct (fnmatchcase (x ++ ".USDZ") "*.usdz") eqn:E; [|reflexivity].
  apply fnmatch_usdz in E. destruct E as [y E].
  apply sapp_same_length in E; [|reflexivity]. destruct E as [_ E]. discriminate.
Qed.

End FnmatchFacts.

(** ** Path components *)

Section ComponentFacts.

Import FS.

Lemma split_on_nonempty (c : ascii) (s : string) : split_on c s <> [].
Proof.
  destruct s as [|x s]; simpl; [discriminate|].
  destruct (Ascii.eqb x c); [discriminate|].
  destruct (split_on c s); discriminate.
Qed.

Lemma split_on_snoc (c : ascii) (a b : string) :
  split_on c (a ++ String c b) = (split_on c a ++ split_on c b)%list.
Proof.
  induction a as [|x a IH]; simpl.
  - now rewrite Ascii.eqb_refl.
  - rewrite IH. destruct (Ascii.eqb x c); [reflexivity|].
    pose proof (split_on_nonempty c a) as Hne.
    destruct (split_on c a); [congruence | reflexivity].
Qed.

Lemma split_on_clean (c : ascii) (n : string) :
  contains c n = false -> split_on c n = [n].
Proof.
  induction n as [|x n IH]; simpl; [reflexivity|].
  intros H. apply orb_false_iff in H. destruct H as [-> Hn].
  now rewrite (IH Hn).
Qed.

Lemma split_on_parts_clean (c : ascii) (s : string) :
  Forall (fun part => contains c part = false) (split_on c s).
Proof.
  induction s as [|x s IH]; simpl.
  - now constructor.
  - destruct (Ascii.eqb x c) eqn:E.
    + now constructor.
    + destruct (split_on c s) as [|t ts].
      * constructor; [simpl; now rewrite E | constructor].
      * inversion IH; subst. constructor; [simpl; now rewrite E | assumption].
Qed.

Lemma components_snoc (a b : string) :
  components (a ++ String "/" b) = (components a ++ components b)%list.
Proof. unfold components. now rewrite split_on_snoc, filter_app. Qed.

Lemma components_name (n : string) :
  valid_name n = true -> components n = [n].
Proof.
  unfold valid_name, components. intros H.
  apply andb_true_iff in H. destruct H as [H Hc].
  apply andb_true_iff in H. destruct H as [He Hd].
  apply negb_true_iff in Hc, Hd. rewrite (split_on_clean _ _ Hc).
  cbn [filter]. rewrite Hd.
  destruct n as [|x n]; [discriminate | reflexivity].
Qed.

Lemma components_valid (p : string) :
  Forall (fun c => valid_name c = true) (components p).
Proof.
  unfold components. apply Forall_forall. intros c Hc.
  apply filter_In in Hc. destruct Hc as [Hin Hc].
  pose proof (split_on_parts_clean "/" p) as Hclean.
  rewrite Forall_forall in Hclean. specialize (Hclean c Hin).
  unfold valid_name. rewrite Hclean.
  apply negb_true_iff, orb_false_iff in Hc. destruct Hc as [He Hd].
  rewrite Hd. destruct c; [discriminate | reflexivity].
Qed.

Lemma abs_components_valid (f : filesystem) (p : string) :
  Forall (fun c => valid_name c = true) (abs_components f p).
Proof.
  unfold abs_components. destruct (PosixPath.isabs p).
  - apply components_valid.
  - apply Forall_app. split; apply components_valid.
Qed.

(** The components of a joined path are those of the directory followed
    by those of the relative part. *)
Lemma abs_components_join (f : filesystem) (a b : string) :
  startswith "/" b = false ->
  abs_components f (PosixPath.join a b)
  = (abs_components f a ++ components b)%list.
Proof.
  intros Hb. rewrite join_relative by assumption.
  unfold dir_prefix, abs_components, PosixPath.isabs.
  destruct a as [|x a].
  - cbn [is_empty orb append startswith]. unfold PosixPath.sep in *.
    rewrite Hb. cbn. now rewrite app_nil_r.
  - cbn [is_empty orb]. destruct (endswith PosixPath.sep (String x a)) eqn:E.
    + apply endswith_inv in E. destruct E as [a' E]. rewrite E.
      assert (Hs : startswith PosixPath.sep ((a' ++ String PosixPath.sep "") ++ b)
                   = startswith PosixPath.sep (a' ++ String PosixPath.sep "")).
      { apply startswith_app. destruct a'; discriminate. }
      rewrite Hs. rewrite sapp_assoc. cbn [append].
      rewrite !components_snoc. cbn [components split_on filter].
      rewrite !app_nil_r.
      destruct (startswith PosixPath.sep (a' ++ String PosixPath.sep ""));
        [reflexivity | now rewrite app_assoc].
    + assert (Hs : startswith PosixPath.sep ((String x a ++ String PosixPath.sep "") ++ b)
                   = startswith PosixPath.sep (String x a)) by reflexivity.
      rewrite Hs. rewrite sapp_assoc. cbn [append].
      change (String x (a ++ String PosixPath.sep b))
        with (String x a ++ String PosixPath.sep b).
      rewrite components_snoc.
      destruct (startswith PosixPath.sep (String x a));
        [reflexivity | now rewrite app_assoc].
Qed.

End ComponentFacts.

(** ** The tree *)

Section TreeFacts.

Import FS.

Lemma find_set_same (k : string) (n : node) (es : list (string * node)) :
  find_entry k (set_entry k n es) = Some n.
Proof.
  induction es as [|[k' m] es IH]; simpl.
  - now rewrite String.eqb_refl.
  - destruct (String.eqb k' k) eqn:E; simpl; rewrite E; [reflexivity | exact IH].
Qed.

Lemma find_set_other (k k' : string) (n : node) (es : list (string * node)) :
  k <> k' -> find_entry k' (set_entry k n es) = find_entry k' es.
Proof.
  intros Hk. induction es as [|[k0 m] es IH]; simpl.
  - apply String.eqb_neq in Hk. now rewrite Hk.
  - destruct (String.eqb k0 k) eqn:E; simpl.
    + apply String.eqb_eq in E. subst k0.
      apply String.eqb_neq in Hk. now rewrite Hk.
    + now rewrite IH.
Qed.

Lemma prefix_of_cons (c : string) (a b : list string) :
  prefix_of (c :: a) (c :: b) <-> prefix_of a b.
Proof.
  split; intros [r E]; exists r; simpl in *; congruence.
Qed.

Lemma prefix_of_nil (b : list string) : prefix_of [] b.
Proof. now exists b. Qed.

Lemma prefix_of_head (c c' : string) (a b : list string) :
  prefix_of (c :: a) (c' :: b) -> c = c'.
Proof. intros [r E]. simpl in E. congruence. Qed.

Lemma look_nil (n : node) : look [] n = Some (summary n).
Proof. reflexivity. Qed.

Lemma look_file (c : string) (cs : list string) (d : string) :
  look (c :: cs) (File d) = None.
Proof. reflexivity. Qed.

Lemma look_dir (c : string) (cs : list string) (es : list (string * node)) :
  look (c :: cs) (Dir es)
  = match find_entry c es with Some m => look cs m | None => None end.
Proof. unfold look. simpl. destruct (find_entry c es); reflexivity. Qed.

(** [mkdirs] changes nothing it finds in place. *)
Lemma mkdirs_keeps (cs : list string) :
  forall (ok : bool) (n n' : node) (cs' : list string) (s : stat_result),
    mkdirs cs ok n = inr n' -> look cs' n = Some s -> look cs' n' = Some s.
Proof.
  induction cs as [|c cs IH]; intros ok n n' cs' s Hmk Hlook.
  - simpl in Hmk. destruct n; [discriminate|].
    destruct ok; [|discriminate]. injection Hmk as <-. exact Hlook.
  - simpl in Hmk. destruct n as [d|es]; [discriminate|].
    destruct cs' as [|c' cs'].
    + destruct (match find_entry c es with
                | Some n'0 => mkdirs cs ok n'0
                | None => mkdirs cs true (Dir [])
                end); [discriminate|].
      injection Hmk as <-. exact Hlook.
    + rewrite look_dir in Hlook.
      destruct (find_entry c' es) as [m|] eqn:Hf; [|discriminate].
      destruct (string_dec c c') as [->|Hne].
      * rewrite Hf in Hmk.
        destruct (mkdirs cs ok m) as [e|m'] eqn:Hm; [discriminate|].
        injection Hmk as <-. rewrite look_dir, find_set_same.
        eapply IH; eassumption.
      * destruct (match find_entry c es with
                  | Some n'0 => mkdirs cs ok n'0
                  | None => mkdirs cs true (Dir [])
                  end); [discriminate|].
        injection Hmk as <-.
        now rewrite look_dir, find_set_other, Hf.
Qed.

(** [mkdirs] changes nothing off the path it creates. *)
Lemma mkdirs_outside (cs : list string) :
  forall (ok : bool) (n n' : node) (cs' : list string),
    mkdirs cs ok n = inr n' -> ~ prefix_of cs' cs -> look cs' n' = look cs' n.
Proof.
  induction cs as [|c cs IH]; intros ok n n' cs' Hmk Hpre.
  - simpl in Hmk. destruct n; [discriminate|].
    destruct ok; [|discriminate]. now injection Hmk as <-.
  - simpl in Hmk. destruct n as [d|es]; [discriminate|].
    destruct cs' as [|c' cs']; [exfalso; apply Hpre, prefix_of_nil|].
    destruct (string_dec c c') as [->|Hne].
    + rewrite prefix_of_cons in Hpre.
      destruct (find_entry c' es) as [m|] eqn:Hf.
      * destruct (mkdirs cs ok m) as [e|m'] eqn:Hm; [discriminate|].
        injection Hmk as <-. rewrite !look_dir, find_set_same, Hf.
        eapply IH; eassumption.
      * destruct (mkdirs cs true (Dir [])) as [e|m'] eqn:Hm; [discriminate|].
        injection Hmk as <-. rewrite !look_dir, find_set_same, Hf.
        rewrite (IH _ _ _ _ Hm Hpre).
        destruct cs'; [exfalso; apply Hpre, prefix_of_nil | reflexivity].
    + destruct (match find_entry c es with
                | Some n'0 => mkdirs cs ok n'0
                | None => mkdirs cs true (Dir [])
                end); [discriminate|].
      injection Hmk as <-. now rewrite !look_dir, find_set_other.
Qed.

(** After [mkdirs] the path is a directory. *)
Lemma mkdirs_makes_dir (cs : list string) :
  forall (ok : bool) (n n' : node),
    mkdirs cs ok n = inr n' -> look cs n' = Some IsDir.
Proof.
  induction cs as [|c cs IH]; intros ok n n' Hmk.
  - simpl in Hmk. destruct n; [discriminate|].
    destruct ok; [|discriminate]. now injection Hmk as <-.
  - simpl in Hmk. destruct n as [d|es]; [discriminate|].
    destruct (find_entry c es) as [m|].
    + destruct (mkdirs cs ok m) as [e|m'] eqn:Hm; [discriminate|].
      injection Hmk as <-. rewrite look_dir, find_set_same. eapply IH; eassumption.
    + destruct (mkdirs cs true (Dir [])) as [e|m'] eqn:Hm; [discriminate|].
      injection Hmk as <-. rewrite look_dir, find_set_same. eapply IH; eassumption.
Qed.

(** [mkdirs] succeeds one level below a directory unless a regular file is
    in the way. *)
Lemma mkdirs_below_dir (cs : list string) (c : string) :
  forall (n : node),
    look cs n = Some IsDir ->
    (forall d, look (cs ++ [c]) n <> Some (IsFile d)) ->
    exists n', mkdirs (cs ++ [c]) true n = inr n'.
Proof.
  induction cs as [|c0 cs IH]; intros n Hdir Hfree.
  - destruct n as [d|es]; [discriminate|]. simpl.
    simpl in Hfree. rewrite look_dir in Hfree.
    destruct (find_entry c es) as [m|].
    + destruct m as [d|es']; [exfalso; now apply (Hfree d)|].
      simpl. eauto.
    + simpl. eauto.
  - destruct n as [d|es]; [discriminate|].
    rewrite look_dir in Hdir. simpl in Hfree. rewrite look_dir in Hfree.
    simpl. destruct (find_entry c0 es) as [m|]; [|discriminate].
    destruct (IH m Hdir Hfree) as [n' ->]. eauto.
Qed.

(** [put] changes the file it writes and nothing else. *)
Lemma put_other (cs : list string) (data : string) :
  forall (n n' : node) (cs' : list string),
    put cs data n = inr n' -> cs' <> cs -> look cs' n' = look cs' n.
Proof.
  induction cs as [|c cs IH]; intros n n' cs' Hput Hne.
  - simpl in Hput. destruct n; [|discriminate]. injection Hput as <-.
    destruct cs'; [congruence | reflexivity].
  - simpl in Hput. destruct n as [d|es]; [discriminate|].
    destruct cs' as [|c' cs'].
    + destruct (match find_entry c es, cs with
                | Some n'0, _ => put cs data n'0
                | None, [] => inr (File data)
                | None, _ :: _ => inl ENOENT
                end); [discriminate|].
      now injection Hput as <-.
    + destruct (string_dec c c') as [->|Hc].
      * assert (Hne' : cs' <> cs) by congruence.
        destruct (find_entry c' es) as [m|] eqn:Hf.
        -- destruct (put cs data m) as [e|m'] eqn:Hm; [discriminate|].
           injection Hput as <-. rewrite !look_dir, find_set_same, Hf.
           eapply IH; eassumption.
        -- destruct cs; [|discriminate]. injection Hput as <-.
           rewrite !look_dir, find_set_same, Hf.
           destruct cs'; [congruence | reflexivity].
      * destruct (match find_entry c es, cs with
                  | Some n'0, _ => put cs data n'0
                  | None, [] => inr (File data)
                  | None, _ :: _ => inl ENOENT
                  end); [discriminate|].
        injection Hput as <-. now rewrite !look_dir, find_set_other.
Qed.

Lemma put_same (cs : list string) (data : string) :
  forall (n n' : node),
    put cs data n = inr n' -> look cs n' = Some (IsFile data).
Proof.
  induction cs as [|c cs IH]; intros n n' Hput.
  - simpl in Hput. destruct n; [|discriminate]. now injection Hput as <-.
  - simpl in Hput. destruct n as [d|es]; [discriminate|].
    destruct (find_entry c es) as [m|].
    + destruct (put cs data m) as [e|m'] eqn:Hm; [discriminate|].
      injection Hput as <-. rewrite look_dir, find_set_same. eapply IH; eassumption.
    + destruct cs; [|discriminate]. injection Hput as <-.
      now rewrite look_dir, find_set_same.
Qed.


(** [mkdirs] leaves every node off the path it creates as it is. *)
Lemma mkdirs_walk_outside (cs : list string) :
  forall (ok : bool) (n n' : node) (cs' : list string),
    mkdirs cs ok n = inr n' -> ~ prefix_of cs' cs -> walk cs' n' = walk cs' n.
Proof.
  induction cs as [|c cs IH]; intros ok n n' cs' Hmk Hpre.
  - simpl in Hmk. destruct n; [discriminate|].
    destruct ok; [|discriminate]. now injection Hmk as <-.
  - simpl in Hmk. destruct n as [d|es]; [discriminate|].
    destruct cs' as [|c' cs']; [exfalso; apply Hpre, prefix_of_nil|].
    destruct (string_dec c c') as [->|Hne].
    + rewrite prefix_of_cons in Hpre.
      destruct (find_entry c' es) as [m|] eqn:Hf.
      * destruct (mkdirs cs ok m) as [e|m'] eqn:Hm; [discriminate|].
        injection Hmk as <-. cbn [walk]. rewrite find_set_same, Hf.
        eapply IH; eassumption.
      * destruct (mkdirs cs true (Dir [])) as [e|m'] eqn:Hm; [discriminate|].
        injection Hmk as <-. cbn [walk]. rewrite find_set_same, Hf.
        rewrite (IH _ _ _ _ Hm Hpre).
        destruct cs'; [exfalso; apply Hpre, prefix_of_nil | reflexivity].
    + destruct (match find_entry c es with
                | Some n'0 => mkdirs cs ok n'0
                | None => mkdirs cs true (Dir [])
                end); [discriminate|].
      injection Hmk as <-. cbn [walk]. now rewrite find_set_other.
Qed.

End TreeFacts.

(** ** The file system under [makedirs] and [write_file] *)

Section FileSystemFacts.

Import FS.

Lemma stat_look (f : filesystem) (p : string) :
  stat f p = if is_empty p then None else look (abs_components f p) (root f).
Proof. unfold stat, lstat, look. destruct (is_empty p); reflexivity. Qed.

Lemma makedirs_cwd (f f' : filesystem) (name : string) (ok : bool) :
  makedirs f name ok = inr f' -> cwd f' = cwd f.
Proof.
  unfold makedirs. destruct (mkdirs _ _ _); [discriminate|].
  now intros [= <-].
Qed.

Lemma write_file_cwd (f f' : filesystem) (p data : string) :
  write_file f p data = inr f' -> cwd f' = cwd f.
Proof.
  unfold write_file. destruct (put _ _ _); [discriminate|].
  now intros [= <-].
Qed.

Lemma abs_components_cwd (f f' : filesystem) (p : string) :
  cwd f' = cwd f -> abs_components f' p = abs_components f p.
Proof. unfold abs_components. now intros ->. Qed.

Lemma makedirs_stat_keeps (f f' : filesystem) (name : string) (ok : bool)
  (q : string) (s : stat_result) :
  makedirs f name ok = inr f' -> stat f q = Some s -> stat f' q = Some s.
Proof.
  intros Hmk. pose proof (makedirs_cwd _ _ _ _ Hmk) as Hcwd.
  rewrite !stat_look, (abs_components_cwd _ _ q Hcwd).
  destruct (is_empty q); [trivial|].
  unfold makedirs in Hmk.
  destruct (mkdirs _ _ _) as [e|r] eqn:E; [discriminate|].
  injection Hmk as <-. cbn [root]. eapply mkdirs_keeps; eassumption.
Qed.

Lemma makedirs_stat_outside (f f' : filesystem) (name : string) (ok : bool)
  (q : string) :
  makedirs f name ok = inr f' ->
  ~ prefix_of (abs_components f q) (abs_components f name) ->
  stat f' q = stat f q.
Proof.
  intros Hmk Hpre. pose proof (makedirs_cwd _ _ _ _ Hmk) as Hcwd.
  rewrite !stat_look, (abs_components_cwd _ _ q Hcwd).
  destruct (is_empty q); [trivial|].
  unfold makedirs in Hmk.
  destruct (mkdirs _ _ _) as [e|r] eqn:E; [discriminate|].
  injection Hmk as <-. cbn [root]. eapply mkdirs_outside; eassumption.
Qed.

Lemma makedirs_isdir (f f' : filesystem) (name : string) (ok : bool) :
  makedirs f name ok = inr f' -> name <> "" -> stat f' name = Some IsDir.
Proof.
  intros Hmk Hne. pose proof (makedirs_cwd _ _ _ _ Hmk) as Hcwd.
  rewrite stat_look, (abs_components_cwd _ _ name Hcwd).
  destruct name; [congruence|]. cbn [is_empty].
  unfold makedirs in Hmk.
  destruct (mkdirs _ _ _) as [e|r] eqn:E; [discriminate|].
  injection Hmk as <-. cbn [root]. eapply mkdirs_makes_dir; eassumption.
Qed.

Lemma write_file_stat_other (f f' : filesystem) (p data q : string) :
  write_file f p data = inr f' ->
  abs_components f q <> abs_components f p ->
  stat f' q = stat f q.
Proof.
  intros Hw Hne. pose proof (write_file_cwd _ _ _ _ Hw) as Hcwd.
  rewrite !stat_look, (abs_components_cwd _ _ q Hcwd).
  destruct (is_empty q); [trivial|].
  unfold write_file in Hw.
  destruct (put _ _ _) as [e|r] eqn:E; [discriminate|].
  injection Hw as <-. cbn [root]. eapply put_other; eassumption.
Qed.

Lemma write_file_stat_same (f f' : filesystem) (p data : string) :
  write_file f p data = inr f' -> p <> "" -> stat f' p = Some (IsFile data).
Proof.
  intros Hw Hne. pose proof (write_file_cwd _ _ _ _ Hw) as Hcwd.
  rewrite stat_look, (abs_components_cwd _ _ p Hcwd).
  destruct p; [congruence|]. cbn [is_empty].
  unfold write_file in Hw.
  destruct (put _ _ _) as [e|r] eqn:E; [discriminate|].
  injection Hw as <-. cbn [root]. eapply put_same; eassumption.
Qed.


End FileSystemFacts.

(** ** File systems in good order *)

Section WellFormed.

Import FS.

Lemma mem_string_In (x : string) (l : list string) :
  mem_string x l = true <-> In x l.
Proof.
  induction l as [|y l IH]; simpl; [split; [discriminate | tauto]|].
  rewrite orb_true_iff, String.eqb_eq, IH. tauto.
Qed.

Lemma distinct_NoDup (l : list string) : distinct l = true <-> NoDup l.
Proof.
  induction l as [|x l IH]; simpl.
  - split; [constructor | reflexivity].
  - rewrite andb_true_iff, negb_true_iff, IH. split.
    + intros [Hm Hd]. constructor; [|assumption].
      intros Hin. apply mem_string_In in Hin. congruence.
    + intros H. inversion H; subst. split; [|assumption].
      destruct (mem_string x l) eqn:E; [|reflexivity].
      apply mem_string_In in E. contradiction.
Qed.

Lemma wf_dir (es : list (string * node)) :
  wf_node (Dir es) = true <-> NoDup (map fst es) /\ entries_ok es.
Proof.
  cbn [wf_node]. rewrite andb_true_iff, distinct_NoDup.
  apply and_iff_compat_l. unfold entries_ok.
  induction es as [|[k m] es IH].
  - split; [constructor | reflexivity].
  - rewrite !andb_true_iff, IH. split.
    + intros [[Hk Hm] Hes]. constructor; [split|]; assumption.
    + intros H. inversion H as [|? ? [Hk Hm] Hes]; subst. tauto.
Qed.

Lemma find_entry_In (k : string) (m : node) (es : list (string * node)) :
  find_entry k es = Some m -> In (k, m) es.
Proof.
  induction es as [|[k' m'] es IH]; simpl; [discriminate|].
  destruct (String.eqb k' k) eqn:E.
  - apply String.eqb_eq in E. intros [= ->]. left. now subst.
  - intros H. right. auto.
Qed.

Lemma find_entry_None (k : string) (es : list (string * node)) :
  find_entry k es = None -> ~ In k (map fst es).
Proof.
  induction es as [|[k' m'] es IH]; simpl; [tauto|].
  destruct (String.eqb k' k) eqn:E; [discriminate|].
  apply String.eqb_neq in E. intros H [Hk | Hin]; [congruence | now apply IH].
Qed.

Lemma wf_walk (cs : list string) :
  forall n m, wf_node n = true -> walk cs n = Some m -> wf_node m = true.
Proof.
  induction cs as [|c cs IH]; intros n m Hwf Hw.
  - simpl in Hw. congruence.
  - simpl in Hw. destruct n as [d|es]; [discriminate|].
    destruct (find_entry c es) as [n1|] eqn:Hf; [|discriminate].
    apply (IH n1); [|assumption].
    apply wf_dir in Hwf. destruct Hwf as [_ Hes].
    apply find_entry_In in Hf. unfold entries_ok in Hes.
    rewrite Forall_forall in Hes. now apply (Hes (c, n1)).
Qed.

Lemma keys_set_entry (k : string) (m : node) (es : list (string * node)) :
  map fst (set_entry k m es)
  = if mem_string k (map fst es) then map fst es else (map fst es ++ [k])%list.
Proof.
  induction es as [|[k' m'] es IH]; simpl; [reflexivity|].
  destruct (String.eqb k' k) eqn:E; simpl; [reflexivity|].
  rewrite IH. destruct (mem_string k (map fst es)); reflexivity.
Qed.

Lemma entries_set_entry (k : string) (m : node) (es : list (string * node)) :
  valid_name k = true -> wf_node m = true -> entries_ok es ->
  entries_ok (set_entry k m es).
Proof.
  intros Hk Hm. unfold entries_ok.
  induction es as [|[k' m'] es IH]; simpl; intros Hes.
  - constructor; [now split | constructor].
  - inversion Hes as [|? ? [Hk' Hm'] Hes']; subst.
    destruct (String.eqb k' k) eqn:E.
    + constructor; [now split | assumption].
    + constructor; [now split | auto].
Qed.

Lemma wf_set_entry (k : string) (m : node) (es : list (string * node)) :
  valid_name k = true -> wf_node m = true ->
  wf_node (Dir es) = true -> wf_node (Dir (set_entry k m es)) = true.
Proof.
  intros Hk Hm Hwf. apply wf_dir in Hwf. destruct Hwf as [Hnd Hes].
  apply wf_dir. split; [|now apply entries_set_entry].
  rewrite keys_set_entry. destruct (mem_string k (map fst es)) eqn:E; [assumption|].
  apply NoDup_app; [assumption | repeat constructor; simpl; tauto |].
  intros x Hx [<- | []]. apply mem_string_In in Hx. congruence.
Qed.

Lemma wf_mkdirs (cs : list string) :
  forall ok n n',
    Forall (fun c => valid_name c = true) cs ->
    wf_node n = true -> mkdirs cs ok n = inr n' -> wf_node n' = true.
Proof.
  induction cs as [|c cs IH]; intros ok n n' Hcs Hwf Hmk.
  - simpl in Hmk. destruct n; [discriminate|].
    destruct ok; [|discriminate]. now injection Hmk as <-.
  - inversion Hcs as [|? ? Hc Hcs']; subst.
    simpl in Hmk. destruct n as [d|es]; [discriminate|].
    destruct (find_entry c es) as [m|] eqn:Hf.
    + destruct (mkdirs cs ok m) as [e|m'] eqn:Hm; [discriminate|].
      injection Hmk as <-. apply wf_set_entry; [assumption | | assumption].
      apply (IH ok m); [assumption | | assumption].
      apply (wf_walk [c] (Dir es)); [assumption|]. simpl. now rewrite Hf.
    + destruct (mkdirs cs true (Dir [])) as [e|m'] eqn:Hm; [discriminate|].
      injection Hmk as <-. apply wf_set_entry; [assumption | | assumption].
      now apply (IH true (Dir [])).
Qed.

Lemma wf_makedirs (f f' : filesystem) (name : string) (ok : bool) :
  wf f = true -> makedirs f name ok = inr f' -> wf f' = true.
Proof.
  unfold wf, makedirs. intros Hwf Hmk.
  destruct (mkdirs _ _ _) as [e|r] eqn:E; [discriminate|].
  injection Hmk as <-. cbn [root].
  eapply wf_mkdirs; [apply abs_components_valid | eassumption | eassumption].
Qed.

End WellFormed.

(** ** The glob *)

Section GlobFacts.

Import FS Glob.

Lemma has_magic_app (a b : string) :
  has_magic (a ++ b) = has_magic a || has_magic b.
Proof.
  unfold has_magic. rewrite !contains_app.
  destruct (contains "*" a), (contains "?" a), (contains "[" a),
    (contains "*" b), (contains "?" b), (contains "[" b); reflexivity.
Qed.

Lemma has_magic_dir_prefix (a : string) :
  has_magic (dir_prefix a) = has_magic a.
Proof.
  unfold dir_prefix. destruct (is_empty a || endswith PosixPath.sep a);
    [reflexivity|].
  rewrite has_magic_app. apply orb_false_r.
Qed.

(** Names listed in a directory are names of its entries. *)
Lemma listdir_entries (f : filesystem) (d : string) (dironly : bool) (n : string) :
  In n (_listdir f d dironly) ->
  exists es, lstat f (if is_empty d then "." else d) = Some (Dir es)
             /\ In n (map fst es).
Proof.
  unfold _listdir, scandir.
  destruct (lstat f (if is_empty d then "." else d)) as [[data|es]|];
    try (intros []).
  intros Hin. exists es. split; [reflexivity|].
  apply in_map_iff in Hin. destruct Hin as [e [<- He]].
  apply filter_In in He. apply in_map. tauto.
Qed.

Lemma wf_lstat (f : filesystem) (p : string) (n : node) :
  wf f = true -> lstat f p = Some n -> wf_node n = true.
Proof.
  unfold wf, lstat. intros Hwf. destruct (is_empty p); [discriminate|].
  now apply wf_walk.
Qed.

Lemma wf_listdir_valid (f : filesystem) (d : string) (dironly : bool) (n : string) :
  wf f = true -> In n (_listdir f d dironly) -> valid_name n = true.
Proof.
  intros Hwf Hin. apply listdir_entries in Hin. destruct Hin as [es [Hl Hin]].
  apply wf_lstat in Hl; [|assumption]. apply wf_dir in Hl. destruct Hl as [_ Hes].
  apply in_map_iff in Hin. destruct Hin as [e [<- He]].
  unfold entries_ok in Hes. rewrite Forall_forall in Hes. now apply Hes.
Qed.

Lemma NoDup_map_filter {A B : Type} (g : A -> B) (p : A -> bool) (l : list A) :
  NoDup (map g l) -> NoDup (map g (List.filter p l)).
Proof.
  induction l as [|x l IH]; simpl; [trivial|].
  intros H. inversion H as [|? ? Hx Hl]; subst.
  destruct (p x); simpl; [|auto].
  constructor; [|auto]. intros Hin. apply Hx.
  apply in_map_iff in Hin. destruct Hin as [y [Hy Hin]].
  apply filter_In in Hin. apply in_map_iff. exists y. tauto.
Qed.

Lemma wf_listdir_NoDup (f : filesystem) (d : string) (dironly : bool) :
  wf f = true -> NoDup (_listdir f d dironly).
Proof.
  intros Hwf. unfold _listdir, scandir.
  destruct (lstat f (if is_empty d then "." else d)) as [[data|es]|] eqn:Hl;
    try constructor.
  apply wf_lstat in Hl; [|assumption]. apply wf_dir in Hl.
  apply NoDup_map_filter. tauto.
Qed.

(** What [_glob1] keeps for the pattern [*.usdz]. *)
Lemma glob1_usdz (f : filesystem) (d : string) (dironly : bool) (n : string) :
  In n (_glob1 f d "*.usdz" dironly) <->
  In n (_listdir f d dironly) /\ _ishidden n = false
  /\ Fnmatch.fnmatchcase n "*.usdz" = true.
Proof.
  unfold _glob1, Fnmatch.filter.
  change (negb (_ishidden "*.usdz")) with true. cbv iota.
  rewrite !filter_In. cbv beta. rewrite negb_true_iff. tauto.
Qed.

Lemma glob1_NoDup (f : filesystem) (d pattern : string) (dironly : bool) :
  wf f = true -> NoDup (_glob1 f d pattern dironly).
Proof.
  intros Hwf. unfold _glob1, Fnmatch.filter.
  apply NoDup_filter.
  destruct (negb (_ishidden pattern)); [apply NoDup_filter|];
    now apply wf_listdir_NoDup.
Qed.

(** The pattern the script passes: a directory that does not end in a
    separator, then [*.usdz]. *)
Lemma iglob_usdz (fuel : nat) (f : filesystem) (d : string) :
  d <> "" -> endswith "/" d = false ->
  _iglob (S fuel) f (PosixPath.join d "*.usdz") false
  = match
      if negb (String.eqb d (PosixPath.join d "*.usdz")) && has_magic d
      then _iglob fuel f d true
      else Some [d]
    with
    | None => None
    | Some dirs =>
        Some (flat_map
                (fun dirname =>
                   map (fun name => PosixPath.join dirname name)
                       (_glob1 f dirname "*.usdz" false))
                dirs)
    end.
Proof.
  intros Hd He. cbn [_iglob]. rewrite split_join by (assumption || reflexivity).
  assert (Hm : has_magic (PosixPath.join d "*.usdz") = true).
  { rewrite join_relative by reflexivity. rewrite has_magic_app.
    apply orb_true_r. }
  rewrite Hm. cbn [negb]. destruct d; [congruence|]. reflexivity.
Qed.

(** There is always fuel enough. *)
Lemma iglob_total (fuel : nat) :
  forall (f : filesystem) (p : string) (dironly : bool),
    (String.length p < fuel)%nat -> _iglob fuel f p dironly <> None.
Proof.
  induction fuel as [|fuel IH]; intros f p dironly Hlen; [lia|].
  cbn [_iglob]. pose proof (split_head_shorter p) as Hshort.
  destruct (PosixPath.split p) as [dirname basename]. cbn [fst] in Hshort.
  destruct (negb (has_magic p)).
  - destruct (negb (is_empty basename)); discriminate.
  - destruct (is_empty dirname); [discriminate|].
    destruct (negb (String.eqb dirname p) && has_magic dirname) eqn:E.
    + apply andb_true_iff in E. destruct E as [E _].
      apply negb_true_iff, String.eqb_neq in E. specialize (Hshort E).
      specialize (IH f dirname true ltac:(lia)).
      destruct (_iglob fuel f dirname true); [discriminate | congruence].
    + discriminate.
Qed.

Lemma glob_usdz (f : filesystem) (d : string) :
  d <> "" -> endswith "/" d = false ->
  exists dirs,
    Glob.glob f (PosixPath.join d "*.usdz")
    = flat_map (fun dirname =>
                  map (fun name => PosixPath.join dirname name)
                      (_glob1 f dirname "*.usdz" false))
               dirs
    /\ (has_magic d = false -> dirs = [d]).
Proof.
  intros Hd He. unfold Glob.glob.
  pose proof (iglob_total (S (String.length (PosixPath.join d "*.usdz"))) f
                (PosixPath.join d "*.usdz") false ltac:(lia)) as Htot.
  rewrite iglob_usdz in * by assumption.
  assert (Hne : is_empty (PosixPath.join d "*.usdz") = false).
  { rewrite join_relative by reflexivity.
    destruct (dir_prefix d); reflexivity. }
  rewrite Hne. cbn [andb].
  destruct (negb (String.eqb d (PosixPath.join d "*.usdz")) && has_magic d) eqn:E.
  - destruct (_iglob _ f d true) as [dirs|]; [|congruence].
    exists dirs. split.
    + destruct (flat_map _ dirs); reflexivity.
    + intros Hm. rewrite Hm, andb_false_r in E. discriminate.
  - exists [d]. split; [|reflexivity].
    destruct (flat_map _ [d]); reflexivity.
Qed.

(** Every path the glob returns is a non-hidden entry name that ends in
    [.usdz], joined to some directory. *)
Lemma glob_usdz_In (f : filesystem) (d x : string) :
  d <> "" -> endswith "/" d = false ->
  In x (Glob.glob f (PosixPath.join d "*.usdz")) ->
  exists dirname name,
    x = PosixPath.join dirname name
    /\ In name (_listdir f dirname false)
    /\ _ishidden name = false
    /\ Fnmatch.fnmatchcase name "*.usdz" = true.
Proof.
  intros Hd He Hin. destruct (glob_usdz f d Hd He) as [dirs [Hg _]].
  rewrite Hg in Hin. apply in_flat_map in Hin. destruct Hin as [dn [_ Hin]].
  apply in_map_iff in Hin. destruct Hin as [n [<- Hn]].
  apply glob1_usdz in Hn. exists dn, n. tauto.
Qed.

End GlobFacts.

(** ** Runs *)

Section RunFacts.

Local Open Scope list_scope.

Variable bpy : host_app.
Variable __file__ : string.

Lemma do_calls_cons (c : call) (cs : list call) (w : world bpy) :
  do_calls (c :: cs) w
  = match do_call c w with
    | (inr _, w') => do_calls cs w'
    | (inl e, w') => (inl e, w')
    end.
Proof. reflexivity. Qed.

Lemma do_calls_app (cs cs' : list call) (w : world bpy) :
  do_calls (cs ++ cs') w
  = match do_calls cs w with
    | (inr _, w') => do_calls cs' w'
    | (inl e, w') => (inl e, w')
    end.
Proof.
  revert w. induction cs as [|c cs IH]; intros w; [reflexivity|].
  cbn [app]. rewrite !do_calls_cons.
  destruct (do_call c w) as [[e|u] w1]; [reflexivity | apply IH].
Qed.

(** One iteration makes its four calls in order. *)
Lemma convert_one_calls (output_dir usdz_path : string) (w : world bpy) :
  convert_one bpy output_dir usdz_path w
  = do_calls (iteration_calls output_dir usdz_path) w.
Proof.
  unfold convert_one, iteration_calls, done_line, bpy_ops_wm_read_factory_settings,
    bpy_ops_wm_usd_import, bpy_ops_export_scene_gltf, print.
  cbn [do_calls]. unfold bind, ret.
  destruct (do_call _ w) as [[e|u] w1]; [reflexivity|].
  destruct (do_call _ w1) as [[e|u1] w2]; [reflexivity|].
  destruct (do_call _ w2) as [[e|u2] w3]; [reflexivity|].
  destruct (do_call _ w3) as [[e|[]] w4]; reflexivity.
Qed.

(** The loop makes the calls of its iterations, one file after the other. *)
Lemma for_each_calls (output_dir : string) (files : list string) (w : world bpy) :
  for_each bpy files (convert_one bpy output_dir) w
  = do_calls (flat_map (iteration_calls output_dir) files) w.
Proof.
  revert w. induction files as [|x files IH]; intros w; [reflexivity|].
  cbn [for_each flat_map]. rewrite do_calls_app. unfold bind at 1.
  rewrite convert_one_calls.
  destruct (do_calls _ w) as [[e|u] w1]; [reflexivity | apply IH].
Qed.

(** A run makes the calls of its plan. *)
Lemma run_plan (f : FS.filesystem) (h : Host bpy) :
  run bpy __file__ f h
  = do_calls (plan __file__ f)
      {| fs := f; host := h; stdout := []; history := [] |}.
Proof.
  unfold run, convert, plan, discovered, os_getcwd, os_makedirs, glob_glob.
  unfold usdz_pattern, downloads_dir, output_dir.
  rewrite !do_calls_cons. unfold bind, ret, do_call.
  cbv zeta. cbn [fs host stdout history perform].
  set (out := PosixPath.join (script_dir __file__ (FS.cwd f)) "output").
  set (pat := PosixPath.join _ "*.usdz").
  destruct (FS.makedirs f out true) as [e|f1]; [reflexivity|].
  cbn [fs host stdout history].
  destruct (Glob.glob f1 pat) as [|x files] eqn:Hg.
  - reflexivity.
  - rewrite <- Hg. etransitivity; [apply for_each_calls|]. reflexivity.
Qed.

(** *** Histories *)

Lemma printed_lines (ev : event bpy) : printed ev = lines_of (what ev).
Proof.
  unfold printed. destruct ev as [c g h]. cbn [what fs_at host_at].
  destruct c; cbn [perform lines_of]; try reflexivity.
  - destruct (FS.makedirs g name exist_ok); reflexivity.
  - destruct (read_factory_settings bpy use_empty h); reflexivity.
  - destruct (usd_import bpy path g h); reflexivity.
  - destruct (export_scene_gltf bpy kwargs g h) as [m|[data h']]; [reflexivity|].
    destruct (FS.write_file g (filepath kwargs) data); reflexivity.
Qed.

Lemma printed_raised (ev : event bpy) (e : exn) :
  raised ev = Some e -> printed ev = [].
Proof.
  unfold raised, printed.
  destruct (perform (what ev) (fs_at ev) (host_at ev));
    [reflexivity | discriminate].
Qed.

(** What [do_calls] leaves: the events it adds to the history are chained
    from the state it started in, end in the state it stops in, account
    for what was printed, and follow the list of calls up to the first that
    raised. *)
Lemma do_calls_history (cs : list call) :
  forall (w : world bpy) (r : exn + unit) (w' : world bpy),
    do_calls cs w = (r, w') ->
    exists t,
      history w' = history w ++ t
      /\ chained (fs w, host w) t
      /\ (fs w', host w') = end_state (fs w, host w) t
      /\ stdout w' = stdout w ++ flat_map printed t
      /\ match r with
         | inr _ => map what t = cs /\ Forall quiet t
         | inl e =>
             exists t0 ev rest,
               t = t0 ++ [ev] /\ cs = map what t ++ rest
               /\ raised ev = Some e /\ Forall quiet t0
         end.
Proof.
  induction cs as [|c cs IH]; intros w r w' Hrun.
  - injection Hrun as <- <-. exists []. cbn. rewrite !app_nil_r.
    repeat split; auto.
  - rewrite do_calls_cons in Hrun. unfold do_call in Hrun.
    set (ev := {| what := c; fs_at := fs w; host_at := host w |}) in *.
    destruct (perform c (fs w) (host w)) as [e|[[f' h'] out]] eqn:Hp.
    + injection Hrun as <- <-. exists [ev]. cbn [history fs host stdout].
      assert (Hr : raised ev = Some e) by (unfold raised; cbn; now rewrite Hp).
      refine (conj eq_refl (conj _ (conj _ (conj _ _)))).
      * cbn. intuition congruence.
      * unfold end_state, after. cbn. now rewrite Hp.
      * cbn. rewrite (printed_raised _ _ Hr). now rewrite !app_nil_r.
      * exists [], ev, cs. cbn. auto.
    + destruct (IH _ _ _ Hrun) as (t & Hh & Hc & He & Hs & Hr).
      cbn [history fs host stdout] in *.
      assert (Hq : raised ev = None) by (unfold raised; cbn; now rewrite Hp).
      assert (Ha : after ev = (f', h')) by (unfold after; cbn; now rewrite Hp).
      exists (ev :: t). refine (conj _ (conj _ (conj _ (conj _ _)))).
      * rewrite Hh, <- app_assoc. reflexivity.
      * cbn [chained]. rewrite Ha. intuition congruence.
      * unfold end_state in *. cbn [fold_left]. now rewrite Ha.
      * rewrite Hs. cbn [flat_map]. rewrite app_assoc. f_equal. f_equal.
        unfold printed. cbn. now rewrite Hp.
      * destruct r as [e|u].
        -- destruct Hr as (t0 & ev' & rest & -> & -> & Hr & Hq0).
           exists (ev :: t0), ev', rest. cbn. repeat split; auto.
        -- destruct Hr as [<- Hq0]. split; [reflexivity | now constructor].
Qed.

(** In a chained history only the last call may have raised. *)
Lemma chained_raised_last (t1 t2 : list (event bpy)) (ev : event bpy) (e : exn) :
  forall s, chained s (t1 ++ ev :: t2) -> raised ev = Some e -> t2 = [].
Proof.
  induction t1 as [|x t1 IH]; intros s Hc Hr.
  - cbn in Hc. destruct Hc as (_ & Hq & _).
    destruct t2; [reflexivity|]. rewrite Hq in Hr; [discriminate | discriminate].
  - cbn in Hc. destruct Hc as (_ & _ & Hc). eapply IH; eassumption.
Qed.

(** In a chained history each call is made in the state the call before
    it left. *)
Lemma chained_successor (t1 t2 : list (event bpy)) (ev0 ev : event bpy) :
  forall s, chained s (t1 ++ ev0 :: ev :: t2) ->
            raised ev0 = None /\ (fs_at ev, host_at ev) = after ev0.
Proof.
  induction t1 as [|x t1 IH]; intros s Hc.
  - cbn in Hc. destruct Hc as (_ & Hq & Hs & _). split; [|assumption].
    apply Hq. discriminate.
  - cbn in Hc. destruct Hc as (_ & _ & Hc). eapply IH; eassumption.
Qed.

(** An invariant of the file system that every call of a chained history
    maintains holds at every call and at the end. *)
Lemma chained_invariant (I : FS.filesystem -> Prop) (t : list (event bpy)) :
  forall s,
    chained s t -> I (fst s) ->
    (forall ev, In ev t -> I (fs_at ev) -> I (fst (after ev))) ->
    I (fst (end_state s t)) /\ (forall ev, In ev t -> I (fs_at ev)).
Proof.
  induction t as [|x t IH]; intros s Hc Hi Hstep.
  - cbn. split; [assumption | intros ? []].
  - cbn in Hc. destruct Hc as (Hs & _ & Hc).
    assert (Hx : I (fs_at x)) by (rewrite <- Hs in Hi; exact Hi).
    destruct (IH (after x) Hc) as [Hend Hall].
    + apply Hstep; [now left | assumption].
    + intros ev Hin. apply Hstep. now right.
    + split; [exact Hend|]. intros ev [<- | Hin]; auto.
Qed.

(** What a call does to the file system. *)
Lemma after_fs (ev : event bpy) :
  match what ev with
  | CallMakedirs name ok =>
      FS.makedirs (fs_at ev) name ok = inr (fst (after ev))
      \/ fst (after ev) = fs_at ev
  | CallExportGltf kwargs =>
      (exists data, FS.write_file (fs_at ev) (filepath kwargs) data
                    = inr (fst (after ev)))
      \/ fst (after ev) = fs_at ev
  | _ => fst (after ev) = fs_at ev
  end.
Proof.
  unfold after. destruct ev as [c g h]. cbn [what fs_at host_at].
  destruct c; cbn [perform]; try reflexivity.
  - destruct (FS.makedirs g name exist_ok); auto.
  - destruct (read_factory_settings bpy use_empty h); reflexivity.
  - destruct (usd_import bpy path g h); reflexivity.
  - destruct (export_scene_gltf bpy kwargs g h) as [m|[data h']]; [now right|].
    destruct (FS.write_file g (filepath kwargs) data) eqn:E; [now right|].
    left. now exists data.
Qed.

(** The history of a run. *)
Lemma run_history (f : FS.filesystem) (h : Host bpy) :
  let r := fst (run bpy __file__ f h) in
  let w' := snd (run bpy __file__ f h) in
  chained (f, h) (history w')
  /\ (fs w', host w') = end_state (f, h) (history w')
  /\ stdout w' = flat_map printed (history w')
  /\ match r with
     | inr _ => map what (history w') = plan __file__ f
                /\ Forall quiet (history w')
     | inl e =>
         exists t0 ev rest,
           history w' = t0 ++ [ev]
           /\ plan __file__ f = map what (history w') ++ rest
           /\ raised ev = Some e /\ Forall quiet t0
     end.
Proof.
  intros r w'. subst r w'. rewrite run_plan.
  destruct (do_calls (plan __file__ f) _) as [r w'] eqn:Hrun.
  destruct (do_calls_history _ _ _ _ Hrun) as (t & Hh & Hc & He & Hs & Hr).
  cbn [history fs host stdout app fst snd] in *. subst t. auto.
Qed.

Lemma run_history_prefix (f : FS.filesystem) (h : Host bpy) :
  exists rest,
    plan __file__ f
    = map what (history (snd (run bpy __file__ f h))) ++ rest.
Proof.
  destruct (run_history f h) as (_ & _ & _ & Hr).
  destruct (fst (run bpy __file__ f h)).
  - destruct Hr as (t0 & ev & rest & _ & Hp & _). now exists rest.
  - destruct Hr as [Hp _]. exists []. now rewrite app_nil_r.
Qed.

End RunFacts.

(** ** The plan of a run *)

Section PlanFacts.

Local Open Scope list_scope.

Variable __file__ : string.

Lemma in_iterations (output_dir : string) (files : list string) (c : call) :
  In c (flat_map (iteration_calls output_dir) files) ->
  exists p, In p files /\ In c (iteration_calls output_dir p).
Proof. intros H. apply in_flat_map in H. exact H. Qed.

Lemma plan_cases (f : FS.filesystem) (c : call) :
  In c (plan __file__ f) ->
  c = CallMakedirs (output_dir __file__ (FS.cwd f)) true
  \/ c = CallGlob (usdz_pattern __file__ (FS.cwd f))
  \/ (discovered __file__ f = []
      /\ (c = CallPrint no_files_message \/ c = CallExit 1))
  \/ (exists p, In p (discovered __file__ f)
                /\ In c (iteration_calls (output_dir __file__ (FS.cwd f)) p)).
Proof.
  unfold plan. intros [<- | [<- | H]]; [tauto | tauto |].
  right. right. destruct (discovered __file__ f) as [|x files] eqn:E.
  - left. split; [reflexivity|]. destruct H as [<- | [<- | []]]; tauto.
  - right. now apply in_iterations.
Qed.

Lemma plan_export (f : FS.filesystem) (kwargs : gltf_kwargs) :
  In (CallExportGltf kwargs) (plan __file__ f) ->
  exists p, In p (discovered __file__ f)
            /\ kwargs = export_kwargs (glb_path_of (output_dir __file__ (FS.cwd f)) p).
Proof.
  intros H. apply plan_cases in H.
  destruct H as [H | [H | [[_ [H | H]] | [p [Hp H]]]]]; try discriminate.
  exists p. split; [assumption|].
  destruct H as [H | [H | [H | [H | []]]]]; try discriminate. congruence.
Qed.

Lemma plan_import (f : FS.filesystem) (path : string) :
  In (CallUsdImport path) (plan __file__ f) -> In path (discovered __file__ f).
Proof.
  intros H. apply plan_cases in H.
  destruct H as [H | [H | [[_ [H | H]] | [p [Hp H]]]]]; try discriminate.
  destruct H as [H | [H | [H | [H | []]]]]; try discriminate. congruence.
Qed.

Lemma plan_makedirs (f : FS.filesystem) (name : string) (ok : bool) :
  In (CallMakedirs name ok) (plan __file__ f) ->
  name = output_dir __file__ (FS.cwd f) /\ ok = true.
Proof.
  intros H. apply plan_cases in H.
  destruct H as [H | [H | [[_ [H | H]] | [p [Hp H]]]]]; try discriminate.
  - injection H as -> ->. auto.
  - destruct H as [H | [H | [H | [H | []]]]]; discriminate.
Qed.

(** A prefix of the calls of the loop is made of whole iterations and
    at most one iteration cut short. *)
Lemma prefix_of_iterations (output_dir : string) (files : list string) :
  forall l rest,
    flat_map (iteration_calls output_dir) files = l ++ rest ->
    (exists done todo,
        files = done ++ todo
        /\ l = flat_map (iteration_calls output_dir) done)
    \/ (exists done p todo k,
           files = done ++ p :: todo /\ (1 <= k <= 3)%nat
           /\ l = flat_map (iteration_calls output_dir) done
                  ++ firstn k (iteration_calls output_dir p)).
Proof.
  induction files as [|x files IH]; intros l rest H.
  - cbn in H. symmetry in H. apply app_eq_nil in H. destruct H as [-> _].
    left. now exists [], [].
  - cbn [flat_map] in H.
    destruct l as [|a [|b [|c [|d l]]]].
    + left. now exists [], (x :: files).
    + right. exists [], x, files, 1%nat. cbn in *.
      injection H as <- _. repeat split; lia.
    + right. exists [], x, files, 2%nat. cbn in *.
      injection H as <- <- _. repeat split; lia.
    + right. exists [], x, files, 3%nat. cbn in *.
      injection H as <- <- <- _. repeat split; lia.
    + cbn in H. injection H as <- <- <- <- H.
      destruct (IH _ _ H) as [(done & todo & -> & ->)
                             | (done & p & todo & k & -> & Hk & ->)].
      * left. now exists (x :: done), todo.
      * right. now exists (x :: done), p, todo, k.
Qed.

Lemma iterations_snoc (output_dir : string) (done : list string) (p : string) :
  flat_map (iteration_calls output_dir) (done ++ [p])
  = flat_map (iteration_calls output_dir) done ++ iteration_calls output_dir p.
Proof. rewrite flat_map_app. reflexivity. Qed.


Lemma lines_of_iterations (output_dir : string) (files : list string) :
  flat_map lines_of (flat_map (iteration_calls output_dir) files)
  = map (done_line output_dir) files.
Proof.
  induction files as [|x files IH]; [reflexivity|].
  cbn [flat_map map]. rewrite flat_map_app, IH. reflexivity.
Qed.

Lemma lines_of_cut (output_dir p : string) (k : nat) :
  (k <= 3)%nat -> flat_map lines_of (firstn k (iteration_calls output_dir p)) = [].
Proof.
  intros Hk. destruct k as [|[|[|[|k]]]]; try reflexivity. lia.
Qed.

End PlanFacts.

(** ** Where the script reads and writes *)

Section Layout.

Local Open Scope list_scope.

Import FS.

Variable __file__ : string.

Lemma downloads_dir_shape (cwd : string) :
  downloads_dir __file__ cwd <> ""%string
  /\ endswith "/" (downloads_dir __file__ cwd) = false
  /\ Glob.has_magic (downloads_dir __file__ cwd)
     = Glob.has_magic (script_dir __file__ cwd).
Proof.
  unfold downloads_dir. rewrite join_relative by reflexivity.
  repeat split.
  - intros H. apply sapp_empty in H. destruct H; discriminate.
  - now rewrite endswith_app.
  - rewrite has_magic_app, has_magic_dir_prefix. apply orb_false_r.
Qed.

Lemma downloads_components (f : FS.filesystem) :
  FS.abs_components f (downloads_dir __file__ (FS.cwd f))
  = FS.abs_components f (script_dir __file__ (FS.cwd f)) ++ ["downloads"%string].
Proof. unfold downloads_dir. now rewrite abs_components_join. Qed.

Lemma output_components (f : FS.filesystem) :
  FS.abs_components f (output_dir __file__ (FS.cwd f))
  = FS.abs_components f (script_dir __file__ (FS.cwd f)) ++ ["output"%string].
Proof. unfold output_dir. now rewrite abs_components_join. Qed.

Lemma output_dir_nonempty (cwd : string) : output_dir __file__ cwd <> ""%string.
Proof.
  unfold output_dir. rewrite join_relative by reflexivity.
  intros H. apply sapp_empty in H. destruct H; discriminate.
Qed.

Lemma glb_name_valid (usdz_path : string) : valid_name (glb_name usdz_path) = true.
Proof.
  unfold valid_name, glb_name.
  set (name := fst (PosixPath.splitext (PosixPath.basename usdz_path))).
  assert (Hc : contains "/" (name ++ ".glb")%string = false).
  { rewrite contains_app. pose proof (stem_clean usdz_path) as Hs.
    unfold PosixPath.sep in Hs. fold name in Hs. now rewrite Hs. }
  rewrite Hc. assert (Hd : ((name ++ ".glb") =? ".")%string = false).
  { apply String.eqb_neq. intros H. apply (f_equal String.length) in H.
    rewrite sapp_length in H. cbn in H. lia. }
  rewrite Hd. destruct name; reflexivity.
Qed.

(** An output path is a direct child of the output directory. *)
Lemma glb_path_components (f : FS.filesystem) (out usdz_path : string) :
  glb_path_of out usdz_path = PosixPath.join out (glb_name usdz_path)
  /\ FS.abs_components f (glb_path_of out usdz_path)
     = FS.abs_components f out ++ [glb_name usdz_path].
Proof.
  pose proof (glb_name_valid usdz_path) as Hv.
  split; [reflexivity|].
  unfold glb_path_of. fold (glb_name usdz_path).
  rewrite abs_components_join, components_name; trivial.
  apply clean_not_abs. unfold valid_name in Hv.
  apply andb_true_iff in Hv. destruct Hv as [_ Hv]. now apply negb_true_iff.
Qed.

Lemma glb_path_nonempty (out p : string) : glb_path_of out p <> ""%string.
Proof.
  rewrite (proj1 (glb_path_components {| FS.root := FS.Dir []; FS.cwd := "" |} out p)).
  pose proof (glb_name_valid p) as Hv.
  rewrite join_relative.
  - intros H. apply sapp_empty in H. destruct H as [_ H].
    rewrite H in Hv. discriminate.
  - apply clean_not_abs. unfold valid_name in Hv.
    apply andb_true_iff in Hv. destruct Hv as [_ Hv]. now apply negb_true_iff.
Qed.

(** What the glob of a run finds, in a file system in good order. *)
Lemma discovered_In (f : FS.filesystem) (x : string) :
  wf f = true ->
  In x (discovered __file__ f) ->
  exists dirname name,
    x = PosixPath.join dirname name
    /\ valid_name name = true
    /\ Glob._ishidden name = false
    /\ Fnmatch.fnmatchcase name "*.usdz" = true.
Proof.
  intros Hwf Hin. unfold discovered in Hin.
  destruct (FS.makedirs f _ true) as [e|f1] eqn:Hmk; [destruct Hin|].
  destruct (downloads_dir_shape (FS.cwd f)) as (Hne & Hend & _).
  apply glob_usdz_In in Hin; [|assumption|assumption].
  destruct Hin as (dn & n & -> & Hl & Hh & Hm).
  exists dn, n. repeat split; try assumption.
  eapply wf_listdir_valid; [|eassumption]. eapply wf_makedirs; eassumption.
Qed.

(** Creating the output directory does not change what the downloads
    directory lists. *)
Lemma listdir_downloads_after_makedirs (f f1 : filesystem) :
  makedirs f (output_dir __file__ (cwd f)) true = inr f1 ->
  Glob._listdir f1 (downloads_dir __file__ (cwd f)) false
  = Glob._listdir f (downloads_dir __file__ (cwd f)) false.
Proof.
  intros Hmk. pose proof (makedirs_cwd _ _ _ _ Hmk) as Hcwd.
  unfold Glob._listdir, scandir, lstat.
  rewrite (abs_components_cwd f f1 _ Hcwd).
  destruct (is_empty (if is_empty (downloads_dir __file__ (cwd f))
                      then "."%string else downloads_dir __file__ (cwd f)));
    [reflexivity|].
  destruct (downloads_dir_shape (cwd f)) as (Hne & _).
  destruct (downloads_dir __file__ (cwd f)) eqn:E; [congruence|].
  cbn [is_empty]. rewrite <- E. unfold makedirs in Hmk.
  destruct (mkdirs _ _ _) as [e|r] eqn:Em; [discriminate|].
  injection Hmk as <-. cbn [root].
  rewrite (mkdirs_walk_outside _ _ _ _ _ Em); [reflexivity|].
  rewrite downloads_components, output_components.
  intros [r' Er]. rewrite <- app_assoc in Er. apply app_inv_head in Er.
  discriminate.
Qed.

End Layout.

(** ** Histories of runs *)

Section HistoryFacts.

Local Open Scope list_scope.

Variable bpy : host_app.
Variable __file__ : string.

Lemma history_in_plan (f : FS.filesystem) (h : Host bpy) (ev : event bpy) :
  In ev (history (snd (run bpy __file__ f h))) ->
  In (what ev) (plan __file__ f).
Proof.
  intros Hin. destruct (run_history_prefix bpy __file__ f h) as [rest ->].
  apply in_or_app. left. now apply in_map.
Qed.

Lemma stdout_lines (f : FS.filesystem) (h : Host bpy) :
  stdout (snd (run bpy __file__ f h))
  = flat_map lines_of (map what (history (snd (run bpy __file__ f h)))).
Proof.
  destruct (run_history bpy __file__ f h) as (_ & _ & -> & _).
  induction (history (snd (run bpy __file__ f h))) as [|ev t IH]; [reflexivity|].
  cbn [flat_map map]. now rewrite IH, printed_lines.
Qed.

Lemma map_eq_snoc {A B : Type} (g : A -> B) (l : list A) (l0 : list B) (x : B) :
  map g l = l0 ++ [x] ->
  exists l' y, l = l' ++ [y] /\ g y = x /\ map g l' = l0.
Proof.
  intros H. destruct (exists_last (l := l)) as [l' [y ->]].
  { intros ->. destruct l0; discriminate. }
  rewrite map_app in H. cbn in H. apply app_inj_tail in H.
  destruct H as [H1 H2]. now exists l', y.
Qed.

Lemma plan_nonempty (f : FS.filesystem) :
  discovered __file__ f <> [] ->
  plan __file__ f
  = CallMakedirs (output_dir __file__ (FS.cwd f)) true
    :: CallGlob (usdz_pattern __file__ (FS.cwd f))
    :: flat_map (iteration_calls (output_dir __file__ (FS.cwd f)))
         (discovered __file__ f).
Proof.
  unfold plan. destruct (discovered __file__ f); [congruence | reflexivity].
Qed.

(** When the glob finds files, the run gets past [os.makedirs] and the
    glob, and what it calls after them is a prefix of the steps of the
    loop. *)
Lemma loop_reached (f : FS.filesystem) (h : Host bpy) :
  discovered __file__ f <> [] ->
  exists calls rest,
    map what (history (snd (run bpy __file__ f h)))
    = CallMakedirs (output_dir __file__ (FS.cwd f)) true
      :: CallGlob (usdz_pattern __file__ (FS.cwd f)) :: calls
    /\ flat_map (iteration_calls (output_dir __file__ (FS.cwd f)))
         (discovered __file__ f) = calls ++ rest
    /\ (fst (run bpy __file__ f h) = inr tt -> rest = []).
Proof.
  intros Hne. pose proof (run_history bpy __file__ f h) as Hrun.
  cbv zeta in Hrun. destruct Hrun as (Hc & _ & _ & Hr).
  destruct (run_history_prefix bpy __file__ f h) as [rest Hp].
  rewrite (plan_nonempty f Hne) in *.
  destruct (history (snd (run bpy __file__ f h))) as [|e1 [|e2 t]] eqn:Hh.
  - exfalso. destruct (fst (run bpy __file__ f h)).
    + destruct Hr as (t0 & ev & _ & Ht & _). destruct t0; discriminate.
    + destruct Hr as [Hm _]. cbn [map app] in Hm. discriminate.
  - exfalso. cbn [map app] in Hp. injection Hp as Hw _.
    destruct (fst (run bpy __file__ f h)).
    + destruct Hr as (t0 & ev & _ & Ht & _ & Hraised & _).
      destruct t0 as [|? [|? ?]]; try discriminate. injection Ht as <-.
      cbn [chained] in Hc. destruct Hc as (Hs & _). injection Hs as Hf Hh0.
      unfold raised in Hraised. rewrite <- Hw, Hf, Hh0 in Hraised.
      cbn [perform] in Hraised. apply Hne. unfold discovered.
      revert Hraised.
      destruct (FS.makedirs f (output_dir __file__ (FS.cwd f)) true);
        [reflexivity | discriminate].
    + destruct Hr as [Hm _]. cbn [map app] in Hm. discriminate.
  - cbn [map app] in *. injection Hp as Hw1 Hw2 Hp.
    exists (map what t), rest. rewrite <- Hw1, <- Hw2. repeat split.
    + exact Hp.
    + intros Hret. rewrite Hret in Hr. destruct Hr as [Hm _].
      injection Hm as _ _ Hm. rewrite <- Hm in Hp at 1.
      rewrite <- (app_nil_r (map what t)) in Hp at 1.
      apply app_inv_head in Hp. now symmetry.
Qed.


(** A run ends with the exception of the call that raised, and makes no
    call after it. *)
Lemma raise_ends_run
  (f : FS.filesystem) (h : Host bpy) (t1 t2 : list (event bpy))
  (ev : event bpy) (e : exn) :
  history (snd (run bpy __file__ f h)) = t1 ++ ev :: t2 ->
  raised ev = Some e ->
  t2 = [] /\ fst (run bpy __file__ f h) = inl e.
Proof.
  intros Hh Hraised. pose proof (run_history bpy __file__ f h) as Hrun.
  cbv zeta in Hrun. destruct Hrun as (Hc & _ & _ & Hr). rewrite Hh in Hc, Hr.
  assert (Ht2 : t2 = []) by (eapply chained_raised_last; eassumption).
  subst t2. split; [reflexivity|].
  destruct (fst (run bpy __file__ f h)) as [e'|u].
  - destruct Hr as (t0 & ev' & _ & Ht & _ & Hraised' & _).
    apply app_inj_tail in Ht. destruct Ht as [_ <-]. congruence.
  - destruct Hr as [_ Hq]. rewrite Forall_app in Hq. destruct Hq as [_ Hq].
    inversion Hq as [|? ? Hev _]; subst. unfold quiet in Hev. congruence.
Qed.

(** The first call of a run is [os.makedirs] on the output directory, made
    in the state the run starts in. *)
Lemma history_head (f : FS.filesystem) (h : Host bpy) :
  exists ev t,
    history (snd (run bpy __file__ f h)) = ev :: t
    /\ what ev = CallMakedirs (output_dir __file__ (FS.cwd f)) true
    /\ fs_at ev = f /\ host_at ev = h.
Proof.
  pose proof (run_history bpy __file__ f h) as Hrun. cbv zeta in Hrun.
  destruct Hrun as (Hc & _ & _ & Hr).
  destruct (run_history_prefix bpy __file__ f h) as [rest Hp].
  destruct (history (snd (run bpy __file__ f h))) as [|ev t].
  - exfalso. destruct (fst (run bpy __file__ f h)).
    + destruct Hr as (t0 & ev & _ & Ht & _). destruct t0; discriminate.
    + destruct Hr as [Hm _]. discriminate.
  - exists ev, t. cbn [chained] in Hc. destruct Hc as (Hs & _).
    injection Hs as Hf Hh. unfold plan in Hp. cbn [map app] in Hp.
    injection Hp as Hw _. auto.
Qed.

Lemma chained_split (t1 t2 : list (event bpy)) (ev : event bpy) :
  forall st,
    chained st (t1 ++ ev :: t2) ->
    chained (after ev) t2
    /\ end_state st (t1 ++ ev :: t2) = end_state (after ev) t2.
Proof.
  induction t1 as [|x t1 IH]; intros st Hc.
  - cbn in Hc. destruct Hc as (_ & _ & Hc). split; [assumption | reflexivity].
  - cbn [app chained] in Hc. destruct Hc as (_ & _ & Hc).
    destruct (IH _ Hc) as [H1 H2]. split; [assumption|].
    unfold end_state in *. cbn [app fold_left]. exact H2.
Qed.

(** The current directory stays what it was. *)
Lemma after_cwd (ev : event bpy) : FS.cwd (fst (after ev)) = FS.cwd (fs_at ev).
Proof.
  pose proof (after_fs bpy ev) as H.
  destruct (what ev); try (now rewrite H).
  - destruct H as [H | ->]; [|reflexivity]. now apply makedirs_cwd in H.
  - destruct H as [[data H] | ->]; [|reflexivity]. now apply write_file_cwd in H.
Qed.

Lemma history_cwd (f : FS.filesystem) (h : Host bpy) (ev : event bpy) :
  In ev (history (snd (run bpy __file__ f h))) -> FS.cwd (fs_at ev) = FS.cwd f.
Proof.
  pose proof (run_history bpy __file__ f h) as Hrun. cbv zeta in Hrun.
  destruct Hrun as (Hc & _).
  apply (chained_invariant bpy (fun g => FS.cwd g = FS.cwd f) _ (f, h) Hc);
    [reflexivity|].
  intros ev' _ H. now rewrite after_cwd.
Qed.

(** What was there before a call of a run is there after it, unless the
    call is the export to that very path. *)
Lemma call_keeps (f : FS.filesystem) (ev : event bpy) (q : string)
  (s : FS.stat_result) :
  In (what ev) (plan __file__ f) ->
  FS.cwd (fs_at ev) = FS.cwd f ->
  (forall p, In p (discovered __file__ f) ->
             FS.abs_components f q
             <> FS.abs_components f (glb_path_of (output_dir __file__ (FS.cwd f)) p)) ->
  FS.stat (fs_at ev) q = Some s ->
  FS.stat (fst (after ev)) q = Some s.
Proof.
  intros Hplan Hcwd Hq Hs. pose proof (after_fs bpy ev) as H.
  destruct (what ev) as [name ok| | | | | |kwargs] eqn:Hw; try (now rewrite H).
  - destruct H as [H | ->]; [|assumption]. eapply makedirs_stat_keeps; eassumption.
  - destruct H as [[data H] | ->]; [|assumption].
    apply plan_export in Hplan. destruct Hplan as [p [Hp ->]].
    rewrite (write_file_stat_other _ _ _ _ _ H); [assumption|].
    cbn [filepath export_kwargs].
    rewrite !(abs_components_cwd _ _ _ Hcwd). now apply Hq.
Qed.

Lemma kept_through (f : FS.filesystem) (t : list (event bpy)) (q : string)
  (s : FS.stat_result) :
  forall st,
    chained st t ->
    (forall ev, In ev t -> In (what ev) (plan __file__ f)) ->
    FS.cwd (fst st) = FS.cwd f ->
    (forall p, In p (discovered __file__ f) ->
               FS.abs_components f q
               <> FS.abs_components f (glb_path_of (output_dir __file__ (FS.cwd f)) p)) ->
    FS.stat (fst st) q = Some s ->
    FS.stat (fst (end_state st t)) q = Some s.
Proof.
  intros st Hc Hplan Hcwd Hq Hs.
  apply (chained_invariant bpy
           (fun g => FS.cwd g = FS.cwd f /\ FS.stat g q = Some s) t st Hc);
    [now split|].
  intros ev Hin [Hcwd' Hs']. split.
  - now rewrite after_cwd.
  - apply (call_keeps f); auto.
Qed.

(** A call of a run leaves everything under the downloads directory as it
    is. *)
Lemma call_outside_downloads (f : FS.filesystem) (ev : event bpy) (q : string) :
  In (what ev) (plan __file__ f) ->
  FS.cwd (fs_at ev) = FS.cwd f ->
  prefix_of (FS.abs_components f (downloads_dir __file__ (FS.cwd f)))
            (FS.abs_components f q) ->
  FS.stat (fst (after ev)) q = FS.stat (fs_at ev) q.
Proof.
  intros Hplan Hcwd [r Hq]. rewrite downloads_components in Hq.
  pose proof (after_fs bpy ev) as H.
  destruct (what ev) as [name ok| | | | | |kwargs] eqn:Hw; try (now rewrite H).
  - destruct H as [H | ->]; [|reflexivity].
    apply plan_makedirs in Hplan. destruct Hplan as [-> ->].
    apply (makedirs_stat_outside _ _ _ _ _ H).
    rewrite !(abs_components_cwd _ _ _ Hcwd), output_components, Hq.
    intros [r' E]. rewrite <- !app_assoc in E. apply app_inv_head in E.
    discriminate.
  - destruct H as [[data H] | ->]; [|reflexivity].
    apply plan_export in Hplan. destruct Hplan as [p [Hp ->]].
    apply (write_file_stat_other _ _ _ _ _ H). cbn [filepath export_kwargs].
    rewrite !(abs_components_cwd _ _ _ Hcwd).
    rewrite (proj2 (glb_path_components f _ p)), output_components, Hq.
    rewrite <- !app_assoc. intros E. apply app_inv_head in E. discriminate.
Qed.

(** An export that did not raise wrote its file. *)
Lemma quiet_export_writes (ev : event bpy) (kwargs : gltf_kwargs) :
  what ev = CallExportGltf kwargs ->
  raised ev = None ->
  exists data,
    FS.write_file (fs_at ev) (filepath kwargs) data = inr (fst (after ev)).
Proof.
  unfold raised, after. intros ->. cbn [perform].
  destruct (export_scene_gltf bpy kwargs (fs_at ev) (host_at ev))
    as [m|[data h']]; [discriminate|].
  destruct (FS.write_file (fs_at ev) (filepath kwargs) data) eqn:E;
    [discriminate|].
  intros _. now exists data.
Qed.

(** A call of a run keeps a file at an output path where there is one. *)
Lemma call_keeps_output (f : FS.filesystem) (ev : event bpy) (p : string) :
  let target := glb_path_of (output_dir __file__ (FS.cwd f)) p in
  In (what ev) (plan __file__ f) ->
  FS.cwd (fs_at ev) = FS.cwd f ->
  (exists d, FS.stat (fs_at ev) target = Some (FS.IsFile d)) ->
  exists d, FS.stat (fst (after ev)) target = Some (FS.IsFile d).
Proof.
  intros target Hplan Hcwd [d Hs]. pose proof (after_fs bpy ev) as H.
  destruct (what ev) as [name ok| | | | | |kwargs] eqn:Hw;
    try (rewrite H; now exists d).
  - destruct H as [H | ->]; [|now exists d].
    exists d. eapply makedirs_stat_keeps; eassumption.
  - destruct H as [[data H] | ->]; [|now exists d].
    apply plan_export in Hplan. destruct Hplan as [p' [_ ->]].
    cbn [filepath export_kwargs] in H.
    set (target' := glb_path_of (output_dir __file__ (FS.cwd f)) p') in *.
    destruct (list_eq_dec string_dec (FS.abs_components (fs_at ev) target)
                (FS.abs_components (fs_at ev) target')) as [E|E].
    + exists data.
      pose proof (write_file_stat_same _ _ _ _ H (glb_path_nonempty _ _)) as Hs'.
      pose proof (write_file_cwd _ _ _ _ H) as Hcwd'.
      rewrite stat_look in *.
      assert (Ht : is_empty target = false).
      { pose proof (glb_path_nonempty (output_dir __file__ (FS.cwd f)) p) as Hne.
        fold target in Hne. destruct target; [congruence | reflexivity]. }
      assert (Ht' : is_empty target' = false).
      { pose proof (glb_path_nonempty (output_dir __file__ (FS.cwd f)) p') as Hne.
        fold target' in Hne. destruct target'; [congruence | reflexivity]. }
      rewrite Ht' in Hs'. rewrite Ht.
      rewrite (abs_components_cwd _ _ target' Hcwd') in Hs'.
      rewrite (abs_components_cwd _ _ target Hcwd'). now rewrite E.
    + exists d. now rewrite (write_file_stat_other _ _ _ _ _ H).
Qed.

Lemma done_line_not_message (out p : string) :
  done_line out p <> no_files_message.
Proof. discriminate. Qed.

End HistoryFacts.

(** ** A script directory without glob characters

    The properties of this section hold when the path of the script's
    directory holds none of [*], [?] and [[]: away from it, see the
    concrete runs at the end. *)

Section PlainDirectory.

Local Open Scope list_scope.

Import FS.

Variable bpy : host_app.
Variable __file__ : string.

(** With no glob character in the script's directory, the discovered files
    are the entries of the downloads directory whose names do not start with
    a dot and match [*.usdz], in the order the directory lists them. *)
Lemma plain_dir_discovers_downloads (f f1 : filesystem) :
  Glob.has_magic (script_dir __file__ (cwd f)) = false ->
  makedirs f (output_dir __file__ (cwd f)) true = inr f1 ->
  discovered __file__ f
  = map (PosixPath.join (downloads_dir __file__ (cwd f)))
        (List.filter
           (fun name => negb (Glob._ishidden name)
                        && Fnmatch.fnmatchcase name "*.usdz")
           (Glob._listdir f (downloads_dir __file__ (cwd f)) false)).
Proof.
  intros Hmagic Hmk. unfold discovered. rewrite Hmk. unfold usdz_pattern.
  destruct (downloads_dir_shape __file__ (cwd f)) as (Hne & Hend & Hm).
  destruct (glob_usdz f1 _ Hne Hend) as [dirs [-> Hdirs]].
  rewrite Hdirs by congruence. cbn [flat_map]. rewrite app_nil_r.
  f_equal. unfold Glob._glob1, Fnmatch.filter.
  change (negb (Glob._ishidden "*.usdz")) with true. cbv iota.
  rewrite (listdir_downloads_after_makedirs __file__ _ _ Hmk).
  induction (Glob._listdir f (downloads_dir __file__ (cwd f)) false)
    as [|n l IH]; [reflexivity|].
  cbn [List.filter]. destruct (negb (Glob._ishidden n)); cbn [andb List.filter].
  - destruct (Fnmatch.fnmatchcase n "*.usdz"); now rewrite IH.
  - exact IH.
Qed.

(** With no glob character in the script's directory and a file system in
    good order, every discovered file is a direct entry of the downloads
    directory: nothing below a nested directory is selected. *)
Lemma plain_dir_discovers_direct_entries (f : filesystem) (x : string) :
  Glob.has_magic (script_dir __file__ (cwd f)) = false ->
  wf f = true ->
  In x (discovered __file__ f) ->
  exists name,
    valid_name name = true
    /\ x = PosixPath.join (downloads_dir __file__ (cwd f)) name
    /\ abs_components f x
       = abs_components f (downloads_dir __file__ (cwd f)) ++ [name].
Proof.
  intros Hmagic Hwf Hin.
  destruct (makedirs f (output_dir __file__ (cwd f)) true) as [e|f1] eqn:Hmk.
  { unfold discovered in Hin. rewrite Hmk in Hin. destruct Hin. }
  rewrite (plain_dir_discovers_downloads f f1 Hmagic Hmk) in Hin.
  apply in_map_iff in Hin. destruct Hin as [name [<- Hin]].
  apply filter_In in Hin. destruct Hin as [Hin _].
  rewrite <- (listdir_downloads_after_makedirs __file__ _ _ Hmk) in Hin.
  pose proof (wf_makedirs _ _ _ _ Hwf Hmk) as Hwf1.
  pose proof (wf_listdir_valid _ _ _ _ Hwf1 Hin) as Hv.
  exists name. split; [assumption|]. split; [reflexivity|].
  rewrite abs_components_join, components_name; trivial.
  apply clean_not_abs. unfold valid_name in Hv.
  apply andb_true_iff in Hv. destruct Hv as [_ Hv]. now apply negb_true_iff.
Qed.

Lemma NoDup_map_inj_in {A B : Type} (g : A -> B) (l : list A) :
  (forall a b, In a l -> In b l -> g a = g b -> a = b) ->
  NoDup l -> NoDup (map g l).
Proof.
  induction l as [|x l IH]; intros Hinj Hnd; [constructor|].
  inversion Hnd as [|? ? Hx Hl]; subst. cbn [map]. constructor.
  - intros Hin. apply in_map_iff in Hin. destruct Hin as [y [Hy Hin]].
    apply Hx. rewrite (Hinj x y); auto; [now left | now right].
  - apply IH; [|assumption]. intros a b Ha Hb. apply Hinj; now right.
Qed.

(** The output path of a discovered entry [x.usdz] is [x.glb] in the
    output directory. *)
Lemma glb_path_of_entry (out dir x : string) :
  valid_name (x ++ ".usdz")%string = true ->
  Glob._ishidden (x ++ ".usdz")%string = false ->
  glb_path_of out (PosixPath.join dir (x ++ ".usdz")%string)
  = PosixPath.join out (x ++ ".glb")%string.
Proof.
  intros Hv Hh. unfold valid_name in Hv.
  apply andb_true_iff in Hv. destruct Hv as [_ Hc].
  apply negb_true_iff in Hc. unfold glb_path_of.
  rewrite basename_join by assumption.
  rewrite contains_app in Hc. apply orb_false_iff in Hc. destruct Hc as [Hc _].
  destruct x as [|a x]; [discriminate|].
  rewrite splitext_usdz; [reflexivity | assumption | discriminate | exact Hh].
Qed.

(** With no glob character in the script's directory and a file system in
    good order, no two discovered files have the same output path. *)
Lemma plain_dir_outputs_distinct (f : filesystem) :
  Glob.has_magic (script_dir __file__ (cwd f)) = false ->
  wf f = true ->
  NoDup (map (glb_path_of (output_dir __file__ (cwd f)))
             (discovered __file__ f)).
Proof.
  intros Hmagic Hwf.
  destruct (makedirs f (output_dir __file__ (cwd f)) true) as [e|f1] eqn:Hmk.
  { unfold discovered. rewrite Hmk. constructor. }
  rewrite (plain_dir_discovers_downloads f f1 Hmagic Hmk), map_map.
  rewrite <- (listdir_downloads_after_makedirs __file__ _ _ Hmk).
  pose proof (wf_makedirs _ _ _ _ Hwf Hmk) as Hwf1.
  apply NoDup_map_inj_in.
  - intros a b Ha Hb Heq.
    apply filter_In in Ha, Hb. destruct Ha as [Ha Hfa], Hb as [Hb Hfb].
    apply andb_true_iff in Hfa, Hfb.
    destruct Hfa as [Hha Hma], Hfb as [Hhb Hmb].
    apply negb_true_iff in Hha, Hhb.
    apply fnmatch_usdz in Hma, Hmb. destruct Hma as [x ->], Hmb as [y ->].
    pose proof (wf_listdir_valid _ _ _ _ Hwf1 Ha) as Hva.
    pose proof (wf_listdir_valid _ _ _ _ Hwf1 Hb) as Hvb.
    rewrite !glb_path_of_entry in Heq by assumption.
    assert (Hclean : forall z, valid_name (z ++ ".usdz")%string = true ->
                               startswith "/" (z ++ ".glb")%string = false).
    { intros z Hz. apply clean_not_abs. unfold valid_name in Hz.
      apply andb_true_iff in Hz. destruct Hz as [_ Hz].
      apply negb_true_iff in Hz. rewrite contains_app in *.
      apply orb_false_iff in Hz. destruct Hz as [-> _]. reflexivity. }
    apply join_inj in Heq; [|now apply Hclean|now apply Hclean].
    apply sapp_inv_tail in Heq. now subst.
  - apply NoDup_filter. now apply wf_listdir_NoDup.
Qed.

(** With no glob character in the script's directory and a file system in
    good order, a run that returns has found at least one file, has printed
    one "DONE" line per discovered file in the order of discovery, and has
    left one GLB file per discovered file in the output directory, at
    pairwise distinct paths, each named after the stem of its input. *)
Lemma plain_dir_converts_every_file (f : FS.filesystem) (h : Host bpy) :
  Glob.has_magic (script_dir __file__ (FS.cwd f)) = false ->
  wf f = true ->
  fst (run bpy __file__ f h) = inr tt ->
  let w' := snd (run bpy __file__ f h) in
  let out := output_dir __file__ (FS.cwd f) in
  discovered __file__ f <> []
  /\ stdout w' = map (done_line out) (discovered __file__ f)
  /\ NoDup (map (glb_path_of out) (discovered __file__ f))
  /\ (forall p, In p (discovered __file__ f) ->
                glb_path_of out p = PosixPath.join out (glb_name p)
                /\ exists data,
                     FS.stat (fs w') (glb_path_of out p) = Some (FS.IsFile data)).
Proof.
  intros Hmagic Hwf Hret w' out.
  pose proof (run_history bpy __file__ f h) as Hrun. cbv zeta in Hrun.
  rewrite Hret in Hrun. destruct Hrun as (Hc & Hend & _ & Hplan & Hq).
  fold w' in Hc, Hend, Hplan, Hq.
  assert (Hne : discovered __file__ f <> []).
  { intros E. assert (Hin : In (CallExit 1) (map what (history w'))).
    { rewrite Hplan. unfold plan. rewrite E. cbn. tauto. }
    apply in_map_iff in Hin. destruct Hin as [ev [Hw Hin]].
    rewrite Forall_forall in Hq. specialize (Hq ev Hin).
    unfold quiet, raised in Hq. rewrite Hw in Hq. discriminate. }
  split; [assumption|]. split; [|split].
  - unfold w'. rewrite stdout_lines. fold w'. rewrite Hplan, plan_nonempty by assumption.
    cbn [flat_map lines_of app]. apply lines_of_iterations.
  - now apply plain_dir_outputs_distinct.
  - intros p Hp. split; [reflexivity|].
    assert (Hin : In (CallExportGltf (export_kwargs (glb_path_of out p)))
                     (map what (history w'))).
    { rewrite Hplan, plan_nonempty by assumption. right. right.
      apply in_flat_map. exists p. split; [assumption|]. cbn. tauto. }
    apply in_map_iff in Hin. destruct Hin as [ev [Hw Hin]].
    destruct (in_split _ _ Hin) as (t1 & t2 & Hh).
    assert (Hall : forall ev', In ev' (history w') ->
                     In (what ev') (plan __file__ f)
                     /\ FS.cwd (fs_at ev') = FS.cwd f).
    { intros ev' Hin'. split; [now apply (history_in_plan bpy __file__ f h)|].
      now apply (history_cwd bpy __file__ f h). }
    rewrite Hh in Hc, Hend, Hall.
    destruct (chained_split bpy _ _ _ _ Hc) as [Hc2 He2]. rewrite He2 in Hend.
    assert (Hfs : fs w' = fst (end_state (after ev) t2)) by now rewrite <- Hend.
    rewrite Hfs.
    rewrite Forall_forall in Hq.
    destruct (quiet_export_writes bpy ev _ Hw (Hq ev Hin)) as [data Hwr].
    cbn [filepath export_kwargs] in Hwr.
    pose proof (write_file_stat_same _ _ _ _ Hwr (glb_path_nonempty _ _)) as Hs.
    assert (Hcwd : FS.cwd (fst (after ev)) = FS.cwd f).
    { rewrite after_cwd. apply Hall, in_elt. }
    apply (chained_invariant bpy
             (fun g => FS.cwd g = FS.cwd f
                       /\ exists d, FS.stat g (glb_path_of out p) = Some (FS.IsFile d))
             t2 (after ev) Hc2); [split; eauto|].
    intros ev' Hin' [Hcwd' Hs']. split.
    + now rewrite after_cwd.
    + apply (call_keeps_output bpy __file__ f ev' p); [| assumption | assumption].
      apply Hall. apply in_or_app. right. now right.
Qed.

End PlainDirectory.

(** ** Where the script is stored, and the names of inputs and outputs *)

Section Stored.

Local Open Scope list_scope.

Variable __file__ : string.

Lemma valid_name_shape (name : string) :
  valid_name name = true ->
  is_empty name = false /\ contains "/" name = false
  /\ startswith "/" name = false.
Proof.
  unfold valid_name. intros H. apply andb_true_iff in H. destruct H as [H Hc].
  apply andb_true_iff in H. destruct H as [He _].
  apply negb_true_iff in Hc, He. repeat split; try assumption.
  now apply clean_not_abs.
Qed.

(** Joining a directory path that does not end in a separator to a name
    puts one separator between them. *)
Lemma join_plain (d n : string) :
  d <> ""%string -> endswith "/" d = false -> startswith "/" n = false ->
  PosixPath.join d n = (d ++ "/" ++ n)%string.
Proof.
  intros Hd He Hn. rewrite join_relative by assumption. unfold dir_prefix.
  destruct d as [|a d]; [congruence|]. cbn [is_empty orb].
  unfold PosixPath.sep. rewrite He. now rewrite sapp_assoc.
Qed.

Lemma output_dir_shape (cwd : string) :
  output_dir __file__ cwd <> ""%string
  /\ endswith "/" (output_dir __file__ cwd) = false.
Proof.
  unfold output_dir. rewrite join_relative by reflexivity. split.
  - intros H. apply sapp_empty in H. destruct H; discriminate.
  - now rewrite endswith_app.
Qed.

(** A name that ends in [.usdz] and is not hidden has a stem, which does
    not start with a dot. *)
Lemma usdz_stem (x : string) :
  Glob._ishidden (x ++ ".usdz")%string = false ->
  x <> ""%string /\ startswith "." x = false.
Proof.
  destruct x as [|a x]; [discriminate|]. intros H. split; [discriminate|].
  exact H.
Qed.

Lemma usdz_name_valid (x : string) :
  x <> ""%string -> contains "/" x = false ->
  valid_name (x ++ ".usdz")%string = true.
Proof.
  intros Hx Hc. unfold valid_name.
  rewrite contains_app, Hc. cbn [orb negb andb].
  destruct x as [|a x]; [congruence|]. cbn [append is_empty negb andb].
  rewrite andb_true_r. apply negb_true_iff, String.eqb_neq.
  intros H. injection H as _ H. destruct x; discriminate.
Qed.

(** A script whose absolute path is [<d>/<n>] has [d] for its directory
    (the root for an empty [d]), [<d>/downloads] for its downloads directory
    and [<d>/output] for its output directory. *)
Lemma script_dir_stored (cwd d n : string) :
  PosixPath.abspath cwd __file__ = (d ++ "/" ++ n)%string ->
  endswith "/" d = false -> contains "/" n = false ->
  script_dir __file__ cwd = (if is_empty d then "/" else d)%string
  /\ downloads_dir __file__ cwd = (d ++ "/downloads")%string
  /\ output_dir __file__ cwd = (d ++ "/output")%string.
Proof.
  intros Habs He Hn.
  assert (Hsd : script_dir __file__ cwd = (if is_empty d then "/" else d)%string).
  { unfold script_dir, PosixPath.dirname. rewrite Habs.
    destruct d as [|a d].
    - unfold PosixPath.split. cbn [append rpartition is_empty].
      unfold PosixPath.sep. rewrite Hn. reflexivity.
    - rewrite <- (join_plain (String a d) n) by
        (discriminate || assumption || now apply clean_not_abs).
      rewrite split_join by (discriminate || assumption). reflexivity. }
  unfold downloads_dir, output_dir. rewrite Hsd.
  destruct d as [|a d]; [split; [reflexivity | split; reflexivity]|].
  cbn [is_empty].
  rewrite !join_plain by (discriminate || assumption || reflexivity). auto.
Qed.

(** The directory of such a script, as [stat] sees it. *)
Lemma script_dir_stat (f : FS.filesystem) (d n : string) :
  PosixPath.abspath (FS.cwd f) __file__ = (d ++ "/" ++ n)%string ->
  endswith "/" d = false -> contains "/" n = false ->
  FS.stat f (script_dir __file__ (FS.cwd f)) = FS.stat f (d ++ "/").
Proof.
  intros Habs He Hn.
  destruct (script_dir_stored (FS.cwd f) d n Habs He Hn) as (-> & _).
  destruct d as [|a d]; [reflexivity|]. cbn [is_empty].
  rewrite !stat_look.
  assert (Hc : FS.abs_components f (String a d ++ "/")
               = FS.abs_components f (String a d)).
  { unfold FS.abs_components.
    change (String a d ++ "/")%string with (String a d ++ String "/" "")%string.
    rewrite components_snoc. cbn [PosixPath.isabs startswith append].
    change (FS.components "") with (@nil string).
    now rewrite !app_nil_r. }
  now rewrite Hc.
Qed.

(** In a file system in good order, what the glob of a run finds is
    [<dir><x>.usdz] for a directory prefix [dir] and a stem [x], and its
    output path is [<output>/<x>.glb]. *)
Lemma discovered_named (f : FS.filesystem) (p : string) :
  let out := output_dir __file__ (FS.cwd f) in
  wf f = true ->
  In p (discovered __file__ f) ->
  exists dir x,
    p = (dir ++ x ++ ".usdz")%string
    /\ (dir = ""%string \/ endswith "/" dir = true)
    /\ x <> ""%string /\ startswith "." x = false /\ contains "/" x = false
    /\ glb_path_of out p = (out ++ "/" ++ x ++ ".glb")%string.
Proof.
  intros out Hwf Hin. apply discovered_In in Hin; [|assumption].
  destruct Hin as (dn & name & -> & Hv & Hh & Hm).
  apply fnmatch_usdz in Hm. destruct Hm as [x ->].
  destruct (usdz_stem x Hh) as [Hx Hdot].
  destruct (valid_name_shape _ Hv) as (_ & Hc & Hs).
  rewrite contains_app in Hc. apply orb_false_iff in Hc. destruct Hc as [Hc _].
  destruct (output_dir_shape (FS.cwd f)) as (Hone & Hoend). fold out in Hone, Hoend.
  exists (dir_prefix dn), x. split; [now apply join_relative|].
  split.
  { destruct (dir_prefix_shape dn) as [-> | [a' ->]]; [now left|]. right.
    apply endswith_snoc. }
  split; [assumption|]. split; [assumption|]. split; [assumption|].
  rewrite (glb_path_of_entry out dn x Hv Hh).
  apply join_plain; try assumption.
  apply clean_not_abs. now rewrite contains_app, Hc.
Qed.

(** The components of an output path given by its name. *)
Lemma named_output_components (f : FS.filesystem) (out x : string) :
  out <> ""%string -> contains "/" x = false ->
  FS.abs_components f (out ++ "/" ++ x ++ ".glb")
  = FS.abs_components f out ++ [(x ++ ".glb")%string].
Proof.
  intros Ho Hc.
  assert (Hv : valid_name (x ++ ".glb")%string = true).
  { unfold valid_name. rewrite contains_app, Hc. cbn [orb negb andb].
    rewrite andb_true_r. apply andb_true_iff. split.
    - destruct x; reflexivity.
    - apply negb_true_iff, String.eqb_neq. intros H.
      apply (f_equal String.length) in H. rewrite sapp_length in H.
      cbn in H. lia. }
  unfold FS.abs_components.
  assert (Habs : PosixPath.isabs (out ++ "/" ++ x ++ ".glb") = PosixPath.isabs out).
  { destruct out; [congruence | reflexivity]. }
  rewrite Habs.
  change (out ++ "/" ++ x ++ ".glb")%string
    with (out ++ String "/" (x ++ ".glb"))%string.
  rewrite components_snoc, (components_name _ Hv).
  destruct (PosixPath.isabs out); [reflexivity|]. now rewrite app_assoc.
Qed.

End Stored.

(** ** The guard and the frame of a run *)

Section GuardAndFrame.

Local Open Scope list_scope.

Variable bpy : host_app.
Variable __file__ : string.


(** The frame of a run, by the output paths the script computes: an absent
    output directory is created when the script's directory exists; what
    was in the file system before the run is unchanged after it unless it
    sits at the output path of a discovered input; every export writes at
    the output path of a discovered input. *)
Lemma output_directory_frame
  (f : FS.filesystem) (h : Host bpy) :
  let w' := snd (run bpy __file__ f h) in
  let out := output_dir __file__ (FS.cwd f) in
  (FS.stat f (script_dir __file__ (FS.cwd f)) = Some FS.IsDir ->
   FS.stat f out = None ->
   FS.stat (fs w') out = Some FS.IsDir)
  /\ (forall q s,
         FS.stat f q = Some s ->
         (forall p, In p (discovered __file__ f) ->
                    FS.abs_components f q
                    <> FS.abs_components f (glb_path_of out p)) ->
         FS.stat (fs w') q = Some s)
  /\ (forall ev kwargs,
         In ev (history w') ->
         what ev = CallExportGltf kwargs ->
         exists p, In p (discovered __file__ f)
                   /\ filepath kwargs = glb_path_of out p).
Proof.
  intros w' out.
  pose proof (run_history bpy __file__ f h) as Hrun. cbv zeta in Hrun.
  destruct Hrun as (Hc & Hend & _). fold w' in Hc, Hend.
  assert (Hfs : fs w' = fst (end_state (f, h) (history w')))
    by now rewrite <- Hend.
  assert (Hplan : forall ev, In ev (history w') -> In (what ev) (plan __file__ f))
    by (intros ev; apply (history_in_plan bpy __file__ f h)).
  split; [|split].
  - intros Hsd Hout.
    destruct (history_head bpy __file__ f h) as (ev & t & Hh & Hw & Hf & Hh0).
    fold w' in Hh. rewrite Hh in *. cbn [chained] in Hc.
    destruct Hc as (_ & _ & Hc). unfold end_state in Hfs. cbn [fold_left] in Hfs.
    fold (end_state (after ev) t) in Hfs. rewrite Hfs.
    assert (Hmk : exists f1, FS.makedirs f out true = inr f1).
    { rewrite stat_look in Hsd, Hout.
      destruct (is_empty (script_dir __file__ (FS.cwd f))); [discriminate|].
      assert (He : is_empty out = false).
      { pose proof (output_dir_nonempty __file__ (FS.cwd f)) as Hne.
        fold out in Hne. destruct out; [congruence | reflexivity]. }
      rewrite He in Hout. unfold FS.makedirs. unfold out in *.
      rewrite output_components in *.
      destruct (mkdirs_below_dir _ "output" _ Hsd) as [n' ->]; [|eauto].
      intros d. rewrite Hout. discriminate. }
    destruct Hmk as [f1 Hmk].
    assert (Hafter : fst (after ev) = f1).
    { unfold after. rewrite Hw, Hf, Hh0. cbn [perform]. fold out.
      now rewrite Hmk. }
    apply (kept_through bpy __file__ f t out FS.IsDir (after ev) Hc).
    + intros ev' Hin. apply Hplan. now right.
    + rewrite Hafter. eapply makedirs_cwd; eassumption.
    + intros p _. unfold out.
      rewrite (proj2 (glb_path_components f (output_dir __file__ (FS.cwd f)) p)).
      intros E. apply (f_equal (@List.length string)) in E.
      rewrite length_app in E. cbn in E. lia.
    + rewrite Hafter. eapply makedirs_isdir; [eassumption|].
      apply output_dir_nonempty.
  - intros q s Hs Hq. rewrite Hfs.
    now apply (kept_through bpy __file__ f (history w') q s (f, h)).
  - intros ev kwargs Hin Hw. apply Hplan in Hin. rewrite Hw in Hin.
    apply plan_export in Hin. destruct Hin as [p [Hp ->]]. now exists p.
Qed.

End GuardAndFrame.

(** ** Properties of [convert.py] *)

Section Claims.

Local Open Scope list_scope.

Variable bpy : host_app.
Variable __file__ : string.


(** C3: when a reset, import or export call of a run raises, the run ends
    with that exception and makes no further call: the files before the
    one at hand were converted in full, the steps of the one at hand stop at
    the call that raised, no later file is touched, no call is made twice,
    and standard output holds the "DONE" lines of the files before and
    nothing else. *)
Theorem host_fault_stops_the_run
  (f : FS.filesystem) (h : Host bpy) (t1 t2 : list (event bpy))
  (ev : event bpy) (e : exn) :
  let w' := snd (run bpy __file__ f h) in
  let out := output_dir __file__ (FS.cwd f) in
  history w' = t1 ++ ev :: t2 ->
  is_host_call (what ev) = true ->
  raised ev = Some e ->
  t2 = []
  /\ fst (run bpy __file__ f h) = inl e
  /\ exists done p todo k,
       discovered __file__ f = done ++ p :: todo
       /\ (1 <= k <= 3)%nat
       /\ map what (history w')
          = CallMakedirs out true
            :: CallGlob (usdz_pattern __file__ (FS.cwd f))
            :: flat_map (iteration_calls out) done
               ++ firstn k (iteration_calls out p)
       /\ stdout w' = map (done_line out) done.
Proof.
  intros w' out Hh Hhost Hraised.
  destruct (raise_ends_run bpy __file__ f h t1 t2 ev e Hh Hraised) as [-> Hfst].
  split; [reflexivity|]. split; [assumption|].
  assert (Hne : discovered __file__ f <> []).
  { assert (Hin : In ev (history w')) by (rewrite Hh; apply in_elt).
    apply (history_in_plan bpy __file__ f h), plan_cases in Hin.
    destruct Hin as [H | [H | [[_ [H | H]] | [p [Hp _]]]]];
      try (rewrite H in Hhost; discriminate).
    intros E. rewrite E in Hp. exact Hp. }
  destruct (loop_reached bpy __file__ f h Hne) as (calls & rest & Hm & Hsteps & _).
  fold w' out in Hm, Hsteps.
  assert (Hlast : exists calls0, calls = calls0 ++ [what ev]).
  { rewrite Hh, map_app in Hm. cbn [map] in Hm.
    destruct t1 as [|e1 [|e2 t1]]; cbn [map app] in Hm.
    - injection Hm as Hw _. rewrite Hw in Hhost. discriminate.
    - injection Hm as _ Hw _. rewrite Hw in Hhost. discriminate.
    - injection Hm as _ _ Hm. now exists (map what t1). }
  destruct Hlast as [calls0 Hcalls].
  apply prefix_of_iterations in Hsteps.
  destruct Hsteps as [(done & todo & Hfiles & Hl)
                     | (done & p & todo & k & Hfiles & Hk & Hl)].
  - exfalso. rewrite Hcalls in Hl.
    destruct (exists_last (l := done)) as [done' [q ->]].
    { intros ->. destruct calls0; discriminate. }
    rewrite iterations_snoc in Hl.
    assert (Hq : iteration_calls out q
                 = [CallReadFactorySettings true; CallUsdImport q;
                    CallExportGltf (export_kwargs (glb_path_of out q))]
                   ++ [CallPrint (done_line out q)]) by reflexivity.
    rewrite Hq in Hl.
    rewrite app_assoc in Hl. apply app_inj_tail in Hl.
    destruct Hl as [_ Hl]. rewrite Hl in Hhost. discriminate.
  - exists done, p, todo, k. repeat split; try assumption; try lia.
    + now rewrite Hm, Hl.
    + unfold w'. rewrite (stdout_lines bpy __file__ f h). fold w'. rewrite Hm, Hl.
      cbn [flat_map lines_of app]. rewrite flat_map_app, lines_of_iterations.
      rewrite lines_of_cut by lia. now rewrite app_nil_r.
Qed.

(** C4: every export call of every run is made with export format GLB,
    image format WEBP, the WEBP "add" flag off, image quality 15 and Draco
    mesh compression on at level 6, whatever the file system, the host state
    and the location of the script. *)
Theorem export_settings_are_fixed
  (f : FS.filesystem) (h : Host bpy) (ev : event bpy) (kwargs : gltf_kwargs) :
  In ev (history (snd (run bpy __file__ f h))) ->
  what ev = CallExportGltf kwargs ->
  export_format kwargs = "GLB"%string
  /\ export_image_format kwargs = "WEBP"%string
  /\ export_image_add_webp kwargs = false
  /\ export_image_quality kwargs = 15%Z
  /\ export_draco_mesh_compression_enable kwargs = true
  /\ export_draco_mesh_compression_level kwargs = 6%Z.
Proof.
  intros Hin Hw. apply (history_in_plan bpy __file__ f h) in Hin. rewrite Hw in Hin.
  apply plan_export in Hin. destruct Hin as [p [_ ->]]. cbn. tauto.
Qed.

(** C6: for a script stored in a directory [d], in a file system in good
    order, [os.makedirs] is called on [<d>/output] and on nothing else; the
    run creates that directory when it is absent and [d] is a directory;
    every export of the run writes at [<d>/output/<x>.glb] for a discovered
    input [<dir><x>.usdz], [x] being the base name of the input without its
    ending; and whatever was in the file system before the run, pre-existing
    files of the output directory included, is still there unchanged after
    it unless it sits at such a path. *)
Theorem output_directory_is_created_and_kept
  (f : FS.filesystem) (h : Host bpy) (d n : string) :
  PosixPath.abspath (FS.cwd f) __file__ = (d ++ "/" ++ n)%string ->
  endswith "/" d = false -> contains "/" n = false ->
  wf f = true ->
  let w' := snd (run bpy __file__ f h) in
  let out := (d ++ "/output")%string in
  (forall ev name ok,
      In ev (history w') -> what ev = CallMakedirs name ok ->
      name = out /\ ok = true)
  /\ (FS.stat f (d ++ "/") = Some FS.IsDir ->
      FS.stat f out = None ->
      FS.stat (fs w') out = Some FS.IsDir)
  /\ (forall ev kwargs,
         In ev (history w') ->
         what ev = CallExportGltf kwargs ->
         exists dir x,
           In (dir ++ x ++ ".usdz")%string (discovered __file__ f)
           /\ (dir = ""%string \/ endswith "/" dir = true)
           /\ x <> ""%string /\ contains "/" x = false
           /\ filepath kwargs = (out ++ "/" ++ x ++ ".glb")%string)
  /\ (forall q s,
         FS.stat f q = Some s ->
         (forall dir x,
             In (dir ++ x ++ ".usdz")%string (discovered __file__ f) ->
             (dir = ""%string \/ endswith "/" dir = true) ->
             contains "/" x = false ->
             FS.abs_components f q
             <> FS.abs_components f (out ++ "/" ++ x ++ ".glb")) ->
         FS.stat (fs w') q = Some s).
Proof.
  intros Habs He Hn Hwf w' out.
  destruct (script_dir_stored __file__ (FS.cwd f) d n Habs He Hn)
    as (_ & _ & Hout). fold out in Hout.
  pose proof (script_dir_stat __file__ f d n Habs He Hn) as Hsd.
  destruct (output_directory_frame bpy __file__ f h) as (Hcreate & Hkept & Hexp).
  fold w' in Hcreate, Hkept, Hexp. rewrite Hout in *. rewrite Hsd in Hcreate.
  split; [|split; [exact Hcreate|split]].
  - intros ev name ok Hin Hw. apply (history_in_plan bpy __file__ f h) in Hin.
    rewrite Hw in Hin. apply plan_makedirs in Hin. now rewrite Hout in Hin.
  - intros ev kwargs Hin Hw. destruct (Hexp ev kwargs Hin Hw) as (p & Hp & ->).
    destruct (discovered_named __file__ f p Hwf Hp)
      as (dir & x & -> & Hdir & Hx & _ & Hc & Hglb).
    rewrite Hout in Hglb. exists dir, x. auto.
  - intros q s Hs Hq. apply (Hkept q s Hs). intros p Hp.
    destruct (discovered_named __file__ f p Hwf Hp)
      as (dir & x & Ep & Hdir & _ & _ & Hc & Hglb).
    rewrite Hout in Hglb. rewrite Hglb. subst p. now apply (Hq dir x).
Qed.


(** C9: in a file system in good order, a file of the downloads directory
    whose name starts with a dot is not among the files the glob finds, and
    no run imports it. *)
Theorem hidden_files_are_skipped
  (f : FS.filesystem) (h : Host bpy) (name : string) :
  wf f = true ->
  Glob._ishidden name = true ->
  contains "/" name = false ->
  let hidden := PosixPath.join (downloads_dir __file__ (FS.cwd f)) name in
  ~ In hidden (discovered __file__ f)
  /\ (forall ev, In ev (history (snd (run bpy __file__ f h))) ->
                 what ev <> CallUsdImport hidden).
Proof.
  intros Hwf Hhid Hclean hidden.
  assert (Hnot : ~ In hidden (discovered __file__ f)).
  { intros Hin. apply discovered_In in Hin; [|assumption].
    destruct Hin as (dn & n & Heq & Hv & Hh & _).
    apply (f_equal PosixPath.basename) in Heq. unfold hidden in Heq.
    rewrite !basename_join in Heq; [congruence | | assumption].
    unfold valid_name in Hv. apply andb_true_iff in Hv.
    destruct Hv as [_ Hv]. now apply negb_true_iff. }
  split; [assumption|]. intros ev Hin Hw.
  apply (history_in_plan bpy __file__ f h) in Hin. rewrite Hw in Hin.
  now apply plan_import in Hin.
Qed.

(** C10: the calls of a run that change the file system are [os.makedirs]
    on the output directory and exports to a direct child of the output
    directory; every other call leaves the file system as it is; and every
    path under the downloads directory holds after the run what it held
    before. *)
Theorem only_the_output_directory_is_written
  (f : FS.filesystem) (h : Host bpy) :
  let w' := snd (run bpy __file__ f h) in
  let out := output_dir __file__ (FS.cwd f) in
  (forall ev,
      In ev (history w') ->
      match what ev with
      | CallMakedirs name _ => name = out
      | CallExportGltf kwargs =>
          exists n, valid_name n = true
                    /\ FS.abs_components f (filepath kwargs)
                       = FS.abs_components f out ++ [n]
      | _ => fst (after ev) = fs_at ev
      end)
  /\ (forall q,
         prefix_of (FS.abs_components f (downloads_dir __file__ (FS.cwd f)))
                   (FS.abs_components f q) ->
         FS.stat (fs w') q = FS.stat f q).
Proof.
  intros w' out. split.
  - intros ev Hin. apply (history_in_plan bpy __file__ f h) in Hin.
    pose proof (after_fs bpy ev) as H.
    destruct (what ev) as [name ok| | | | | |kwargs]; try assumption.
    + now apply plan_makedirs in Hin.
    + apply plan_export in Hin. destruct Hin as [p [_ ->]].
      exists (glb_name p). split; [apply glb_name_valid|].
      apply glb_path_components.
  - intros q Hq.
    pose proof (run_history bpy __file__ f h) as Hrun. cbv zeta in Hrun.
    destruct Hrun as (Hc & Hend & _). fold w' in Hc, Hend.
    assert (Hfs : fs w' = fst (end_state (f, h) (history w')))
      by now rewrite <- Hend.
    rewrite Hfs.
    apply (chained_invariant bpy
             (fun g => FS.cwd g = FS.cwd f /\ FS.stat g q = FS.stat f q)
             (history w') (f, h) Hc); [now split|].
    intros ev Hin [Hcwd Hs]. split.
    + now rewrite after_cwd.
    + rewrite <- Hs. apply (call_outside_downloads bpy __file__ f); auto.
      now apply (history_in_plan bpy __file__ f h).
Qed.

End Claims.

(** ** What every run does, wherever the script is stored *)

Section EveryRun.

Local Open Scope list_scope.

Variable bpy : host_app.
Variable __file__ : string.

(** In the calls of the loop a print comes right after the export of the
    same file. *)
Lemma print_follows_export (output_dir : string) (files : list string) :
  forall l1 l2 line,
    flat_map (iteration_calls output_dir) files = l1 ++ CallPrint line :: l2 ->
    exists l0 p,
      In p files
      /\ l1 = l0 ++ [CallExportGltf (export_kwargs (glb_path_of output_dir p))]
      /\ line = done_line output_dir p.
Proof.
  induction files as [|x files IH]; intros l1 l2 line H.
  - destruct l1; discriminate.
  - cbn [flat_map] in H.
    destruct l1 as [|a [|b [|c [|d l1]]]]; cbn in H; try discriminate.
    + injection H as <- <- <- <- _.
      exists [CallReadFactorySettings true; CallUsdImport x], x.
      repeat split. now left.
    + injection H as <- <- <- <- H.
      destruct (IH _ _ _ H) as (l0 & p & Hp & -> & ->).
      exists (CallReadFactorySettings true
              :: CallUsdImport x
              :: CallExportGltf (export_kwargs (glb_path_of output_dir x))
              :: CallPrint (done_line output_dir x) :: l0), p.
      repeat split. now right.
Qed.

(** The events of a run are calls of its plan, made with the current
    directory the run started in. *)
Lemma history_calls (f : FS.filesystem) (h : Host bpy) (ev : event bpy) :
  In ev (history (snd (run bpy __file__ f h))) ->
  In (what ev) (plan __file__ f) /\ FS.cwd (fs_at ev) = FS.cwd f.
Proof.
  intros Hin. split.
  - now apply (history_in_plan bpy __file__ f h).
  - now apply (history_cwd bpy __file__ f h).
Qed.

(** A regular file at an output path is still one at the end of what is
    left of the run. *)
Lemma output_file_stays (f : FS.filesystem) (t : list (event bpy)) (p : string) :
  let target := glb_path_of (output_dir __file__ (FS.cwd f)) p in
  forall st,
    chained st t ->
    (forall ev, In ev t ->
                In (what ev) (plan __file__ f) /\ FS.cwd (fs_at ev) = FS.cwd f) ->
    FS.cwd (fst st) = FS.cwd f ->
    (exists d, FS.stat (fst st) target = Some (FS.IsFile d)) ->
    exists d, FS.stat (fst (end_state st t)) target = Some (FS.IsFile d).
Proof.
  intros target st Hc Hall Hcwd Hs.
  apply (chained_invariant bpy
           (fun g => FS.cwd g = FS.cwd f
                     /\ exists d, FS.stat g target = Some (FS.IsFile d))
           t st Hc); [now split|].
  intros ev Hin [Hcwd' Hs']. split.
  - now rewrite after_cwd.
  - apply (call_keeps_output bpy __file__ f ev p); [apply Hall | |]; assumption.
Qed.

(** X1: every string the script passes to [print] is either the "no files
    found" message, in a run whose glob found nothing, or "DONE: " followed
    by the output path of a discovered file, and then that path holds a
    regular file at the end of the run, also when the run ended in a fault
    later on. *)
Theorem done_lines_name_written_files
  (f : FS.filesystem) (h : Host bpy) (ev : event bpy) (line : string) :
  let w' := snd (run bpy __file__ f h) in
  let out := output_dir __file__ (FS.cwd f) in
  In ev (history w') ->
  what ev = CallPrint line ->
  (line = no_files_message /\ discovered __file__ f = [])
  \/ (exists p data,
         In p (discovered __file__ f)
         /\ line = ("DONE: " ++ glb_path_of out p)%string
         /\ FS.stat (fs w') (glb_path_of out p) = Some (FS.IsFile data)).
Proof.
  intros w' out Hin Hw.
  pose proof (history_in_plan bpy __file__ f h ev Hin) as Hplan.
  rewrite Hw in Hplan. apply plan_cases in Hplan.
  destruct Hplan as [H | [H | [[Hd [H | H]] | [p0 [Hp0 _]]]]]; try discriminate.
  { left. injection H as ->. now split. }
  right.
  assert (Hne : discovered __file__ f <> [])
    by (intros E; rewrite E in Hp0; exact Hp0).
  destruct (loop_reached bpy __file__ f h Hne) as (calls & rest & Hm & Hsteps & _).
  fold w' out in Hm, Hsteps, Hin.
  destruct (in_split _ _ Hin) as (t1 & t2 & Hh).
  rewrite Hh, map_app in Hm. cbn [map] in Hm. rewrite Hw in Hm.
  destruct t1 as [|e1 [|e2 t1]]; cbn [map app] in Hm; try discriminate.
  injection Hm as _ _ Hm. rewrite <- Hm, <- app_assoc in Hsteps.
  cbn [app] in Hsteps. apply print_follows_export in Hsteps.
  destruct Hsteps as (l0 & p & Hp & Hl0 & ->).
  apply map_eq_snoc in Hl0. destruct Hl0 as (t0 & ev0 & -> & Hw0 & _).
  pose proof (run_history bpy __file__ f h) as Hrun. cbv zeta in Hrun.
  destruct Hrun as (Hc & Hend & _). fold w' in Hc, Hend.
  assert (Hall : forall ev', In ev' (history w') ->
                   In (what ev') (plan __file__ f)
                   /\ FS.cwd (fs_at ev') = FS.cwd f)
    by (intros ev'; apply history_calls).
  change (e1 :: e2 :: t0 ++ [ev0]) with ((e1 :: e2 :: t0) ++ [ev0]) in Hh.
  rewrite <- app_assoc in Hh. cbn [app] in Hh. rewrite Hh in Hc, Hend, Hall.
  destruct (chained_successor bpy (e1 :: e2 :: t0) t2 ev0 ev _ Hc) as [Hq _].
  destruct (chained_split bpy (e1 :: e2 :: t0) (ev :: t2) ev0 _ Hc) as [Hc2 He2].
  change (e1 :: e2 :: t0 ++ ev0 :: ev :: t2)
    with ((e1 :: e2 :: t0) ++ ev0 :: ev :: t2) in Hend.
  rewrite He2 in Hend.
  destruct (quiet_export_writes bpy ev0 _ Hw0 Hq) as [data Hwr].
  cbn [filepath export_kwargs] in Hwr.
  pose proof (write_file_stat_same _ _ _ _ Hwr (glb_path_nonempty _ _)) as Hs.
  assert (Hcwd : FS.cwd (fst (after ev0)) = FS.cwd f).
  { rewrite after_cwd. apply Hall.
    apply (in_or_app (e1 :: e2 :: t0)). right. now left. }
  destruct (output_file_stays f (ev :: t2) p (after ev0) Hc2) as [d Hd].
  - intros ev' Hin'. apply Hall.
    apply (in_or_app (e1 :: e2 :: t0)). right. now right.
  - assumption.
  - now exists data.
  - exists p, d. split; [assumption|]. split; [reflexivity|].
    assert (Hfs : fs w' = fst (end_state (after ev0) (ev :: t2)))
      by now rewrite <- Hend.
    rewrite Hfs. exact Hd.
Qed.

(** A run whose [os.makedirs] raises stops there. *)
Lemma run_blocked (f : FS.filesystem) (h : Host bpy) (er : FS.errno) :
  let out := output_dir __file__ (FS.cwd f) in
  FS.makedirs f out true = inl er ->
  run bpy __file__ f h
  = (inl (OSError er),
     {| fs := f; host := h; stdout := [];
        history := [Build_event bpy (CallMakedirs out true) f h] |}).
Proof.
  intros out Hmk. rewrite run_plan. unfold plan. fold out.
  rewrite do_calls_cons. unfold do_call.
  cbn [fs host stdout history perform app]. now rewrite Hmk.
Qed.

(** A run whose [os.makedirs] does not raise goes on, after the glob, with
    the message and the exit or with the loop. *)
Lemma run_after_makedirs (f f1 : FS.filesystem) (h : Host bpy) :
  let out := output_dir __file__ (FS.cwd f) in
  FS.makedirs f out true = inr f1 ->
  run bpy __file__ f h
  = do_calls
      match discovered __file__ f with
      | [] => [CallPrint no_files_message; CallExit 1]
      | files => flat_map (iteration_calls out) files
      end
      {| fs := f1; host := h; stdout := [];
         history := [Build_event bpy (CallMakedirs out true) f h;
                     Build_event bpy
                       (CallGlob (usdz_pattern __file__ (FS.cwd f))) f1 h] |}.
Proof.
  intros out Hmk. rewrite run_plan. unfold plan. fold out.
  rewrite do_calls_cons. unfold do_call at 1.
  cbn [fs host stdout history perform app]. rewrite Hmk.
  rewrite do_calls_cons. unfold do_call at 1.
  cbn [fs host stdout history perform app]. reflexivity.
Qed.

(** A run that finds no file prints the message and exits. *)
Lemma run_without_inputs (f f1 : FS.filesystem) (h : Host bpy) :
  let out := output_dir __file__ (FS.cwd f) in
  FS.makedirs f out true = inr f1 ->
  discovered __file__ f = [] ->
  fst (run bpy __file__ f h) = inl (SystemExit 1)
  /\ stdout (snd (run bpy __file__ f h)) = [no_files_message]
  /\ map what (history (snd (run bpy __file__ f h)))
     = [CallMakedirs out true; CallGlob (usdz_pattern __file__ (FS.cwd f));
        CallPrint no_files_message; CallExit 1]
  /\ fs (snd (run bpy __file__ f h)) = f1
  /\ host (snd (run bpy __file__ f h)) = h.
Proof.
  intros out Hmk Hd. rewrite (run_after_makedirs f f1 h Hmk), Hd.
  cbn. repeat split.
Qed.

End EveryRun.

(** ** Absolute paths *)

Section AbsolutePaths.

Local Open Scope list_scope.

Import PosixPath.

Lemma join_abs (a b : string) : isabs a = true -> isabs (join a b) = true.
Proof.
  unfold isabs, join. intros Ha.
  destruct (startswith sep b) eqn:Hb; [assumption|].
  destruct a as [|x a]; [discriminate|].
  destruct (is_empty (String x a) || endswith sep (String x a)); exact Ha.
Qed.

(** [join] keeps its second part at the end. *)
Lemma join_suffix (a b : string) : exists y, join a b = (y ++ b)%string.
Proof.
  unfold join. destruct (startswith sep b).
  - now exists ""%string.
  - destruct (is_empty a || endswith sep a).
    + now exists a.
    + exists (a ++ String sep "")%string. now rewrite sapp_assoc.
Qed.

Lemma rpartition_head_abs (c : ascii) (p : string) :
  startswith c p = true -> startswith c (fst (rpartition c p)) = true.
Proof.
  destruct p as [|a r]; [discriminate|]. cbn [startswith rpartition].
  intros Ha. destruct (contains c r).
  - destruct (rpartition c r). exact Ha.
  - rewrite Ha. exact Ha.
Qed.

Lemma rstrip_empty (c : ascii) (s : string) :
  rstrip c s = ""%string -> all_char c s = true.
Proof.
  induction s as [|a r IH]; [reflexivity|]. cbn [rstrip all_char].
  destruct (rstrip c r) eqn:E; [|discriminate].
  destruct (Ascii.eqb a c); [|discriminate]. intros _. now apply IH.
Qed.

Lemma rstrip_abs (c : ascii) (s : string) :
  startswith c s = true -> all_char c s = false ->
  startswith c (rstrip c s) = true.
Proof.
  destruct s as [|a r]; [discriminate|]. cbn [startswith rstrip all_char].
  intros Ha Hall. rewrite Ha in *. cbn [andb] in Hall.
  destruct (rstrip c r) eqn:E; [|exact Ha].
  apply rstrip_empty in E. congruence.
Qed.

Lemma split_abs (p : string) : isabs p = true -> isabs (fst (split p)) = true.
Proof.
  unfold isabs, split. intros Hp.
  pose proof (rpartition_head_abs sep p Hp) as Hh.
  destruct (rpartition sep p) as [head tail]. cbn [fst] in *.
  destruct head as [|a head]; [discriminate|]. cbn [is_empty negb andb].
  destruct (all_char sep (String a head)) eqn:Hall; cbn [negb]; [assumption|].
  now apply rstrip_abs.
Qed.

Lemma normpath_abs (p : string) : isabs p = true -> isabs (normpath p) = true.
Proof.
  unfold isabs, normpath. destruct p as [|a r]; [discriminate|].
  cbn [startswith is_empty]. intros Ha. apply Ascii.eqb_eq in Ha. subst a.
  set (n := match String sep r with
            | String "/" (String "/" (String "/" _)) => 1
            | String "/" (String "/" _) => 2
            | String "/" _ => 1
            | _ => 0
            end%nat).
  assert (Hn : exists k, n = S k).
  { subst n. unfold sep.
    destruct r as [|[[] [] [] [] [] [] [] []] r]; try (now exists 0%nat).
    destruct r as [|[[] [] [] [] [] [] [] []] r]; try (now exists 1%nat).
    now exists 0%nat. }
  destruct Hn as [k ->]. destruct k; reflexivity.
Qed.

Lemma abspath_abs (cwd path : string) :
  isabs cwd = true \/ isabs path = true -> isabs (abspath cwd path) = true.
Proof.
  intros H. unfold abspath. apply normpath_abs.
  destruct (isabs path) eqn:E; [assumption|].
  destruct H as [H | H]; [now apply join_abs | discriminate].
Qed.

(** The glob of an absolute pattern finds absolute paths. *)
Lemma iglob_abs (fuel : nat) :
  forall (f : FS.filesystem) (p : string) (dironly : bool) (l : list string),
    isabs p = true ->
    Glob._iglob fuel f p dironly = Some l ->
    Forall (fun x => isabs x = true) l.
Proof.
  induction fuel as [|fuel IH]; intros f p dironly l Hp H; [discriminate|].
  cbn [Glob._iglob] in H. pose proof (split_abs p Hp) as Hd.
  destruct (split p) as [dirname basename]. cbn [fst] in Hd.
  destruct (negb (Glob.has_magic p)).
  - destruct (negb (is_empty basename)); injection H as <-.
    + destruct (FS.lexists f p); repeat constructor. exact Hp.
    + destruct (FS.isdir f dirname); repeat constructor. exact Hp.
  - destruct (is_empty dirname) eqn:He.
    { destruct dirname; discriminate. }
    assert (Hdirs : forall dirs,
               Forall (fun x => isabs x = true) dirs ->
               forall g,
                 Forall (fun x => isabs x = true)
                   (flat_map (fun d => map (fun name => join d name) (g d)) dirs)).
    { intros dirs Hall g. apply Forall_forall. intros x Hx.
      apply in_flat_map in Hx. destruct Hx as (d & Hin & Hx).
      apply in_map_iff in Hx. destruct Hx as (name & <- & _).
      apply join_abs. rewrite Forall_forall in Hall. now apply Hall. }
    destruct (negb (String.eqb dirname p) && Glob.has_magic dirname).
    + destruct (Glob._iglob fuel f dirname true) as [dirs|] eqn:E; [|discriminate].
      injection H as <-.
      apply (Hdirs dirs (IH _ _ _ _ Hd E)
               (fun d => (if Glob.has_magic basename then Glob._glob1 else Glob._glob0)
                           f d basename dironly)).
    + injection H as <-.
      apply (Hdirs [dirname] (Forall_cons _ Hd (Forall_nil _))
               (fun d => (if Glob.has_magic basename then Glob._glob1 else Glob._glob0)
                           f d basename dironly)).
Qed.

Lemma glob_abs (f : FS.filesystem) (p : string) :
  isabs p = true -> Forall (fun x => isabs x = true) (Glob.glob f p).
Proof.
  intros Hp. unfold Glob.glob.
  destruct (Glob._iglob _ f p false) as [[|s rest]|] eqn:E; try constructor.
  - apply iglob_abs in E; [|assumption]. inversion E; subst.
    destruct (is_empty p && is_empty s); [assumption | now constructor].
Qed.

End AbsolutePaths.

(** ** What the host is handed *)

Section HostArguments.

Local Open Scope list_scope.

Variable bpy : host_app.
Variable __file__ : string.

Lemma script_dir_abs (cwd : string) :
  PosixPath.isabs cwd = true \/ PosixPath.isabs __file__ = true ->
  PosixPath.isabs (script_dir __file__ cwd) = true.
Proof.
  intros H. unfold script_dir, PosixPath.dirname.
  apply split_abs. now apply abspath_abs.
Qed.

(** X3: when the current directory is absolute, as [os.getcwd] gives it, or
    the script was started under an absolute path, every path the run hands
    to [os.makedirs], to the glob, to the importer and to the exporter is
    absolute. *)
Theorem host_is_given_absolute_paths
  (f : FS.filesystem) (h : Host bpy) (ev : event bpy) :
  PosixPath.isabs (FS.cwd f) = true \/ PosixPath.isabs __file__ = true ->
  In ev (history (snd (run bpy __file__ f h))) ->
  match what ev with
  | CallMakedirs name _ => PosixPath.isabs name = true
  | CallGlob pathname => PosixPath.isabs pathname = true
  | CallUsdImport path => PosixPath.isabs path = true
  | CallExportGltf kwargs => PosixPath.isabs (filepath kwargs) = true
  | _ => True
  end.
Proof.
  intros Habs Hin. apply (history_in_plan bpy __file__ f h) in Hin.
  pose proof (script_dir_abs (FS.cwd f) Habs) as Hsd.
  assert (Hout : PosixPath.isabs (output_dir __file__ (FS.cwd f)) = true)
    by now apply join_abs.
  assert (Hpat : PosixPath.isabs (usdz_pattern __file__ (FS.cwd f)) = true)
    by now apply join_abs, join_abs.
  destruct (what ev) as [name ok|pathname| | | |path|kwargs]; trivial.
  - apply plan_makedirs in Hin. now destruct Hin as [-> _].
  - apply plan_cases in Hin.
    destruct Hin as [H | [H | [[_ [H | H]] | [p [_ H]]]]]; try discriminate.
    + now injection H as ->.
    + destruct H as [H | [H | [H | [H | []]]]]; discriminate.
  - apply plan_import in Hin. unfold discovered in Hin.
    destruct (FS.makedirs f _ true) as [e|f1]; [destruct Hin|].
    pose proof (glob_abs f1 _ Hpat) as Hall. rewrite Forall_forall in Hall.
    now apply Hall.
  - apply plan_export in Hin. destruct Hin as [p [_ ->]].
    cbn [filepath export_kwargs]. now apply join_abs.
Qed.

(** X4: every path handed to the importer ends in [.usdz], in lower case,
    whatever the location of the script and the content of the file
    system. *)
Theorem imported_paths_end_in_usdz
  (f : FS.filesystem) (h : Host bpy) (ev : event bpy) (path : string) :
  In ev (history (snd (run bpy __file__ f h))) ->
  what ev = CallUsdImport path ->
  exists y, path = (y ++ ".usdz")%string.
Proof.
  intros Hin Hw. apply (history_in_plan bpy __file__ f h) in Hin.
  rewrite Hw in Hin. apply plan_import in Hin. unfold discovered in Hin.
  destruct (FS.makedirs f _ true) as [e|f1]; [destruct Hin|].
  destruct (downloads_dir_shape __file__ (FS.cwd f)) as (Hne & Hend & _).
  apply glob_usdz_In in Hin; [|assumption|assumption].
  destruct Hin as (dn & n & -> & _ & _ & Hm).
  apply fnmatch_usdz in Hm. destruct Hm as [x ->].
  destruct (join_suffix dn (x ++ ".usdz")) as [y ->].
  exists (y ++ x)%string. now rewrite sapp_assoc.
Qed.

End HostArguments.

(** ** Entries of directories *)

Section Entries.

Local Open Scope list_scope.

Import FS.

Lemma walk_app (cs cs' : list string) :
  forall n,
    walk (cs ++ cs') n
    = match walk cs n with Some m => walk cs' m | None => None end.
Proof.
  induction cs as [|c cs IH]; intros n; [reflexivity|].
  cbn [app walk]. destruct n as [d|es]; [reflexivity|].
  destruct (find_entry c es); [apply IH | reflexivity].
Qed.

Lemma In_find_entry (k : string) (es : list (string * node)) :
  In k (map fst es) -> exists m, find_entry k es = Some m.
Proof.
  intros Hin. destruct (find_entry k es) as [m|] eqn:E; [now exists m|].
  now apply find_entry_None in E.
Qed.

Lemma find_entry_key (k : string) (m : node) (es : list (string * node)) :
  find_entry k es = Some m -> In k (map fst es).
Proof.
  intros H. apply find_entry_In in H. apply in_map_iff. now exists (k, m).
Qed.

Lemma lexists_stat (f : filesystem) (p : string) :
  lexists f p = true <-> exists s, stat f p = Some s.
Proof.
  unfold lexists, stat. destruct (lstat f p) as [n|]; cbn; split.
  - intros _. now exists (summary n).
  - reflexivity.
  - discriminate.
  - intros [s H]. discriminate.
Qed.

(** The node of a directory's entry, by the path of the directory joined
    to the entry's name. *)
Lemma lstat_join (f : filesystem) (d name : string) :
  valid_name name = true ->
  lstat f (PosixPath.join d name)
  = match lstat f (if is_empty d then "." else d) with
    | Some (Dir es) => find_entry name es
    | _ => None
    end.
Proof.
  intros Hv. destruct (valid_name_shape name Hv) as (Hne & Hc & Hs).
  assert (Hj : is_empty (PosixPath.join d name) = false).
  { rewrite join_relative by assumption.
    destruct (dir_prefix d); [assumption | reflexivity]. }
  unfold lstat. rewrite Hj, abs_components_join, components_name by assumption.
  rewrite walk_app.
  assert (Hd : (if is_empty (if is_empty d then "." else d) then None
                else walk (abs_components f (if is_empty d then "." else d)) (root f))
               = walk (abs_components f d) (root f)).
  { destruct d as [|a d]; [|reflexivity]. cbn [is_empty].
    unfold abs_components. cbn. now rewrite app_nil_r. }
  rewrite Hd. destruct (walk (abs_components f d) (root f)) as [[data|es]|];
    try reflexivity.
  cbn [walk]. destruct (find_entry name es); reflexivity.
Qed.

(** An entry that a directory lists exists under the joined path. *)
Lemma listed_exists (f : filesystem) (d name : string) :
  wf f = true ->
  In name (Glob._listdir f d false) ->
  lexists f (PosixPath.join d name) = true.
Proof.
  intros Hwf Hin. pose proof (wf_listdir_valid _ _ _ _ Hwf Hin) as Hv.
  apply listdir_entries in Hin. destruct Hin as (es & Hl & Hk).
  unfold lexists. rewrite (lstat_join f d name Hv), Hl.
  destruct (In_find_entry _ _ Hk) as [m ->]. reflexivity.
Qed.

End Entries.

(** ** Nothing is removed *)

Section NothingRemoved.

Local Open Scope list_scope.

Variable bpy : host_app.
Variable __file__ : string.

(** Writing a file does not succeed on a directory. *)
Lemma put_not_dir (cs : list string) (data : string) :
  forall n n', FS.put cs data n = inr n' -> look cs n <> Some FS.IsDir.
Proof.
  induction cs as [|c cs IH]; intros n n' H.
  - destruct n; [discriminate | discriminate].
  - destruct n as [d|es]; [discriminate|]. rewrite look_dir. cbn [FS.put] in H.
    destruct (FS.find_entry c es) as [m|]; [|discriminate].
    destruct (FS.put cs data m) as [e|m'] eqn:E; [discriminate|].
    now apply (IH _ _ E).
Qed.

(** What a path holds is of the same kind after a call of a run. *)
Lemma call_keeps_kind (f : FS.filesystem) (ev : event bpy) (q : string)
  (s : FS.stat_result) :
  In (what ev) (plan __file__ f) ->
  same_kind s (FS.stat (fs_at ev) q) ->
  same_kind s (FS.stat (fst (after ev)) q).
Proof.
  intros Hplan Hs. pose proof (after_fs bpy ev) as H.
  destruct (what ev) as [name ok| | | | | |kwargs] eqn:Hw; try (now rewrite H).
  - destruct H as [H | ->]; [|assumption].
    destruct s as [d|]; cbn [same_kind] in *.
    + destruct Hs as [d' Hs]. exists d'. eapply makedirs_stat_keeps; eassumption.
    + eapply makedirs_stat_keeps; eassumption.
  - destruct H as [[data H] | ->]; [|assumption].
    apply plan_export in Hplan. destruct Hplan as [p [_ ->]].
    cbn [filepath export_kwargs] in H.
    set (target := glb_path_of (output_dir __file__ (FS.cwd f)) p) in *.
    destruct (list_eq_dec string_dec (FS.abs_components (fs_at ev) q)
                (FS.abs_components (fs_at ev) target)) as [E|E].
    2: { now rewrite (write_file_stat_other _ _ _ _ _ H). }
    assert (Hq : is_empty q = false).
    { destruct q; [|reflexivity]. destruct s; cbn in Hs.
      - destruct Hs; discriminate.
      - discriminate. }
    assert (Ht : is_empty target = false).
    { pose proof (glb_path_nonempty (output_dir __file__ (FS.cwd f)) p) as Hne.
      fold target in Hne. destruct target; [congruence | reflexivity]. }
    pose proof (write_file_stat_same _ _ _ _ H (glb_path_nonempty _ _)) as Hs'.
    pose proof (write_file_cwd _ _ _ _ H) as Hcwd'.
    rewrite stat_look, Ht, (abs_components_cwd _ _ target Hcwd'), <- E in Hs'.
    rewrite stat_look, Hq, E in Hs.
    rewrite stat_look, Hq, (abs_components_cwd _ _ q Hcwd'), Hs'.
    destruct s as [d|]; cbn [same_kind] in *; [now exists data|].
    exfalso. unfold FS.write_file in H.
    destruct (FS.put _ data _) as [e|r] eqn:Ep; [discriminate|].
    now apply (put_not_dir _ _ _ _ Ep).
Qed.

Lemma kind_kept_through (f : FS.filesystem) (t : list (event bpy)) (q : string)
  (s : FS.stat_result) :
  forall st,
    chained st t ->
    (forall ev, In ev t -> In (what ev) (plan __file__ f)) ->
    same_kind s (FS.stat (fst st) q) ->
    same_kind s (FS.stat (fst (end_state st t)) q)
    /\ (forall ev, In ev t -> same_kind s (FS.stat (fs_at ev) q)).
Proof.
  intros st Hc Hplan Hs.
  apply (chained_invariant bpy (fun g => same_kind s (FS.stat g q)) t st Hc);
    [assumption|].
  intros ev Hin. apply (call_keeps_kind f); auto.
Qed.

(** X5: a run removes nothing: where there was a directory before the run
    there is a directory after it, and where there was a regular file there
    is a regular file, be it at the output path of a discovered input. *)
Theorem nothing_is_removed
  (f : FS.filesystem) (h : Host bpy) (q : string) (s : FS.stat_result) :
  FS.stat f q = Some s ->
  same_kind s (FS.stat (fs (snd (run bpy __file__ f h))) q).
Proof.
  intros Hs.
  pose proof (run_history bpy __file__ f h) as Hrun. cbv zeta in Hrun.
  destruct Hrun as (Hc & Hend & _).
  assert (Hfs : fs (snd (run bpy __file__ f h))
                = fst (end_state (f, h) (history (snd (run bpy __file__ f h)))))
    by now rewrite <- Hend.
  rewrite Hfs.
  apply (kind_kept_through f _ q s (f, h) Hc).
  - intros ev. apply (history_in_plan bpy __file__ f h).
  - cbn [fst]. rewrite Hs. destruct s; cbn; eauto.
Qed.

(** X6: in a file system in good order every path handed to the importer
    exists at the time of the call, whatever the location of the script:
    the glob found it, and nothing the run does before the call removes
    it. *)
Theorem imported_paths_exist
  (f : FS.filesystem) (h : Host bpy) (ev : event bpy) (path : string) :
  wf f = true ->
  In ev (history (snd (run bpy __file__ f h))) ->
  what ev = CallUsdImport path ->
  FS.lexists (fs_at ev) path = true.
Proof.
  intros Hwf Hin Hw.
  pose proof (history_in_plan bpy __file__ f h ev Hin) as Hplan.
  rewrite Hw in Hplan. apply plan_import in Hplan. unfold discovered in Hplan.
  destruct (FS.makedirs f _ true) as [e|f1] eqn:Hmk; [destruct Hplan|].
  destruct (downloads_dir_shape __file__ (FS.cwd f)) as (Hne & Hend & _).
  apply glob_usdz_In in Hplan; [|assumption|assumption].
  destruct Hplan as (dn & n & -> & Hl & _ & _).
  pose proof (wf_makedirs _ _ _ _ Hwf Hmk) as Hwf1.
  pose proof (listed_exists f1 dn n Hwf1 Hl) as Hex.
  apply lexists_stat in Hex. destruct Hex as [s Hs].
  destruct (history_head bpy __file__ f h) as (ev1 & t & Hh & Hw1 & Hf & Hh0).
  pose proof (run_history bpy __file__ f h) as Hrun. cbv zeta in Hrun.
  destruct Hrun as (Hc & _). rewrite Hh in Hc, Hin.
  cbn [chained] in Hc. destruct Hc as (_ & _ & Hc).
  destruct Hin as [<- | Hin]; [congruence|].
  assert (Hafter : fst (after ev1) = f1).
  { unfold after. rewrite Hw1, Hf, Hh0. cbn [perform]. now rewrite Hmk. }
  destruct (kind_kept_through f t (PosixPath.join dn n) s (after ev1) Hc)
    as [_ Hall].
  - intros ev' Hin'. apply (history_in_plan bpy __file__ f h).
    rewrite Hh. now right.
  - rewrite Hafter, Hs. destruct s; cbn; eauto.
  - apply lexists_stat. specialize (Hall ev Hin).
    destruct s; cbn in Hall; [destruct Hall as [d Hd]|]; eauto.
Qed.

End NothingRemoved.

(** ** When [os.makedirs] raises *)

Section MakedirsRaises.

Local Open Scope list_scope.

Import FS.

Lemma mkdirs_fresh (cs : list string) :
  exists n', mkdirs cs true (Dir []) = inr n'.
Proof.
  induction cs as [|c cs IH]; [now exists (Dir [])|].
  destruct IH as [m IH]. cbn [mkdirs find_entry]. rewrite IH. eauto.
Qed.

(** [mkdirs] with [exist_ok] fails on a regular file: with [EEXIST] if the
    file is at the end of the path, with [ENOTDIR] if it is on the way. *)
Lemma mkdirs_error (cs : list string) :
  forall (n : node) (e : errno),
    mkdirs cs true n = inl e <->
    (e = EEXIST /\ exists d, walk cs n = Some (File d))
    \/ (e = ENOTDIR
        /\ exists k d, (k < List.length cs)%nat
                       /\ walk (firstn k cs) n = Some (File d)).
Proof.
  induction cs as [|c cs IH]; intros n e.
  - cbn [mkdirs walk List.length]. destruct n as [d|es]; split.
    + intros [= <-]. left. eauto.
    + intros [[-> _] | [_ (k & _ & Hk & _)]]; [reflexivity | lia].
    + discriminate.
    + intros [[_ [d H]] | [_ (k & _ & Hk & _)]]; [discriminate | lia].
  - cbn [mkdirs List.length]. destruct n as [d|es].
    + split.
      * intros [= <-]. right. split; [reflexivity|]. exists 0%nat, d.
        split; [lia | reflexivity].
      * intros [[_ [d' H]] | [-> _]]; [discriminate | reflexivity].
    + cbn [walk]. destruct (find_entry c es) as [m|] eqn:Hf.
      * specialize (IH m e).
        destruct (mkdirs cs true m) as [e'|m'] eqn:Hm.
        -- split.
           ++ intros [= ->]. destruct (proj1 IH eq_refl)
                as [[-> Hd] | [-> (k & d & Hk & Hd)]].
              ** now left.
              ** right. split; [reflexivity|]. exists (S k), d.
                 split; [lia|]. cbn [firstn walk]. now rewrite Hf.
           ++ intros H. f_equal. assert (He : inl e' = inl e :> errno + node);
                [|now injection He].
              apply IH. destruct H as [[-> Hd] | [-> (k & d & Hk & Hd)]].
              ** now left.
              ** right. split; [reflexivity|]. destruct k as [|k].
                 --- discriminate.
                 --- exists k, d. split; [lia|].
                     cbn [firstn walk] in Hd. now rewrite Hf in Hd.
        -- split; [discriminate|]. intros H. exfalso.
           assert (He : inr m' = inl e :> errno + node); [|discriminate].
           apply IH. destruct H as [[-> Hd] | [-> (k & d & Hk & Hd)]].
           ++ now left.
           ++ right. split; [reflexivity|]. destruct k as [|k].
              ** discriminate.
              ** exists k, d. split; [lia|].
                 cbn [firstn walk] in Hd. now rewrite Hf in Hd.
      * destruct (mkdirs_fresh cs) as [m' ->]. split; [discriminate|].
        intros [[_ [d H]] | [_ (k & d & Hk & Hd)]]; [discriminate|].
        destruct k as [|k]; [discriminate|].
        cbn [firstn walk] in Hd. rewrite Hf in Hd. discriminate.
Qed.

(** [mkdirs] with [exist_ok] succeeds where there is a directory. *)
Lemma mkdirs_existing (cs : list string) :
  forall n, look cs n = Some IsDir -> exists n', mkdirs cs true n = inr n'.
Proof.
  intros n H. destruct (mkdirs cs true n) as [e|n'] eqn:E; [|eauto].
  exfalso. apply mkdirs_error in E. unfold look in H.
  destruct E as [[_ [d Hd]] | [_ (k & d & Hk & Hd)]].
  - rewrite Hd in H. discriminate.
  - rewrite <- (firstn_skipn k cs), walk_app, Hd in H.
    destruct (skipn k cs) eqn:Es; [|discriminate].
    apply (f_equal (@List.length string)) in Es. rewrite length_skipn in Es.
    cbn in Es. lia.
Qed.

Lemma look_file_walk (cs : list string) (n : node) (d : string) :
  look cs n = Some (IsFile d) <-> walk cs n = Some (File d).
Proof.
  unfold look. destruct (walk cs n) as [[d'|es]|]; cbn; split;
    congruence.
Qed.

End MakedirsRaises.

Section BlockedOutput.

Local Open Scope list_scope.

Variable bpy : host_app.
Variable __file__ : string.

(** X7: for a script stored in a directory [d], a regular file at the
    output path [<d>/output] makes [os.makedirs] raise [FileExistsError] in
    spite of [exist_ok], and a regular file at an ancestor of that path
    makes it raise [NotADirectoryError]; in both cases the run ends with
    that error after this one call, with nothing printed by the script and
    the file system and the host as they were. *)
Theorem blocked_output_directory_stops_the_run
  (f : FS.filesystem) (h : Host bpy) (d n : string) :
  PosixPath.abspath (FS.cwd f) __file__ = (d ++ "/" ++ n)%string ->
  endswith "/" d = false -> contains "/" n = false ->
  let w' := snd (run bpy __file__ f h) in
  let out := (d ++ "/output")%string in
  let cs := FS.abs_components f out in
  let stopped := fun e : FS.errno =>
    fst (run bpy __file__ f h) = inl (OSError e)
    /\ map what (history w') = [CallMakedirs out true]
    /\ stdout w' = []
    /\ fs w' = f /\ host w' = h in
  ((exists c, FS.stat f out = Some (FS.IsFile c)) -> stopped FS.EEXIST)
  /\ ((exists k c, (k < List.length cs)%nat
                   /\ look (firstn k cs) (FS.root f) = Some (FS.IsFile c)) ->
      stopped FS.ENOTDIR).
Proof.
  intros Habs He Hn w' out cs stopped.
  destruct (script_dir_stored __file__ (FS.cwd f) d n Habs He Hn)
    as (_ & _ & Hout). fold out in Hout.
  assert (Hstop : forall e, FS.mkdirs cs true (FS.root f) = inl e -> stopped e).
  { intros e Hmk.
    assert (Hmk' : FS.makedirs f (output_dir __file__ (FS.cwd f)) true = inl e).
    { unfold FS.makedirs. rewrite Hout. fold cs. now rewrite Hmk. }
    unfold stopped, w'. rewrite (run_blocked bpy __file__ f h e Hmk').
    cbv zeta. rewrite Hout.
    cbn [fst snd fs host stdout history map what]. repeat split. }
  assert (Ho : is_empty out = false).
  { unfold out. destruct d; reflexivity. }
  split.
  - intros [c Hc]. apply Hstop. apply mkdirs_error. left.
    split; [reflexivity|]. exists c. apply look_file_walk.
    rewrite stat_look, Ho in Hc. exact Hc.
  - intros (k & c & Hk & Hc). apply Hstop. apply mkdirs_error. right.
    split; [reflexivity|]. exists k, c. split; [assumption|].
    now apply look_file_walk.
Qed.

(** X8: with no glob character in the script's directory, a downloads
    directory that is missing, or that is a regular file, is taken for an
    empty one: the glob does not raise, and the run prints the "no files
    found" message and exits with status 1 without a call to the host. *)
Theorem missing_downloads_directory_counts_as_empty
  (f f1 : FS.filesystem) (h : Host bpy) :
  let w' := snd (run bpy __file__ f h) in
  let out := output_dir __file__ (FS.cwd f) in
  Glob.has_magic (script_dir __file__ (FS.cwd f)) = false ->
  FS.makedirs f out true = inr f1 ->
  FS.isdir f (downloads_dir __file__ (FS.cwd f)) = false ->
  discovered __file__ f = []
  /\ fst (run bpy __file__ f h) = inl (SystemExit 1)
  /\ stdout w' = [no_files_message]
  /\ map what (history w')
     = [CallMakedirs out true; CallGlob (usdz_pattern __file__ (FS.cwd f));
        CallPrint no_files_message; CallExit 1].
Proof.
  intros w' out Hmagic Hmk Hdir.
  assert (Hd : discovered __file__ f = []).
  { rewrite (plain_dir_discovers_downloads __file__ f f1 Hmagic Hmk).
    destruct (downloads_dir_shape __file__ (FS.cwd f)) as (Hne & _).
    unfold Glob._listdir, FS.scandir. unfold FS.isdir in Hdir.
    destruct (downloads_dir __file__ (FS.cwd f)) as [|a d]; [congruence|].
    cbn [is_empty].
    destruct (FS.lstat f (String a d)) as [[data|es]|];
      [reflexivity | discriminate | reflexivity]. }
  split; [assumption|].
  destruct (run_without_inputs bpy __file__ f f1 h Hmk Hd) as (H1 & H2 & H3 & _).
  auto.
Qed.

End BlockedOutput.

(** ** Running the script again *)

Section SecondRun.

Local Open Scope list_scope.

Import FS.

Variable bpy : host_app.
Variable __file__ : string.

(** Writing a file leaves every node off the path to it as it is. *)
Lemma put_walk_outside (cs : list string) (data : string) :
  forall (n n' : node) (cs' : list string),
    put cs data n = inr n' -> ~ prefix_of cs' cs -> walk cs' n' = walk cs' n.
Proof.
  induction cs as [|c cs IH]; intros n n' cs' Hput Hpre.
  - destruct cs' as [|c' cs']; [exfalso; apply Hpre, prefix_of_nil|].
    simpl in Hput. destruct n; [|discriminate]. now injection Hput as <-.
  - simpl in Hput. destruct n as [d|es]; [discriminate|].
    destruct cs' as [|c' cs']; [exfalso; apply Hpre, prefix_of_nil|].
    destruct (string_dec c c') as [->|Hne].
    + rewrite prefix_of_cons in Hpre.
      destruct (find_entry c' es) as [m|] eqn:Hf.
      * destruct (put cs data m) as [e|m'] eqn:Hm; [discriminate|].
        injection Hput as <-. cbn [walk]. rewrite find_set_same, Hf.
        eapply IH; eassumption.
      * destruct cs; [|discriminate]. injection Hput as <-.
        cbn [walk]. rewrite find_set_same, Hf.
        destruct cs'; [exfalso; apply Hpre, prefix_of_nil | reflexivity].
    + destruct (match find_entry c es, cs with
                | Some n'0, _ => put cs data n'0
                | None, [] => inr (File data)
                | None, _ :: _ => inl ENOENT
                end); [discriminate|].
      injection Hput as <-. cbn [walk]. now rewrite find_set_other.
Qed.

(** A call of a run leaves the downloads directory, entries and all, as it
    is. *)
Lemma call_keeps_downloads (f : filesystem) (ev : event bpy) :
  let dcs := abs_components f (downloads_dir __file__ (cwd f)) in
  In (what ev) (plan __file__ f) ->
  cwd (fs_at ev) = cwd f ->
  walk dcs (root (fst (after ev))) = walk dcs (root (fs_at ev)).
Proof.
  intros dcs Hplan Hcwd. pose proof (after_fs bpy ev) as H.
  unfold dcs. rewrite downloads_components.
  destruct (what ev) as [name ok| | | | | |kwargs] eqn:Hw; try (now rewrite H).
  - destruct H as [H | ->]; [|reflexivity].
    apply plan_makedirs in Hplan. destruct Hplan as [-> ->].
    unfold makedirs in H.
    destruct (mkdirs _ true (root (fs_at ev))) as [e|r] eqn:E; [discriminate|].
    injection H as H. rewrite <- H. cbn [root].
    apply (mkdirs_walk_outside _ _ _ _ _ E).
    rewrite (abs_components_cwd _ _ _ Hcwd), output_components.
    intros [r' Er]. rewrite <- app_assoc in Er. apply app_inv_head in Er.
    discriminate.
  - destruct H as [[data H] | ->]; [|reflexivity].
    apply plan_export in Hplan. destruct Hplan as [p [_ ->]].
    cbn [filepath export_kwargs] in H. unfold write_file in H.
    destruct (put _ data (root (fs_at ev))) as [e|r] eqn:E; [discriminate|].
    injection H as H. rewrite <- H. cbn [root].
    apply (put_walk_outside _ _ _ _ _ E).
    rewrite (abs_components_cwd _ _ _ Hcwd).
    rewrite (proj2 (glb_path_components f _ p)), output_components.
    intros [r' Er]. rewrite <- !app_assoc in Er. apply app_inv_head in Er.
    discriminate.
Qed.

(** What a directory lists depends on its node only. *)
Lemma listdir_walk (f g : filesystem) (d : string) :
  cwd g = cwd f ->
  walk (abs_components f d) (root g) = walk (abs_components f d) (root f) ->
  Glob._listdir g d false = Glob._listdir f d false.
Proof.
  intros Hcwd Hw. unfold Glob._listdir, scandir, lstat.
  rewrite (abs_components_cwd f g _ Hcwd).
  destruct (is_empty (if is_empty d then "." else d)); [reflexivity|].
  destruct d as [|a d]; cbn [is_empty].
  - unfold abs_components in *. cbn in *. rewrite app_nil_r in *. now rewrite Hw.
  - now rewrite Hw.
Qed.

(** X9: with no glob character in the script's directory, a second run that
    starts in the file system the first one left finds the same files in
    the same order, and so plans the same calls, whether the first run
    returned, exited or ended in a fault: outputs are never taken for
    inputs and no input is used up. *)
Theorem second_run_finds_the_same_inputs (f : filesystem) (h : Host bpy) :
  let w' := snd (run bpy __file__ f h) in
  Glob.has_magic (script_dir __file__ (cwd f)) = false ->
  discovered __file__ (fs w') = discovered __file__ f
  /\ plan __file__ (fs w') = plan __file__ f.
Proof.
  intros w' Hmagic.
  assert (Hd : cwd (fs w') = cwd f
               /\ discovered __file__ (fs w') = discovered __file__ f).
  { destruct (makedirs f (output_dir __file__ (cwd f)) true) as [e|f1] eqn:Hmk.
    { unfold w'. rewrite (run_blocked bpy __file__ f h e Hmk). now split. }
    pose proof (run_history bpy __file__ f h) as Hrun. cbv zeta in Hrun.
    destruct Hrun as (Hc & Hend & _). fold w' in Hc, Hend.
    assert (Hfs : fs w' = fst (end_state (f, h) (history w')))
      by now rewrite <- Hend.
    set (dcs := abs_components f (downloads_dir __file__ (cwd f))).
    assert (Hinv : cwd (fs w') = cwd f
                   /\ walk dcs (root (fs w')) = walk dcs (root f)).
    { rewrite Hfs.
      apply (chained_invariant bpy
               (fun g => cwd g = cwd f /\ walk dcs (root g) = walk dcs (root f))
               (history w') (f, h) Hc); [now split|].
      intros ev Hin [Hcwd Hw]. split; [now rewrite after_cwd|].
      rewrite <- Hw. apply call_keeps_downloads; [|assumption].
      now apply (history_in_plan bpy __file__ f h). }
    destruct Hinv as [Hcwd Hw]. split; [assumption|].
    assert (Hout : stat (fs w') (output_dir __file__ (cwd f)) = Some IsDir).
    { rewrite Hfs.
      destruct (history_head bpy __file__ f h) as (ev1 & t & Hh & Hw1 & Hf & Hh0).
      fold w' in Hh. rewrite Hh in Hc |- *. cbn [chained] in Hc.
      destruct Hc as (_ & _ & Hc). unfold end_state. cbn [fold_left].
      fold (end_state (after ev1) t).
      assert (Hafter : fst (after ev1) = f1).
      { unfold after. rewrite Hw1, Hf, Hh0. cbn [perform]. now rewrite Hmk. }
      apply (kind_kept_through bpy __file__ f t _ IsDir (after ev1) Hc).
      - intros ev' Hin'. apply (history_in_plan bpy __file__ f h).
        fold w'. rewrite Hh. now right.
      - rewrite Hafter. cbn [same_kind].
        apply (makedirs_isdir _ _ _ _ Hmk), output_dir_nonempty. }
    assert (Hmk' : exists f2, makedirs (fs w') (output_dir __file__ (cwd f)) true
                              = inr f2).
    { rewrite stat_look in Hout.
      destruct (is_empty (output_dir __file__ (cwd f))); [discriminate|].
      unfold makedirs. destruct (mkdirs_existing _ _ Hout) as [n' ->]. eauto. }
    destruct Hmk' as [f2 Hmk'].
    rewrite <- Hcwd in Hmk', Hmagic.
    rewrite (plain_dir_discovers_downloads __file__ (fs w') f2 Hmagic Hmk').
    rewrite Hcwd in Hmagic |- *.
    rewrite (plain_dir_discovers_downloads __file__ f f1 Hmagic Hmk).
    now rewrite (listdir_walk f (fs w') _ Hcwd Hw). }
  destruct Hd as [Hcwd Hd]. split; [assumption|].
  unfold plan. now rewrite Hcwd, Hd.
Qed.

End SecondRun.

(** ** Inputs and outputs by name *)

Section ByName.

Local Open Scope list_scope.

Import FS.

Variable bpy : host_app.
Variable __file__ : string.

Lemma filter_all {A : Type} (l : list A) :
  List.filter (fun _ => true) l = l.
Proof. induction l as [|a l IH]; [reflexivity|]. cbn. now rewrite IH. Qed.

(** What a directory lists, by its node. *)
Lemma listdir_lstat (f : filesystem) (d : string) (es : list (string * node)) :
  lstat f (if is_empty d then "." else d) = Some (Dir es) ->
  Glob._listdir f d false = map fst es.
Proof.
  intros H. unfold Glob._listdir, scandir. rewrite H. cbn [negb orb].
  now rewrite filter_all.
Qed.

(** With no glob character in the script's directory and a file system in
    good order, what the glob finds, by name. *)
Lemma plain_dir_discovered_names (f f1 : filesystem) (p : string) :
  let d := downloads_dir __file__ (cwd f) in
  Glob.has_magic (script_dir __file__ (cwd f)) = false ->
  wf f = true ->
  makedirs f (output_dir __file__ (cwd f)) true = inr f1 ->
  In p (discovered __file__ f) <->
  exists x, p = PosixPath.join d (x ++ ".usdz")%string
            /\ x <> ""%string /\ startswith "." x = false
            /\ contains "/" x = false
            /\ lexists f p = true.
Proof.
  intros d Hmagic Hwf Hmk.
  rewrite (plain_dir_discovers_downloads __file__ f f1 Hmagic Hmk). fold d.
  rewrite in_map_iff. split.
  - intros (name & <- & Hin). apply filter_In in Hin. destruct Hin as [Hin Hf].
    apply andb_true_iff in Hf. destruct Hf as [Hh Hm].
    apply negb_true_iff in Hh. apply fnmatch_usdz in Hm. destruct Hm as [x ->].
    destruct (usdz_stem x Hh) as [Hx Hdot].
    pose proof (wf_listdir_valid _ _ _ _ Hwf Hin) as Hv.
    destruct (valid_name_shape _ Hv) as (_ & Hc & _).
    rewrite contains_app in Hc. apply orb_false_iff in Hc. destruct Hc as [Hc _].
    exists x. repeat split; try assumption. now apply listed_exists.
  - intros (x & -> & Hx & Hdot & Hc & Hex).
    exists (x ++ ".usdz")%string. split; [reflexivity|].
    pose proof (usdz_name_valid x Hx Hc) as Hv.
    apply filter_In. split.
    + unfold lexists in Hex. rewrite (lstat_join f d _ Hv) in Hex.
      destruct (lstat f (if is_empty d then "." else d)) as [[data|es]|] eqn:El;
        try discriminate.
      rewrite (listdir_lstat f d es El).
      destruct (find_entry (x ++ ".usdz") es) as [m|] eqn:Ef; [|discriminate].
      eapply find_entry_key; eassumption.
    + apply andb_true_iff. split.
      * apply negb_true_iff. destruct x as [|a x]; [congruence | exact Hdot].
      * apply fnmatch_usdz. now exists x.
Qed.

(** X10: with no glob character in the script's directory and a file system
    in good order, once the output directory is there, the glob finds exactly
    the paths [<downloads>/<x>.usdz] that exist, for a stem [x] that is not
    empty, does not start with a dot and holds no separator: the selection is
    by name alone, so a directory of such a name is found like a regular
    file; and no path is found twice. *)
Theorem discovery_goes_by_name_alone (f f1 : filesystem) (p : string) :
  let d := downloads_dir __file__ (cwd f) in
  Glob.has_magic (script_dir __file__ (cwd f)) = false ->
  wf f = true ->
  makedirs f (output_dir __file__ (cwd f)) true = inr f1 ->
  (In p (discovered __file__ f) <->
   exists x, p = (d ++ "/" ++ x ++ ".usdz")%string
             /\ x <> ""%string /\ startswith "." x = false
             /\ contains "/" x = false
             /\ lexists f p = true)
  /\ NoDup (discovered __file__ f).
Proof.
  intros d Hmagic Hwf Hmk.
  destruct (downloads_dir_shape __file__ (cwd f)) as (Hne & Hend & _).
  fold d in Hne, Hend.
  assert (Hjoin : forall x, contains "/" x = false ->
                    PosixPath.join d (x ++ ".usdz")%string
                    = (d ++ "/" ++ x ++ ".usdz")%string).
  { intros x Hc. apply join_plain; try assumption.
    apply clean_not_abs. now rewrite contains_app, Hc. }
  split.
  - rewrite (plain_dir_discovered_names f f1 p Hmagic Hwf Hmk). fold d.
    split; intros (x & Hp & Hx & Hdot & Hc & Hex); exists x;
      rewrite (Hjoin x Hc) in *; auto.
  - rewrite (plain_dir_discovers_downloads __file__ f f1 Hmagic Hmk). fold d.
    apply NoDup_map_inj_in.
    + intros a b Ha Hb Heq. apply filter_In in Ha, Hb.
      destruct Ha as [Ha _], Hb as [Hb _].
      pose proof (wf_listdir_valid _ _ _ _ Hwf Ha) as Hva.
      pose proof (wf_listdir_valid _ _ _ _ Hwf Hb) as Hvb.
      destruct (valid_name_shape _ Hva) as (_ & _ & Hsa).
      destruct (valid_name_shape _ Hvb) as (_ & _ & Hsb).
      now apply join_inj in Heq.
    + apply NoDup_filter. now apply wf_listdir_NoDup.
Qed.

(** X11: with no glob character in the script's directory and a file system
    in good order, the output of a discovered file [<downloads>/<x>.usdz] is
    [<output>/<x>.glb]: the name is kept, dots inside it included, and only
    the ending is replaced. *)
Theorem output_is_named_after_its_input (f : filesystem) (p : string) :
  let d := downloads_dir __file__ (cwd f) in
  let out := output_dir __file__ (cwd f) in
  Glob.has_magic (script_dir __file__ (cwd f)) = false ->
  wf f = true ->
  In p (discovered __file__ f) ->
  exists x, x <> ""%string /\ contains "/" x = false
            /\ p = (d ++ "/" ++ x ++ ".usdz")%string
            /\ glb_path_of out p = (out ++ "/" ++ x ++ ".glb")%string.
Proof.
  intros d out Hmagic Hwf Hin.
  destruct (makedirs f (output_dir __file__ (cwd f)) true) as [e|f1] eqn:Hmk.
  { unfold discovered in Hin. rewrite Hmk in Hin. destruct Hin. }
  apply (plain_dir_discovered_names f f1 p Hmagic Hwf Hmk) in Hin.
  fold d in Hin. destruct Hin as (x & -> & Hx & Hdot & Hc & _).
  destruct (downloads_dir_shape __file__ (cwd f)) as (Hne & Hend & _).
  destruct (output_dir_shape __file__ (cwd f)) as (Hone & Hoend).
  fold d in Hne, Hend. fold out in Hone, Hoend.
  pose proof (usdz_name_valid x Hx Hc) as Hv.
  assert (Hh : Glob._ishidden (x ++ ".usdz")%string = false).
  { destruct x as [|a x]; [congruence | exact Hdot]. }
  exists x. split; [assumption|]. split; [assumption|]. split.
  - apply join_plain; try assumption.
    apply clean_not_abs. now rewrite contains_app, Hc.
  - rewrite (glb_path_of_entry out d x Hv Hh).
    apply join_plain; try assumption.
    apply clean_not_abs. now rewrite contains_app, Hc.
Qed.

End ByName.

(** ** What the outputs hold *)

Section OutputContent.

Local Open Scope list_scope.

Variable bpy : host_app.
Variable __file__ : string.

(** An export of the loop is the export of one of its files. *)
Lemma export_in_iterations (out : string) (files : list string)
  (kwargs : gltf_kwargs) :
  In (CallExportGltf kwargs) (flat_map (iteration_calls out) files) ->
  exists p, In p files /\ kwargs = export_kwargs (glb_path_of out p).
Proof.
  intros H. apply in_flat_map in H. destruct H as (p & Hp & H).
  exists p. split; [assumption|].
  destruct H as [H | [H | [H | [H | []]]]]; try discriminate. congruence.
Qed.

(** An export that did not raise has written what the exporter yielded. *)
Lemma quiet_export_data (ev : event bpy) (kwargs : gltf_kwargs) :
  what ev = CallExportGltf kwargs ->
  raised ev = None ->
  exists data h',
    export_scene_gltf bpy kwargs (fs_at ev) (host_at ev) = inr (data, h')
    /\ FS.write_file (fs_at ev) (filepath kwargs) data = inr (fst (after ev)).
Proof.
  unfold raised, after. intros ->. cbn [perform].
  destruct (export_scene_gltf bpy kwargs (fs_at ev) (host_at ev))
    as [m|[data h']]; [discriminate|].
  destruct (FS.write_file (fs_at ev) (filepath kwargs) data) eqn:E;
    [discriminate|].
  intros _. now exists data, h'.
Qed.

(** Output paths that differ as strings differ as paths. *)
Lemma glb_paths_apart (f : FS.filesystem) (out p p' : string) :
  glb_path_of out p <> glb_path_of out p' ->
  FS.abs_components f (glb_path_of out p)
  <> FS.abs_components f (glb_path_of out p').
Proof.
  intros Hne E.
  rewrite (proj2 (glb_path_components f out p)) in E.
  rewrite (proj2 (glb_path_components f out p')) in E.
  apply app_inv_head in E. injection E as E. apply Hne.
  rewrite (proj1 (glb_path_components f out p)).
  rewrite (proj1 (glb_path_components f out p')). now rewrite E.
Qed.

(** X12: with no glob character in the script's directory and a file system
    in good order, after a run that returns the output path of every
    discovered file holds what the exporter yielded when it was called for
    that file in this run, whatever the path held before the run. *)
Theorem outputs_hold_what_this_run_exported
  (f : FS.filesystem) (h : Host bpy) (p : string) :
  let w' := snd (run bpy __file__ f h) in
  let out := output_dir __file__ (FS.cwd f) in
  Glob.has_magic (script_dir __file__ (FS.cwd f)) = false ->
  wf f = true ->
  fst (run bpy __file__ f h) = inr tt ->
  In p (discovered __file__ f) ->
  exists ev data h',
    In ev (history w')
    /\ what ev = CallExportGltf (export_kwargs (glb_path_of out p))
    /\ export_scene_gltf bpy (export_kwargs (glb_path_of out p))
         (fs_at ev) (host_at ev) = inr (data, h')
    /\ FS.stat (fs w') (glb_path_of out p) = Some (FS.IsFile data).
Proof.
  intros w' out Hmagic Hwf Hret Hp.
  pose proof (run_history bpy __file__ f h) as Hrun. cbv zeta in Hrun.
  rewrite Hret in Hrun. destruct Hrun as (Hc & Hend & _ & Hplan & Hq).
  fold w' in Hc, Hend, Hplan, Hq.
  assert (Hne : discovered __file__ f <> [])
    by (intros E; rewrite E in Hp; exact Hp).
  rewrite (plan_nonempty __file__ f Hne) in Hplan. fold out in Hplan.
  pose proof (plain_dir_outputs_distinct __file__ f Hmagic Hwf) as Hnd.
  fold out in Hnd.
  destruct (in_split _ _ Hp) as (done & todo & Hfiles).
  rewrite Hfiles in Hplan, Hnd.
  rewrite flat_map_app in Hplan. cbn [flat_map] in Hplan.
  set (target := glb_path_of out p) in *.
  change (iteration_calls out p)
    with ([CallReadFactorySettings true; CallUsdImport p]
          ++ CallExportGltf (export_kwargs target)
             :: [CallPrint (done_line out p)]) in Hplan.
  set (before := CallMakedirs out true
                 :: CallGlob (usdz_pattern __file__ (FS.cwd f))
                 :: flat_map (iteration_calls out) done
                    ++ [CallReadFactorySettings true; CallUsdImport p]).
  set (later := CallPrint (done_line out p)
                :: flat_map (iteration_calls out) todo).
  assert (Hsplit : map what (history w')
                   = before ++ CallExportGltf (export_kwargs target) :: later).
  { rewrite Hplan. unfold before, later. cbn [app].
    rewrite <- !app_assoc. reflexivity. }
  apply map_eq_app in Hsplit. destruct Hsplit as (tA & tB' & Hh & HA & HB).
  apply map_eq_cons in HB. destruct HB as (ev & tB & -> & Hw & HB).
  assert (Hin : In ev (history w')) by (rewrite Hh; apply in_elt).
  rewrite Forall_forall in Hq.
  destruct (quiet_export_data ev _ Hw (Hq ev Hin)) as (data & h' & Hexp & Hwr).
  cbn [filepath export_kwargs] in Hwr.
  exists ev, data, h'. split; [assumption|]. split; [assumption|].
  split; [assumption|].
  rewrite Hh in Hc, Hend.
  destruct (chained_split bpy _ _ _ _ Hc) as [Hc2 He2]. rewrite He2 in Hend.
  assert (Hfs : fs w' = fst (end_state (after ev) tB)) by now rewrite <- Hend.
  rewrite Hfs.
  apply (chained_invariant bpy
           (fun g => FS.stat g target = Some (FS.IsFile data)) tB (after ev) Hc2).
  { apply (write_file_stat_same _ _ _ _ Hwr), glb_path_nonempty. }
  intros ev' Hin' Hs.
  assert (Hin'' : In ev' (history w')).
  { rewrite Hh. apply in_or_app. right. now right. }
  pose proof (history_cwd bpy __file__ f h ev' Hin'') as Hcwd.
  assert (Hlater : In (what ev') later) by (rewrite <- HB; now apply in_map).
  pose proof (after_fs bpy ev') as H.
  destruct (what ev') as [name ok| | | | | |kwargs] eqn:Hw'; try (now rewrite H).
  - destruct H as [H | ->]; [|assumption]. eapply makedirs_stat_keeps; eassumption.
  - destruct H as [[data' H] | ->]; [|assumption].
    destruct Hlater as [Hl | Hl]; [discriminate|].
    apply export_in_iterations in Hl. destruct Hl as (p' & Hp' & ->).
    cbn [filepath export_kwargs] in H.
    rewrite (write_file_stat_other _ _ _ _ _ H); [assumption|].
    rewrite !(abs_components_cwd _ _ _ Hcwd). apply glb_paths_apart.
    rewrite map_app in Hnd. cbn [map] in Hnd. apply NoDup_remove_2 in Hnd.
    unfold target. intros E. apply Hnd. apply in_or_app. right.
    rewrite E. now apply in_map.
Qed.

End OutputContent.

(** ** Where the glob looks *)

Section WhereTheGlobLooks.

Local Open Scope list_scope.

Import FS Glob.

Variable __file__ : string.

Lemma rstrip_no_trailing (c : ascii) (s : string) :
  endswith c (rstrip c s) = false.
Proof.
  induction s as [|a r IH]; [reflexivity|]. cbn [rstrip].
  destruct (rstrip c r) as [|b r'] eqn:E.
  - destruct (Ascii.eqb a c) eqn:Ea; [reflexivity|]. cbn. exact Ea.
  - exact IH.
Qed.

(** The head of a split ends in a separator only if it is made of
    separators. *)
Lemma split_head_shape (p : string) :
  endswith PosixPath.sep (fst (PosixPath.split p)) = false
  \/ all_char PosixPath.sep (fst (PosixPath.split p)) = true.
Proof.
  unfold PosixPath.split. destruct (rpartition PosixPath.sep p) as [head tail].
  cbn [fst]. destruct head as [|a head]; [now left|].
  cbn [is_empty negb andb].
  destruct (all_char PosixPath.sep (String a head)) eqn:E; cbn [negb].
  - now right.
  - left. apply rstrip_no_trailing.
Qed.

Lemma all_sep_no_magic (s : string) :
  all_char PosixPath.sep s = true -> has_magic s = false.
Proof.
  intros H. unfold has_magic.
  destruct (contains "*" s) eqn:E1.
  { apply (all_char_contains PosixPath.sep) in E1; [congruence | discriminate]. }
  destruct (contains "?" s) eqn:E2.
  { apply (all_char_contains PosixPath.sep) in E2; [congruence | discriminate]. }
  destruct (contains "[" s) eqn:E3.
  { apply (all_char_contains PosixPath.sep) in E3; [congruence | discriminate]. }
  reflexivity.
Qed.

(** A script directory with a glob character is not empty and does not end
    in a separator. *)
Lemma magic_script_dir_shape (cwd : string) :
  has_magic (script_dir __file__ cwd) = true ->
  script_dir __file__ cwd <> ""%string
  /\ endswith "/" (script_dir __file__ cwd) = false.
Proof.
  intros Hm. split.
  - intros E. rewrite E in Hm. discriminate.
  - unfold script_dir, PosixPath.dirname in *.
    destruct (split_head_shape (PosixPath.abspath cwd __file__)) as [H | H];
      [exact H|].
    apply all_sep_no_magic in H. congruence.
Qed.

Lemma join_longer (d n : string) :
  startswith PosixPath.sep n = false -> n <> ""%string ->
  String.eqb d (PosixPath.join d n) = false.
Proof.
  intros Hs Hn. apply String.eqb_neq. intros E.
  apply (f_equal String.length) in E. rewrite join_relative in E by assumption.
  rewrite sapp_length in E. unfold dir_prefix in E.
  destruct (is_empty d || endswith PosixPath.sep d);
    rewrite ?sapp_length in E; destruct n; try congruence; cbn in E; lia.
Qed.

(** The glob for the downloads directory of a script directory with a glob
    character: the directories named [downloads] below what the glob for
    the script directory finds. *)
Lemma iglob_downloads (fuel : nat) (f : filesystem) (sd : string) :
  sd <> ""%string -> endswith "/" sd = false -> has_magic sd = true ->
  _iglob (S fuel) f (PosixPath.join sd "downloads") true
  = match _iglob fuel f sd true with
    | None => None
    | Some dirs =>
        Some (flat_map
                (fun dirname =>
                   map (fun name => PosixPath.join dirname name)
                       (_glob0 f dirname "downloads" true))
                dirs)
    end.
Proof.
  intros Hd He Hm. cbn [_iglob].
  rewrite split_join by (assumption || reflexivity).
  assert (Hmj : has_magic (PosixPath.join sd "downloads") = true).
  { rewrite join_relative by reflexivity. rewrite has_magic_app.
    rewrite has_magic_dir_prefix, Hm. reflexivity. }
  rewrite Hmj, Hm, join_longer by (reflexivity || discriminate).
  cbn [negb andb]. destruct sd; [congruence|]. reflexivity.
Qed.

Lemma glob0_name (f : filesystem) (d b : string) (dironly : bool) (n : string) :
  In n (_glob0 f d b dironly) -> n = b.
Proof.
  unfold _glob0. destruct (negb (is_empty b)).
  - destruct (lexists f (_join d b)); [|intros []]. now intros [<- | []].
  - destruct (isdir f d); [|intros []]. now intros [<- | []].
Qed.

(** What the glob of a run finds lies in a directory named [downloads]. *)
Lemma glob_in_downloads (f : filesystem) (sd x : string) :
  (has_magic sd = true -> sd <> ""%string /\ endswith "/" sd = false) ->
  PosixPath.join sd "downloads" <> ""%string ->
  endswith "/" (PosixPath.join sd "downloads") = false ->
  In x (Glob.glob f (PosixPath.join (PosixPath.join sd "downloads") "*.usdz")) ->
  exists d name,
    x = PosixPath.join (PosixPath.join d "downloads") name
    /\ In name (_listdir f (PosixPath.join d "downloads") false)
    /\ _ishidden name = false
    /\ Fnmatch.fnmatchcase name "*.usdz" = true.
Proof.
  intros Hsd Hne Hend Hin. unfold Glob.glob in Hin.
  set (d0 := PosixPath.join sd "downloads") in *.
  set (pat := PosixPath.join d0 "*.usdz") in *.
  assert (Hlen : exists k, String.length pat = S k).
  { unfold pat. rewrite join_relative by reflexivity. rewrite sapp_length.
    change (String.length "*.usdz") with 6%nat.
    exists (String.length (dir_prefix d0) + 5)%nat. lia. }
  destruct Hlen as [k Hk]. rewrite Hk in Hin. unfold pat in Hin.
  rewrite iglob_usdz in Hin by assumption. fold pat in Hin.
  assert (Hpe : is_empty pat = false).
  { destruct pat; [discriminate | reflexivity]. }
  rewrite Hpe in Hin. cbn [andb] in Hin.
  assert (Hres : forall dirs,
             (forall dn, In dn dirs -> exists d, dn = PosixPath.join d "downloads") ->
             In x (flat_map
                     (fun dirname =>
                        map (fun name => PosixPath.join dirname name)
                            (_glob1 f dirname "*.usdz" false)) dirs) ->
             exists d name,
               x = PosixPath.join (PosixPath.join d "downloads") name
               /\ In name (_listdir f (PosixPath.join d "downloads") false)
               /\ _ishidden name = false
               /\ Fnmatch.fnmatchcase name "*.usdz" = true).
  { intros dirs Hdirs Hx. apply in_flat_map in Hx.
    destruct Hx as (dn & Hdn & Hx). apply in_map_iff in Hx.
    destruct Hx as (name & <- & Hname). apply glob1_usdz in Hname.
    destruct (Hdirs dn Hdn) as [d ->]. exists d, name. tauto. }
  unfold pat in Hin at 1.
  rewrite (join_longer d0 "*.usdz") in Hin by (reflexivity || discriminate).
  cbn [negb andb] in Hin.
  assert (Hmd : has_magic d0 = has_magic sd).
  { unfold d0. rewrite join_relative by reflexivity.
    rewrite has_magic_app, has_magic_dir_prefix. apply orb_false_r. }
  rewrite Hmd in Hin. destruct (has_magic sd) eqn:Hm.
  - destruct (Hsd eq_refl) as [Hsne Hsend].
    unfold d0 in Hin.
    rewrite (iglob_downloads k f sd Hsne Hsend Hm) in Hin.
    destruct (_iglob k f sd true) as [dirs'|]; [|destruct Hin].
    set (dirs := flat_map _ dirs') in Hin.
    assert (Hdirs : forall dn, In dn dirs ->
                      exists d, dn = PosixPath.join d "downloads").
    { intros dn Hdn. unfold dirs in Hdn. apply in_flat_map in Hdn.
      destruct Hdn as (d & _ & Hdn). apply in_map_iff in Hdn.
      destruct Hdn as (b & <- & Hb). apply glob0_name in Hb. subst b.
      now exists d. }
    apply (Hres dirs Hdirs). fold d0 in Hin.
    destruct (flat_map _ dirs) as [|s rest]; [destruct Hin | exact Hin].
  - apply (Hres [d0]).
    + intros dn [<- | []]. now exists sd.
    + cbn [flat_map] in *. rewrite app_nil_r in *.
      destruct (map _ _) as [|s rest]; [destruct Hin | exact Hin].
Qed.

(** X13: in a file system in good order, whatever the location of the
    script, every file the glob of a run finds is an entry [<x>.usdz] of a
    directory named [downloads], for a stem [x] that is not empty, does not
    start with a dot and holds no separator: glob characters in the script's
    directory can lead the glob to other directories, but only to ones of
    that name. *)
Theorem inputs_lie_in_a_downloads_directory (f : filesystem) (p : string) :
  wf f = true ->
  In p (discovered __file__ f) ->
  exists d x,
    p = (d ++ "downloads/" ++ x ++ ".usdz")%string
    /\ (d = ""%string \/ endswith "/" d = true)
    /\ x <> ""%string /\ startswith "." x = false /\ contains "/" x = false.
Proof.
  intros Hwf Hin. unfold discovered in Hin.
  destruct (makedirs f _ true) as [e|f1] eqn:Hmk; [destruct Hin|].
  pose proof (wf_makedirs _ _ _ _ Hwf Hmk) as Hwf1.
  destruct (downloads_dir_shape __file__ (cwd f)) as (Hne & Hend & _).
  unfold usdz_pattern, downloads_dir in *.
  apply glob_in_downloads in Hin;
    [|apply magic_script_dir_shape|assumption|assumption].
  destruct Hin as (d & name & -> & Hl & Hh & Hm).
  apply fnmatch_usdz in Hm. destruct Hm as [x ->].
  pose proof (wf_listdir_valid _ _ _ _ Hwf1 Hl) as Hv.
  destruct (valid_name_shape _ Hv) as (_ & Hc & Hs).
  rewrite contains_app in Hc. apply orb_false_iff in Hc. destruct Hc as [Hc _].
  assert (Hx : x <> ""%string /\ startswith "." x = false).
  { destruct x as [|a x]; [discriminate|]. split; [discriminate | exact Hh]. }
  exists (dir_prefix d), x. split; [|split; [|tauto]].
  - rewrite (join_relative d "downloads") by reflexivity.
    rewrite join_plain; try assumption.
    + rewrite sapp_assoc. reflexivity.
    + intros E. apply sapp_empty in E. destruct E; discriminate.
    + now rewrite endswith_app.
  - destruct (dir_prefix_shape d) as [-> | [a' ->]]; [now left|]. right.
    apply endswith_snoc.
Qed.

End WhereTheGlobLooks.

(** ** Concrete runs *)

(** A run over [job_fs]: two assets are converted, the hidden file, the
    upper-case extension and the nested file are not, and the unrelated file
    in the output directory stays. *)
Example job_run :
  let r := run toy_host "/job/convert.py" job_fs ["Cube"] in
  fst r = inr tt
  /\ stdout (snd r)
     = ["DONE: /job/output/chair.glb"; "DONE: /job/output/table.v2.glb"]
  /\ Glob._listdir (fs (snd r)) "/job/output" false
     = ["notes.txt"; "chair.glb"; "table.v2.glb"]
  /\ FS.stat (fs (snd r)) "/job/output/notes.txt" = Some (FS.IsFile "keep me")
  /\ FS.stat (fs (snd r)) "/job/output/table.v2.glb"
     = Some (FS.IsFile "glTFPKtable").
Proof. vm_compute. repeat split. Qed.

(** C1 on a script directory named [w[1]]: the downloads directory beside
    the script holds one asset the host imports without fault, yet the run
    prints the "no files found" message, exits with status 1 and leaves the
    output directory empty; and on a script directory named [w[12]] the run
    converts two files of other directories, prints two "DONE" lines and
    leaves one GLB file, none of them for the asset beside the script. *)
Theorem bracketed_script_dir_converts_nothing :
  (let r := run toy_host "/w[1]/convert.py" bracket_alone_fs [] in
   Glob._listdir bracket_alone_fs (downloads_dir "/w[1]/convert.py" "/") false
   = ["a.usdz"]
   /\ usd_import toy_host "/w[1]/downloads/a.usdz" bracket_alone_fs []
      = inr ["PKa"]
   /\ fst r = inl (SystemExit 1)
   /\ stdout (snd r) = [no_files_message]
   /\ Glob._listdir (fs (snd r)) (output_dir "/w[1]/convert.py" "/") false = [])
  /\ (let r := run toy_host "/w[12]/convert.py" bracket_pair_fs [] in
      Glob._listdir bracket_pair_fs (downloads_dir "/w[12]/convert.py" "/") false
      = ["c.usdz"]
      /\ discovered "/w[12]/convert.py" bracket_pair_fs
         = ["/w1/downloads/a.usdz"; "/w2/downloads/a.usdz"]
      /\ fst r = inr tt
      /\ stdout (snd r)
         = ["DONE: /w[12]/output/a.glb"; "DONE: /w[12]/output/a.glb"]
      /\ Glob._listdir (fs (snd r)) (output_dir "/w[12]/convert.py" "/") false
         = ["a.glb"]).
Proof. vm_compute. repeat split. Qed.

(** C5 on a script directory named [w[1]]: the downloads directory beside
    the script lists [a.usdz], which matches [*.usdz], but the glob returns
    the file [b.usdz] of the directory [/w1/downloads] and nothing else. *)
Theorem bracketed_script_dir_globs_elsewhere :
  downloads_dir "/w[1]/convert.py" "/" = "/w[1]/downloads"
  /\ Glob._listdir bracket_fs "/w[1]/downloads" false = ["a.usdz"]
  /\ Glob._ishidden "a.usdz" = false
  /\ Fnmatch.fnmatchcase "a.usdz" "*.usdz" = true
  /\ discovered "/w[1]/convert.py" bracket_fs = ["/w1/downloads/b.usdz"]
  /\ map what (history (snd (run toy_host "/w[1]/convert.py" bracket_fs [])))
     = [CallMakedirs "/w[1]/output" true;
        CallGlob "/w[1]/downloads/*.usdz";
        CallReadFactorySettings true;
        CallUsdImport "/w1/downloads/b.usdz";
        CallExportGltf (export_kwargs "/w[1]/output/b.glb");
        CallPrint "DONE: /w[1]/output/b.glb"].
Proof. vm_compute. repeat split. Qed.

(** C8 on a script directory named [w[12]]: the glob returns one [a.usdz]
    from each of [/w1/downloads] and [/w2/downloads], both iterations
    compute the output path [/w[12]/output/a.glb], and after the run that
    file holds the export of the second one. *)
Theorem bracketed_script_dir_overwrites_output :
  let r := run toy_host "/w[12]/convert.py" bracket_pair_fs [] in
  discovered "/w[12]/convert.py" bracket_pair_fs
  = ["/w1/downloads/a.usdz"; "/w2/downloads/a.usdz"]
  /\ map (glb_path_of (output_dir "/w[12]/convert.py" "/"))
         (discovered "/w[12]/convert.py" bracket_pair_fs)
     = ["/w[12]/output/a.glb"; "/w[12]/output/a.glb"]
  /\ ~ NoDup (map (glb_path_of (output_dir "/w[12]/convert.py" "/"))
                  (discovered "/w[12]/convert.py" bracket_pair_fs))
  /\ fst r = inr tt
  /\ FS.stat (fs (snd r)) "/w[12]/output/a.glb" = Some (FS.IsFile "glTFPKtwo").
Proof.
  vm_compute. repeat split.
  intros H. inversion H as [|? ? Hin _]. apply Hin. now left.
Qed.


(** ** Witnesses *)


Lemma host_fault_stops_the_run_witness :
  history (snd (run toy_host "/job/convert.py" broken_job_fs ["Cube"]))
  = (firstn 3 broken_history ++ [bad_import])%list
  /\ is_host_call (what bad_import) = true
  /\ raised bad_import = Some (RuntimeError "USD import failed")
  /\ fst (run toy_host "/job/convert.py" broken_job_fs ["Cube"])
     = inl (RuntimeError "USD import failed").
Proof.
  assert (H1 : history (snd (run toy_host "/job/convert.py" broken_job_fs ["Cube"]))
               = (firstn 3 broken_history ++ [bad_import])%list).
  { vm_compute. reflexivity. }
  assert (H2 : is_host_call (what bad_import) = true) by reflexivity.
  assert (H3 : raised bad_import = Some (RuntimeError "USD import failed")).
  { vm_compute. reflexivity. }
  split; [exact H1|]. split; [exact H2|]. split; [exact H3|].
  exact (proj1 (proj2 (host_fault_stops_the_run toy_host "/job/convert.py"
                         broken_job_fs ["Cube"] (firstn 3 broken_history) []
                         bad_import (RuntimeError "USD import failed")
                         H1 H2 H3))).
Defined.

Lemma export_settings_are_fixed_witness :
  In chair_export (history (snd (run toy_host "/job/convert.py" job_fs ["Cube"])))
  /\ what chair_export = CallExportGltf (export_kwargs "/job/output/chair.glb")
  /\ export_format (export_kwargs "/job/output/chair.glb") = "GLB"
  /\ export_image_format (export_kwargs "/job/output/chair.glb") = "WEBP"
  /\ export_image_add_webp (export_kwargs "/job/output/chair.glb") = false
  /\ export_image_quality (export_kwargs "/job/output/chair.glb") = 15%Z
  /\ export_draco_mesh_compression_enable (export_kwargs "/job/output/chair.glb")
     = true
  /\ export_draco_mesh_compression_level (export_kwargs "/job/output/chair.glb")
     = 6%Z.
Proof.
  assert (Hin : In chair_export
                   (history (snd (run toy_host "/job/convert.py" job_fs ["Cube"])))).
  { vm_compute. do 4 right. left. reflexivity. }
  split; [exact Hin|]. split; [reflexivity|].
  exact (export_settings_are_fixed toy_host "/job/convert.py" job_fs ["Cube"]
           chair_export _ Hin eq_refl).
Defined.

Lemma output_directory_is_created_and_kept_witness :
  (FS.stat empty_job_fs "/job/" = Some FS.IsDir
   /\ FS.stat empty_job_fs "/job/output" = None
   /\ FS.stat (fs (snd (run toy_host "/job/convert.py" empty_job_fs ["Cube"])))
              "/job/output"
      = Some FS.IsDir)
  /\ (In chair_export
         (history (snd (run toy_host "/job/convert.py" job_fs ["Cube"])))
      /\ exists dir x,
           In (dir ++ x ++ ".usdz") (discovered "/job/convert.py" job_fs)
           /\ (dir = "" \/ endswith "/" dir = true)
           /\ x <> "" /\ contains "/" x = false
           /\ "/job/output/chair.glb" = "/job/output" ++ "/" ++ x ++ ".glb")
  /\ (FS.stat job_fs "/job/output/notes.txt" = Some (FS.IsFile "keep me")
      /\ FS.stat (fs (snd (run toy_host "/job/convert.py" job_fs ["Cube"])))
                 "/job/output/notes.txt"
         = Some (FS.IsFile "keep me"))
  /\ (forall ev name ok,
         In ev (history (snd (run toy_host "/job/convert.py" job_fs ["Cube"]))) ->
         what ev = CallMakedirs name ok ->
         name = "/job/output" /\ ok = true).
Proof.
  split; [|split; [|split]].
  - split; [reflexivity|]. split; [reflexivity|].
    exact (proj1 (proj2 (output_directory_is_created_and_kept toy_host
                           "/job/convert.py" empty_job_fs ["Cube"]
                           "/job" "convert.py"
                           eq_refl eq_refl eq_refl eq_refl))
             eq_refl eq_refl).
  - assert (Hin : In chair_export
                     (history (snd (run toy_host "/job/convert.py" job_fs ["Cube"])))).
    { vm_compute. do 4 right. left. reflexivity. }
    split; [exact Hin|].
    exact (proj1 (proj2 (proj2 (output_directory_is_created_and_kept toy_host
                                  "/job/convert.py" job_fs ["Cube"]
                                  "/job" "convert.py"
                                  eq_refl eq_refl eq_refl
                                  eq_refl)))
             chair_export _ Hin eq_refl).
  - split; [reflexivity|].
    apply (proj2 (proj2 (proj2 (output_directory_is_created_and_kept toy_host
                                  "/job/convert.py" job_fs ["Cube"]
                                  "/job" "convert.py"
                                  eq_refl eq_refl eq_refl
                                  eq_refl)))
             "/job/output/notes.txt" (FS.IsFile "keep me") eq_refl).
    intros dir x _ _ Hc.
    rewrite (named_output_components job_fs ("/job" ++ "/output") x)
      by (discriminate || assumption).
    intros E. vm_compute in E. injection E as E.
    change "notes.txt" with ("notes" ++ ".txt") in E.
    apply sapp_same_length in E; [|reflexivity].
    destruct E as [_ E]. discriminate.
  - exact (proj1 (output_directory_is_created_and_kept toy_host
                    "/job/convert.py" job_fs ["Cube"] "/job" "convert.py"
                    eq_refl eq_refl eq_refl eq_refl)).
Defined.


Lemma hidden_files_are_skipped_witness :
  wf job_fs = true
  /\ Glob._ishidden ".hidden.usdz" = true
  /\ contains "/" ".hidden.usdz" = false
  /\ FS.stat job_fs "/job/downloads/.hidden.usdz" = Some (FS.IsFile "PKhidden")
  /\ (let hidden :=
        PosixPath.join (downloads_dir "/job/convert.py" (FS.cwd job_fs))
                       ".hidden.usdz" in
      ~ In hidden (discovered "/job/convert.py" job_fs)
      /\ (forall ev,
             In ev (history (snd (run toy_host "/job/convert.py" job_fs ["Cube"]))) ->
             what ev <> CallUsdImport hidden)).
Proof.
  split; [reflexivity|]. split; [reflexivity|]. split; [reflexivity|].
  split; [reflexivity|].
  exact (hidden_files_are_skipped toy_host "/job/convert.py" job_fs ["Cube"]
           ".hidden.usdz" eq_refl eq_refl eq_refl).
Defined.

Lemma only_the_output_directory_is_written_witness :
  prefix_of (FS.abs_components job_fs (downloads_dir "/job/convert.py" (FS.cwd job_fs)))
            (FS.abs_components job_fs "/job/downloads/chair.usdz")
  /\ FS.stat (fs (snd (run toy_host "/job/convert.py" job_fs ["Cube"])))
             "/job/downloads/chair.usdz"
     = FS.stat job_fs "/job/downloads/chair.usdz".
Proof.
  assert (H : prefix_of
                (FS.abs_components job_fs
                   (downloads_dir "/job/convert.py" (FS.cwd job_fs)))
                (FS.abs_components job_fs "/job/downloads/chair.usdz")).
  { exists ["chair.usdz"]. reflexivity. }
  split; [exact H|].
  exact (proj2 (only_the_output_directory_is_written toy_host "/job/convert.py"
                  job_fs ["Cube"]) "/job/downloads/chair.usdz" H).
Defined.

Lemma done_lines_name_written_files_witness :
  In (nth 5 (history (snd (run toy_host "/job/convert.py" job_fs ["Cube"])))
        chair_export)
     (history (snd (run toy_host "/job/convert.py" job_fs ["Cube"])))
  /\ what (nth 5 (history (snd (run toy_host "/job/convert.py" job_fs ["Cube"])))
             chair_export)
     = CallPrint "DONE: /job/output/chair.glb"
  /\ (("DONE: /job/output/chair.glb" = no_files_message
       /\ discovered "/job/convert.py" job_fs = [])
      \/ (exists p data,
             In p (discovered "/job/convert.py" job_fs)
             /\ "DONE: /job/output/chair.glb"
                = "DONE: " ++ glb_path_of (output_dir "/job/convert.py" (FS.cwd job_fs)) p
             /\ FS.stat (fs (snd (run toy_host "/job/convert.py" job_fs ["Cube"])))
                        (glb_path_of (output_dir "/job/convert.py" (FS.cwd job_fs)) p)
                = Some (FS.IsFile data))).
Proof.
  set (ev := nth 5 (history (snd (run toy_host "/job/convert.py" job_fs ["Cube"])))
               chair_export).
  assert (Hin : In ev (history (snd (run toy_host "/job/convert.py" job_fs ["Cube"])))).
  { vm_compute. do 5 right. left. reflexivity. }
  assert (Hw : what ev = CallPrint "DONE: /job/output/chair.glb")
    by (vm_compute; reflexivity).
  split; [exact Hin|]. split; [exact Hw|].
  exact (done_lines_name_written_files toy_host "/job/convert.py" job_fs ["Cube"]
           ev _ Hin Hw).
Defined.

Lemma host_is_given_absolute_paths_witness :
  PosixPath.isabs (FS.cwd job_fs) = true
  /\ In chair_export (history (snd (run toy_host "/job/convert.py" job_fs ["Cube"])))
  /\ PosixPath.isabs "/job/output/chair.glb" = true.
Proof.
  assert (Hin : In chair_export
                   (history (snd (run toy_host "/job/convert.py" job_fs ["Cube"])))).
  { vm_compute. do 4 right. left. reflexivity. }
  split; [reflexivity|]. split; [exact Hin|].
  exact (host_is_given_absolute_paths toy_host "/job/convert.py" job_fs ["Cube"]
           chair_export (or_introl eq_refl) Hin).
Defined.

Lemma imported_paths_end_in_usdz_witness :
  In chair_import (history (snd (run toy_host "/job/convert.py" job_fs ["Cube"])))
  /\ what chair_import = CallUsdImport "/job/downloads/chair.usdz"
  /\ exists y, "/job/downloads/chair.usdz" = y ++ ".usdz".
Proof.
  assert (Hin : In chair_import
                   (history (snd (run toy_host "/job/convert.py" job_fs ["Cube"])))).
  { vm_compute. do 3 right. left. reflexivity. }
  split; [exact Hin|]. split; [reflexivity|].
  exact (imported_paths_end_in_usdz toy_host "/job/convert.py" job_fs ["Cube"]
           chair_import _ Hin eq_refl).
Defined.

Lemma nothing_is_removed_witness :
  FS.stat stale_job_fs "/job/output/chair.glb" = Some (FS.IsFile "old export")
  /\ same_kind (FS.IsFile "old export")
       (FS.stat (fs (snd (run toy_host "/job/convert.py" stale_job_fs ["Cube"])))
                "/job/output/chair.glb").
Proof.
  split; [reflexivity|].
  exact (nothing_is_removed toy_host "/job/convert.py" stale_job_fs ["Cube"]
           "/job/output/chair.glb" (FS.IsFile "old export") eq_refl).
Defined.

Lemma imported_paths_exist_witness :
  wf job_fs = true
  /\ In chair_import (history (snd (run toy_host "/job/convert.py" job_fs ["Cube"])))
  /\ FS.lexists (fs_at chair_import) "/job/downloads/chair.usdz" = true.
Proof.
  assert (Hin : In chair_import
                   (history (snd (run toy_host "/job/convert.py" job_fs ["Cube"])))).
  { vm_compute. do 3 right. left. reflexivity. }
  split; [reflexivity|]. split; [exact Hin|].
  exact (imported_paths_exist toy_host "/job/convert.py" job_fs ["Cube"]
           chair_import _ eq_refl Hin eq_refl).
Defined.

Lemma blocked_output_directory_stops_the_run_witness :
  (FS.stat blocked_job_fs "/job/output" = Some (FS.IsFile "not a directory")
   /\ fst (run toy_host "/job/convert.py" blocked_job_fs ["Cube"])
      = inl (OSError FS.EEXIST)
   /\ map what (history (snd (run toy_host "/job/convert.py" blocked_job_fs ["Cube"])))
      = [CallMakedirs "/job/output" true]
   /\ stdout (snd (run toy_host "/job/convert.py" blocked_job_fs ["Cube"])) = [])
  /\ (FS.stat lost_job_fs "/job" = Some (FS.IsFile "not a directory")
      /\ fst (run toy_host "/job/convert.py" lost_job_fs ["Cube"])
         = inl (OSError FS.ENOTDIR)
      /\ map what (history (snd (run toy_host "/job/convert.py" lost_job_fs ["Cube"])))
         = [CallMakedirs "/job/output" true]
      /\ stdout (snd (run toy_host "/job/convert.py" lost_job_fs ["Cube"])) = []).
Proof.
  split.
  - split; [reflexivity|].
    destruct (proj1 (blocked_output_directory_stops_the_run toy_host
                       "/job/convert.py" blocked_job_fs ["Cube"] "/job" "convert.py"
                       eq_refl eq_refl eq_refl))
      as (Hr & Hc & Hs & _).
    + now exists "not a directory".
    + split; [exact Hr|]. split; [exact Hc | exact Hs].
  - split; [reflexivity|].
    destruct (proj2 (blocked_output_directory_stops_the_run toy_host
                       "/job/convert.py" lost_job_fs ["Cube"] "/job" "convert.py"
                       eq_refl eq_refl eq_refl))
      as (Hr & Hc & Hs & _).
    + exists 1%nat, "not a directory". split; [vm_compute; lia | reflexivity].
    + split; [exact Hr|]. split; [exact Hc | exact Hs].
Defined.

Lemma missing_downloads_directory_counts_as_empty_witness :
  Glob.has_magic (script_dir "/job/convert.py" (FS.cwd bare_job_fs)) = false
  /\ FS.stat bare_job_fs "/job/downloads" = None
  /\ fst (run toy_host "/job/convert.py" bare_job_fs ["Cube"]) = inl (SystemExit 1)
  /\ stdout (snd (run toy_host "/job/convert.py" bare_job_fs ["Cube"]))
     = [no_files_message].
Proof.
  pose (f1 := match FS.makedirs bare_job_fs
                      (output_dir "/job/convert.py" (FS.cwd bare_job_fs)) true with
              | inr g => g
              | inl _ => bare_job_fs
              end).
  assert (Hmk : FS.makedirs bare_job_fs
                  (output_dir "/job/convert.py" (FS.cwd bare_job_fs)) true
                = inr f1) by reflexivity.
  split; [reflexivity|]. split; [reflexivity|].
  destruct (missing_downloads_directory_counts_as_empty toy_host "/job/convert.py"
              bare_job_fs f1 ["Cube"] eq_refl Hmk eq_refl)
    as (_ & Hr & Hs & _).
  split; [exact Hr | exact Hs].
Defined.

Lemma second_run_finds_the_same_inputs_witness :
  Glob.has_magic (script_dir "/job/convert.py" (FS.cwd job_fs)) = false
  /\ discovered "/job/convert.py"
       (fs (snd (run toy_host "/job/convert.py" job_fs ["Cube"])))
     = discovered "/job/convert.py" job_fs
  /\ discovered "/job/convert.py" job_fs
     = ["/job/downloads/chair.usdz"; "/job/downloads/table.v2.usdz"].
Proof.
  split; [reflexivity|]. split; [|reflexivity].
  exact (proj1 (second_run_finds_the_same_inputs toy_host "/job/convert.py"
                  job_fs ["Cube"] eq_refl)).
Defined.

Lemma discovery_goes_by_name_alone_witness :
  Glob.has_magic (script_dir "/job/convert.py" (FS.cwd folder_job_fs)) = false
  /\ wf folder_job_fs = true
  /\ FS.stat folder_job_fs "/job/downloads/set.usdz" = Some FS.IsDir
  /\ In "/job/downloads/set.usdz" (discovered "/job/convert.py" folder_job_fs)
  /\ NoDup (discovered "/job/convert.py" folder_job_fs).
Proof.
  pose (f1 := match FS.makedirs folder_job_fs
                      (output_dir "/job/convert.py" (FS.cwd folder_job_fs)) true with
              | inr g => g
              | inl _ => folder_job_fs
              end).
  assert (Hmk : FS.makedirs folder_job_fs
                  (output_dir "/job/convert.py" (FS.cwd folder_job_fs)) true
                = inr f1) by reflexivity.
  split; [reflexivity|]. split; [reflexivity|]. split; [reflexivity|].
  destruct (discovery_goes_by_name_alone "/job/convert.py" folder_job_fs f1
              "/job/downloads/set.usdz" eq_refl eq_refl Hmk) as [Hiff Hnd].
  split; [|exact Hnd].
  apply Hiff. exists "set". repeat split; try reflexivity. discriminate.
Defined.

Lemma output_is_named_after_its_input_witness :
  Glob.has_magic (script_dir "/job/convert.py" (FS.cwd job_fs)) = false
  /\ wf job_fs = true
  /\ In "/job/downloads/table.v2.usdz" (discovered "/job/convert.py" job_fs)
  /\ glb_path_of (output_dir "/job/convert.py" (FS.cwd job_fs))
       "/job/downloads/table.v2.usdz"
     = "/job/output/table.v2.glb"
  /\ exists x,
       x <> ""
       /\ contains "/" x = false
       /\ "/job/downloads/table.v2.usdz"
          = downloads_dir "/job/convert.py" (FS.cwd job_fs) ++ "/" ++ x ++ ".usdz"
       /\ glb_path_of (output_dir "/job/convert.py" (FS.cwd job_fs))
            "/job/downloads/table.v2.usdz"
          = output_dir "/job/convert.py" (FS.cwd job_fs) ++ "/" ++ x ++ ".glb".
Proof.
  assert (Hin : In "/job/downloads/table.v2.usdz"
                   (discovered "/job/convert.py" job_fs)).
  { vm_compute. right. left. reflexivity. }
  split; [reflexivity|]. split; [reflexivity|]. split; [exact Hin|].
  split; [reflexivity|].
  exact (output_is_named_after_its_input "/job/convert.py" job_fs
           "/job/downloads/table.v2.usdz" eq_refl eq_refl Hin).
Defined.

Lemma outputs_hold_what_this_run_exported_witness :
  FS.stat stale_job_fs "/job/output/chair.glb" = Some (FS.IsFile "old export")
  /\ fst (run toy_host "/job/convert.py" stale_job_fs ["Cube"]) = inr tt
  /\ FS.stat (fs (snd (run toy_host "/job/convert.py" stale_job_fs ["Cube"])))
             "/job/output/chair.glb"
     = Some (FS.IsFile "glTFPKchair")
  /\ exists ev data h',
       In ev (history (snd (run toy_host "/job/convert.py" stale_job_fs ["Cube"])))
       /\ what ev = CallExportGltf (export_kwargs "/job/output/chair.glb")
       /\ export_scene_gltf toy_host (export_kwargs "/job/output/chair.glb")
            (fs_at ev) (host_at ev) = inr (data, h')
       /\ FS.stat (fs (snd (run toy_host "/job/convert.py" stale_job_fs ["Cube"])))
                  "/job/output/chair.glb"
          = Some (FS.IsFile data).
Proof.
  assert (Hret : fst (run toy_host "/job/convert.py" stale_job_fs ["Cube"]) = inr tt)
    by (vm_compute; reflexivity).
  assert (Hin : In "/job/downloads/chair.usdz"
                   (discovered "/job/convert.py" stale_job_fs)).
  { vm_compute. left. reflexivity. }
  split; [reflexivity|]. split; [exact Hret|]. split; [vm_compute; reflexivity|].
  exact (outputs_hold_what_this_run_exported toy_host "/job/convert.py"
           stale_job_fs ["Cube"] "/job/downloads/chair.usdz"
           eq_refl eq_refl Hret Hin).
Defined.

Lemma inputs_lie_in_a_downloads_directory_witness :
  wf bracket_fs = true
  /\ Glob.has_magic (script_dir "/w[1]/convert.py" (FS.cwd bracket_fs)) = true
  /\ In "/w1/downloads/b.usdz" (discovered "/w[1]/convert.py" bracket_fs)
  /\ exists d x,
       "/w1/downloads/b.usdz" = d ++ "downloads/" ++ x ++ ".usdz"
       /\ (d = "" \/ endswith "/" d = true)
       /\ x <> "" /\ startswith "." x = false /\ contains "/" x = false.
Proof.
  assert (Hin : In "/w1/downloads/b.usdz"
                   (discovered "/w[1]/convert.py" bracket_fs)).
  { vm_compute. left. reflexivity. }
  split; [reflexivity|]. split; [reflexivity|]. split; [exact Hin|].
  exact (inputs_lie_in_a_downloads_directory "/w[1]/convert.py" bracket_fs
           "/w1/downloads/b.usdz" eq_refl Hin).
Defined.
